(** * Portfolio content generator: content model and region splicing

    A shallow embedding of [generate_content.py] (class
    [PortfolioGenerator]) and the properties of its region-splice code,
    its entity extraction and its create/remove operations.

    Python [str] values are sequences of Unicode code points; they are
    modelled as lists of code points ([N]).  [str.find] returns [-1] when
    there is no match; the model returns [None] there.

    The generator object and the site directory form one state, [World]:
    the files of the three directories the generator touches, the three
    in-memory collections and the lines printed so far, one constructor
    of [Msg] per [print] of the source.  Every method is a function from
    [World] to [World], with its return value where it has one.

    What the source takes from its environment is a parameter
    ([Platform]): [str.lower], the iteration order of a [set], the date of
    the day, and which file operations raise.  The HTML templates are the
    interface [Templates]; [source_templates] holds the text of the
    source's templates, line by line.  The local [title] that
    [_remove_broken_links_from_tags] computes and never uses is left
    out. *)

From Stdlib Require Import Ascii String NArith.
From stdpp Require Import base option list gmap sorting.

Abbreviation text := (list N) (only parsing).

(** A Python string literal without double quotes. *)
Definition py (s : string) : text := N_of_ascii <$> list_ascii_of_string s.

(** The double quote, the newline and a run of [n] blanks. *)
Definition dq : text := [34%N].
Definition nl : text := [10%N].
Definition blanks (n : nat) : text := replicate n 32%N.

(** ** [str.find], slices and joins *)

Section find.
Context {A : Type} `{EqDecision A}.

(** [s.startswith(sub)] *)
Fixpoint startswith (sub s : list A) : bool :=
  match sub, s with
  | [], _ => true
  | x :: sub', y :: s' => bool_decide (x = y) && startswith sub' s'
  | _ :: _, [] => false
  end.

(** Lowest index at which [sub] occurs in [s]. *)
Fixpoint find_first (sub s : list A) : option nat :=
  if startswith sub s then Some 0
  else match s with
       | [] => None
       | _ :: s' => S <$> find_first sub s'
       end.

(** [s.find(sub, start)] for [start >= 0]. *)
Definition find (s sub : list A) (start : nat) : option nat :=
  if decide (start ≤ length s)
  then (λ i, start + i) <$> find_first sub (drop start s)
  else None.

(** [sub] occurs in [s] at index [i], that is [s[i:i+len(sub)] == sub]
    with [i] a position of [s]. *)
Definition match_at (s sub : list A) (i : nat) : Prop :=
  i ≤ length s ∧ sub `prefix_of` drop i s.

(** [i] is the lowest index from [start] on at which [sub] occurs in [s]. *)
Definition first_match (s sub : list A) (start i : nat) : Prop :=
  start ≤ i ∧ match_at s sub i ∧ ∀ j, start ≤ j < i → ¬ match_at s sub j.

(** [sub in s] *)
Definition contains (s sub : list A) : Prop := is_Some (find s sub 0).

(** [sep.join(parts)] *)
Fixpoint join (sep : list A) (parts : list (list A)) : list A :=
  match parts with
  | [] => []
  | [p] => p
  | p :: ps => p ++ sep ++ join sep ps
  end.

(** The two texts agree wherever both have a character. *)
Fixpoint compatible (a b : list A) : bool :=
  match a, b with
  | x :: a', y :: b' => bool_decide (x = y) && compatible a' b'
  | _, _ => true
  end.

(** No occurrence of [e] can begin inside an occurrence of [s],
    whatever text follows. *)
Definition clear_of (s e : list A) : bool :=
  forallb (λ i, negb (compatible (drop i s) e)) (seq 0 (length s)).

(** ** The region splice

    The five page rewrites of the generator share one shape: locate the
    start marker, locate the end marker from [start_pos + gap], and
    rebuild the text around the new inner text. *)

Record Region := {
  start_marker : list A;
  end_marker : list A;
  gap : nat;            (* the end marker is searched from [start_pos + gap] *)
  sep_before : list A;  (* what follows the start marker *)
  sep_after : list A    (* what precedes the end marker *)
}.

Inductive splice_result :=
| Spliced (new_content : list A)
| StartNotFound
| EndNotFound.


Definition region_splice (rg : Region) (content inner : list A) : splice_result :=
  match find content (start_marker rg) 0 with
  | None => StartNotFound
  | Some start_pos =>
      match find content (end_marker rg) (start_pos + gap rg) with
      | None => EndNotFound
      | Some end_pos =>
          Spliced (take (start_pos + length (start_marker rg)) content
                   ++ sep_before rg ++ inner ++ sep_after rg
                   ++ drop end_pos content)
      end
  end.

(** What the splice puts between the markers. *)
Definition filling (rg : Region) (inner : list A) : list A :=
  sep_before rg ++ inner ++ sep_after rg.

(** The end marker is searched after the start marker, either because
    the search starts there or because no match can begin earlier. *)
Definition searches_after (rg : Region) : bool :=
  bool_decide (gap rg = length (start_marker rg))
  || (bool_decide (gap rg = 0) && clear_of (start_marker rg) (end_marker rg)).

(** The splice as section 4.4 of the specification words it: the end
    marker is searched strictly after the end of the start marker's
    match. *)
Definition splice_spec (rg : Region) (content inner : list A) : splice_result :=
  match find content (start_marker rg) 0 with
  | None => StartNotFound
  | Some start_pos =>
      match find content (end_marker rg) (start_pos + length (start_marker rg)) with
      | None => EndNotFound
      | Some end_pos =>
          Spliced (take (start_pos + length (start_marker rg)) content
                   ++ filling rg inner ++ drop end_pos content)
      end
  end.

(** Reading a region back: the text strictly between the start marker
    and the matched end marker, [content[start_pos + len(start_marker):end_pos]]. *)
Definition read_region (rg : Region) (content : list A) : option (list A) :=
  match find content (start_marker rg) 0 with
  | None => None
  | Some start_pos =>
      match find content (end_marker rg) (start_pos + length (start_marker rg)) with
      | None => None
      | Some end_pos =>
          let from := start_pos + length (start_marker rg) in
          Some (take (end_pos - from) (drop from content))
      end
  end.
End find.


Arguments Region : clear implicits.
Arguments splice_result : clear implicits.

Section fresh.
Context {A : Type} `{EqDecision A}.
Implicit Types (rg : Region A) (inner : list A).

(** The end marker does not occur in the filling, nor across its border
    with the end marker that follows it. *)
Definition end_marker_fresh rg inner : Prop :=
  find (filling rg inner ++ end_marker rg) (end_marker rg) 0
  = Some (length (filling rg inner)).

#[global] Instance end_marker_fresh_dec rg inner : Decision (end_marker_fresh rg inner).
Proof. unfold end_marker_fresh. apply _. Defined.
End fresh.




(** ** The markers of the generator *)

(** [end_marker = '</div>\n\n                </main>'], shared by the five
    listing rewrites. *)
Definition listing_end_marker : text :=
  py "</div>" ++ nl ++ nl ++ blanks 16 ++ py "</main>".

(** [_update_writeup_tags]: the tag container of a writeup page; the end
    marker is searched from [start_pos + len(start_marker)]. *)
Definition tag_region : Region N := {|
  start_marker := py "<div class=" ++ dq ++ py "tag-container mb-4" ++ dq ++ py ">";
  end_marker := py "</div>";
  gap := length (py "<div class=" ++ dq ++ py "tag-container mb-4" ++ dq ++ py ">");
  sep_before := nl ++ blanks 24;
  sep_after := nl ++ blanks 20
|}.

(** The listing rewrites search the end marker from [start_pos]. *)
Definition listing_region (start : text) : Region N := {|
  start_marker := start;
  end_marker := listing_end_marker;
  gap := 0;
  sep_before := nl;
  sep_after := nl
|}.

(** [_update_single_tag_page] and [_update_writeups_page] *)
Definition writeups_container : text :=
  py "<div class=" ++ dq ++ py "row" ++ dq ++ py " id=" ++ dq
  ++ py "writeupsContainer" ++ dq ++ py ">".
Definition tag_page_region : Region N := listing_region writeups_container.
Definition writeups_region : Region N := listing_region writeups_container.

(** [_update_tags_page] *)
Definition tags_container : text :=
  py "<div class=" ++ dq ++ py "row" ++ dq ++ py " id=" ++ dq
  ++ py "tagsContainer" ++ dq ++ py ">".
Definition tags_region : Region N := listing_region tags_container.

(** [_update_projects_page] and [_update_home_page]: the row that follows
    a heading. *)
Definition row_after_heading (icon heading : text) : text :=
  py "<div class=" ++ dq ++ py "mb-4" ++ dq ++ py ">" ++ nl
  ++ blanks 4 ++ py "<h2><i class=" ++ dq ++ py "fas " ++ icon ++ py " me-2" ++ dq
  ++ py "></i>" ++ heading ++ py "</h2>" ++ nl
  ++ py "</div>" ++ nl ++ nl
  ++ py "<div class=" ++ dq ++ py "row" ++ dq ++ py ">".
Definition projects_region : Region N :=
  listing_region (row_after_heading (py "fa-code") (py "Projects")).
Definition home_region : Region N :=
  listing_region (row_after_heading (py "fa-clock") (py "Recent Posts")).

(** Every rewrite of the generator searches its end marker behind the
    start marker: the tag region by its offset, the listing regions
    because no listing end marker can begin inside their start marker. *)
Definition generator_regions : list (Region N) :=
  [tag_region; tag_page_region; writeups_region; tags_region;
   projects_region; home_region].


(** ** [str.replace], [sorted] and the regular expressions in use *)

Section replace.
Context {A : Type} `{EqDecision A}.

(** Left-to-right scan; [skip] counts the characters of a match that
    are still to be passed over. *)
Fixpoint replace_scan (old new : list A) (skip : nat) (s : list A) : list A :=
  match s with
  | [] => []
  | c :: s' =>
      match skip with
      | S k => replace_scan old new k s'
      | 0 => if startswith old s
             then new ++ replace_scan old new (length old - 1) s'
             else c :: replace_scan old new 0 s'
      end
  end.

(** [s.replace(old, new)]; an empty [old] matches between characters. *)
Definition replace (old new s : list A) : list A :=
  match old with
  | [] => new ++ mjoin ((λ c, c :: new) <$> s)
  | _ :: _ => replace_scan old new 0 s
  end.
End replace.

(** Order of [str] values: lexicographic on code points. *)
Fixpoint text_leb (a b : text) : bool :=
  match a, b with
  | [], _ => true
  | _ :: _, [] => false
  | x :: a', y :: b' =>
      if decide (x < y)%N then true
      else if decide (x = y) then text_leb a' b' else false
  end.

(** [sorted(items)] *)
Definition sorted (items : list text) : list text :=
  merge_sort (λ a b, text_leb a b) items.

(** The patterns of the generator are sequences of literals and of
    single-character classes, the classes possibly starred.  The matcher
    tries the alternatives in the order of a backtracking engine and
    returns the text behind the first match found. *)
Inductive Atom :=
| Lit (l : text)
| One (p : N → bool)
| Star (p : N → bool)       (* greedy: longest run first *)
| LazyStar (p : N → bool).  (* non-greedy: shortest run first *)

Fixpoint star_greedy (p : N → bool) (k : text → option text) (s : text) : option text :=
  match s with
  | c :: s' =>
      if p c then
        match star_greedy p k s' with
        | Some rest => Some rest
        | None => k s
        end
      else k s
  | [] => k s
  end.

Fixpoint star_lazy (p : N → bool) (k : text → option text) (s : text) : option text :=
  match k s with
  | Some rest => Some rest
  | None =>
      match s with
      | c :: s' => if p c then star_lazy p k s' else None
      | [] => None
      end
  end.

Fixpoint re_match (r : list Atom) (s : text) : option text :=
  match r with
  | [] => Some s
  | Lit l :: r' => if startswith l s then re_match r' (drop (length l) s) else None
  | One p :: r' =>
      match s with
      | c :: s' => if p c then re_match r' s' else None
      | [] => None
      end
  | Star p :: r' => star_greedy p (re_match r') s
  | LazyStar p :: r' => star_lazy p (re_match r') s
  end.

(** [re.sub(r, '', s)] for a pattern that matches no empty text. *)
Fixpoint re_sub_scan (r : list Atom) (skip : nat) (s : text) : text :=
  match s with
  | [] => []
  | c :: s' =>
      match skip with
      | S k => re_sub_scan r k s'
      | 0 => match re_match r s with
             | Some rest => re_sub_scan r (length s - length rest - 1) s'
             | None => c :: re_sub_scan r 0 s'
             end
      end
  end.
Definition re_sub_delete (r : list Atom) (s : text) : text := re_sub_scan r 0 s.

(** [re.findall(r, s)] for a pattern with one group, framed by [before]
    and [after] characters of the match, that matches no empty text. *)
Fixpoint re_findall_scan (r : list Atom) (before after : nat) (skip : nat) (s : text)
  : list text :=
  match s with
  | [] => []
  | c :: s' =>
      match skip with
      | S k => re_findall_scan r before after k s'
      | 0 => match re_match r s with
             | Some rest =>
                 let n := length s - length rest in
                 take (n - before - after) (drop before s)
                 :: re_findall_scan r before after (n - 1) s'
             | None => re_findall_scan r before after 0 s'
             end
      end
  end.

Definition any_char (c : N) : bool := true.
Definition not_char (x : text) (c : N) : bool := bool_decide (c ∉ x).

(** [\s] on [str]: the characters for which [str.isspace] holds. *)
Definition whitespace (c : N) : bool :=
  bool_decide (c ∈ [9; 10; 11; 12; 13; 28; 29; 30; 31; 32; 133; 160; 5760;
                    8232; 8233; 8239; 8287; 12288]%N)
  || ((8192 <=? c) && (c <=? 8202))%N.

(** The pattern [tag-([^Q]+)\.html], where Q is the double quote. *)
Definition tag_link_pattern : list Atom :=
  [Lit (py "tag-"); One (not_char dq); Star (not_char dq); Lit (py ".html")].

(** [re.findall] of that pattern over [content]: the group is the match
    without its first four and last five characters. *)
Definition findall_tag_links (content : text) : list text :=
  re_findall_scan tag_link_pattern 4 5 0 content.

(** The card pattern of [_remove_broken_links_from_tags] under
    [re.DOTALL]: the opening [div] of a writeup card up to its [>], the
    shortest text up to the escaped file name, the shortest text up to
    three closing [div]s separated by optional white space. *)
Definition card_pattern (filename : text) : list Atom :=
  [Lit (py "<div class=" ++ dq ++ py "col-lg-6 col-xl-4 mb-4 writeup-card" ++ dq);
   Star (not_char (py ">")); Lit (py ">");
   LazyStar any_char; Lit filename; LazyStar any_char;
   Lit (py "</div>"); Star whitespace; Lit (py "</div>"); Star whitespace;
   Lit (py "</div>")].

(** ** The content model and its world *)

(** One writeup of [existing_writeups] (a [dict] in the source). *)
Record Writeup := {
  wu_title : text;
  wu_filename : text;
  wu_created_date : text;
  wu_updated_date : text;
  wu_machine_photo : text;
  wu_tags : list text;
  wu_difficulty : text;
  wu_os_type : text;
  wu_ip_address : text
}.

#[global] Instance Writeup_eq_dec : EqDecision Writeup.
Proof. solve_decision. Defined.

Definition set_tags (ts : list text) (wu : Writeup) : Writeup :=
  {| wu_title := wu_title wu; wu_filename := wu_filename wu;
     wu_created_date := wu_created_date wu; wu_updated_date := wu_updated_date wu;
     wu_machine_photo := wu_machine_photo wu; wu_tags := ts;
     wu_difficulty := wu_difficulty wu; wu_os_type := wu_os_type wu;
     wu_ip_address := wu_ip_address wu |}.

(** One project of [existing_projects]; the projects read back from
    [projects.html] carry no description. *)
Record Project := {
  pr_title : text;
  pr_description : option text;
  pr_url : text;
  pr_date : text
}.

(** The three directories the generator works in; a file is named by its
    directory and its name there, and different names are different
    files. *)
Inductive Dir := BaseDir | TagsDir | WriteupsDir.

#[global] Instance Dir_eq_dec : EqDecision Dir.
Proof. solve_decision. Defined.

(** The lines the generator prints, one constructor per [print]
    statement or family of them; the text of a caught exception is left
    out. *)
Inductive Msg :=
| TagAlreadyExists (tag_name : text)
| CreatedTag (tag_filename : text)
| ErrorCreatingTag (tag_name : text)
| WriteupNotFoundSkipping (title : text)
| TagAlreadyInWriteup (tag_name title : text)
| AddedTag (tag_name title : text)
| WriteupFileNotFound (filename : text)
| TagContainerNotFound (filename : text)
| TagContainerEndNotFound (filename : text)
| ErrorUpdatingTags (filename : text)
| WriteupAlreadyExists (title : text)
| WriteupAlreadyExistsFile (filename : text)
| UseDifferentTitle
| TagMissingCreatingIt (tag : text)
| CreatedWriteup (filename : text)
| ErrorCreatingWriteup (title : text)
| WriteupNotFound (title : text)
| DeletedWriteupFile (filename : text)
| WriteupFileMissing (filename : text)
| ErrorDeletingWriteupFile
| RemovedWriteup (title : text)
| RemovingBrokenLinks
| CleaningUpUnusedTags
| UpdatingMainPages
| RemovedBrokenLink (tag_file : text)
| DeletedUnusedTagFile (tag : text)
| ErrorDeletingTagFile (tag_file : text)
| TagNotFound (tag_name : text)
| DeletedUnusedTag (tag_name : text)
| ErrorDeletingTag
| TagStillUsed (tag_name : text)
| TagNotInWriteup (tag_name title : text)
| RemovedTag (tag_name title : text)
| AddedProject (title : text)
| UpdatedAllMainPages
| TagFileNotFoundSkipping (tag_file : text)
| PageNotFound (page : text)
| ContainerNotFound (page : text)
| ContainerEndNotFound (page : text)
| Updated (page : text)
| ErrorUpdating (page : text).

#[global] Instance Msg_eq_dec : EqDecision Msg.
Proof. solve_decision. Defined.

(** The generator object together with the files it works on and its
    output. *)
Record World := {
  base_dir : gmap text text;        (* files of the base directory, by name *)
  tags_dir : gmap text text;        (* files of [tags/], by name *)
  writeups_dir : gmap text text;    (* files of [writeups/], by name *)
  existing_tags : gset text;
  existing_writeups : list Writeup;
  existing_projects : list Project;
  stdout : list Msg
}.

Definition dir_files (d : Dir) (w : World) : gmap text text :=
  match d with
  | BaseDir => base_dir w
  | TagsDir => tags_dir w
  | WriteupsDir => writeups_dir w
  end.

Definition set_dir_files (d : Dir) (fs : gmap text text) (w : World) : World :=
  {| base_dir := match d with BaseDir => fs | _ => base_dir w end;
     tags_dir := match d with TagsDir => fs | _ => tags_dir w end;
     writeups_dir := match d with WriteupsDir => fs | _ => writeups_dir w end;
     existing_tags := existing_tags w;
     existing_writeups := existing_writeups w;
     existing_projects := existing_projects w;
     stdout := stdout w |}.

Definition set_existing_tags (ts : gset text) (w : World) : World :=
  {| base_dir := base_dir w; tags_dir := tags_dir w; writeups_dir := writeups_dir w;
     existing_tags := ts;
     existing_writeups := existing_writeups w;
     existing_projects := existing_projects w;
     stdout := stdout w |}.

Definition set_existing_writeups (ws : list Writeup) (w : World) : World :=
  {| base_dir := base_dir w; tags_dir := tags_dir w; writeups_dir := writeups_dir w;
     existing_tags := existing_tags w;
     existing_writeups := ws;
     existing_projects := existing_projects w;
     stdout := stdout w |}.

Definition set_existing_projects (ps : list Project) (w : World) : World :=
  {| base_dir := base_dir w; tags_dir := tags_dir w; writeups_dir := writeups_dir w;
     existing_tags := existing_tags w;
     existing_writeups := existing_writeups w;
     existing_projects := ps;
     stdout := stdout w |}.

(** [print(...)] *)
Definition print (m : Msg) (w : World) : World :=
  {| base_dir := base_dir w; tags_dir := tags_dir w; writeups_dir := writeups_dir w;
     existing_tags := existing_tags w;
     existing_writeups := existing_writeups w;
     existing_projects := existing_projects w;
     stdout := stdout w ++ [m] |}.

(** What the generator takes from the Python runtime and the system it
    runs on. *)
Class Platform := {
  (** [str.lower] *)
  lower : text → text;
  (** the order in which a [set] filled with the given items is iterated *)
  set_order : list text → list text;
  set_order_NoDup : ∀ l, NoDup (set_order l);
  set_order_elem : ∀ l x, x ∈ set_order l ↔ x ∈ l;
  (** [datetime.now().strftime(...)] *)
  today : text;
  (** the files on which opening for reading, opening for writing and
      unlinking raise *)
  read_fails : Dir → text → bool;
  write_fails : Dir → text → bool;
  unlink_fails : Dir → text → bool
}.

(** The links of a tag list, one per line; [href_prefix] leads from the
    page to the directory of the tag documents. *)
Definition tag_link_list (href_prefix : text) (tags : list text) : text :=
  join nl ((λ tag, py "<a href=" ++ dq ++ href_prefix ++ py "tag-" ++ tag ++ py ".html"
                   ++ dq ++ py " class=" ++ dq ++ py "tag-badge me-1" ++ dq ++ py ">"
                   ++ tag ++ py "</a>") <$> tags).

(** The [tag_links] of [_update_writeup_tags] and [_generate_writeup_html]. *)
Definition tag_links (tags : list text) : text := tag_link_list (py "../tags/") tags.

(** The page and card templates.  The operations below take them as
    an interface, so that every statement about the operations holds for
    the templates of the source as for any others; [source_templates] is
    the instance with the text of the source. *)
Class Templates := {
  _generate_tag_html : text → text → text;
  _generate_writeup_html :
    text → list text → text → text → text → text → text → text → text;
  tag_page_card : Writeup → text;       (* the card of [_generate_writeup_cards_for_tag] *)
  writeups_grid_card : Writeup → text;  (* the card of [_generate_writeups_grid] *)
  recent_post_card : Writeup → text;    (* the card of [_generate_recent_posts] *)
  project_card : Project → text         (* the card of [_generate_projects_grid] *)
}.

(** The templates of the source, line by line: each line of a literal is
    cut at its double quotes and at its placeholders. *)
Module Source.

(** [_generate_tag_html], lines 575 to 688; the paragraph of the
    description is there when the description is not empty. *)
Definition description_block (description : text) : text :=
  match description with
  | [] => []
  | _ :: _ => py "<p class=" ++ dq ++ py "text-muted" ++ dq ++ py ">" ++ description ++ py "</p>"
  end.

Definition _generate_tag_html (tag_name description : text) : text :=
  py "<!DOCTYPE html>" ++ nl ++
  py "<html lang=" ++ dq ++ py "en" ++ dq ++ py ">" ++ nl ++
  py "<head>" ++ nl ++
  py "    <meta charset=" ++ dq ++ py "UTF-8" ++ dq ++ py ">" ++ nl ++
  py "    <meta name=" ++ dq ++ py "viewport" ++ dq ++ py " content=" ++ dq ++ py "width=device-width, initial-scale=1.0" ++ dq ++ py ">" ++ nl ++
  py "    <title>Tag: " ++ tag_name ++ py " - V01</title>" ++ nl ++
  py "    <link href=" ++ dq ++ py "https://cdn.jsdelivr.net/npm/bootstrap@5.3.0/dist/css/bootstrap.min.css" ++ dq ++ py " rel=" ++ dq ++ py "stylesheet" ++ dq ++ py ">" ++ nl ++
  py "    <link href=" ++ dq ++ py "https://cdnjs.cloudflare.com/ajax/libs/font-awesome/6.4.0/css/all.min.css" ++ dq ++ py " rel=" ++ dq ++ py "stylesheet" ++ dq ++ py ">" ++ nl ++
  py "    <link href=" ++ dq ++ py "https://cdnjs.cloudflare.com/ajax/libs/prism/1.29.0/themes/prism-tomorrow.min.css" ++ dq ++ py " rel=" ++ dq ++ py "stylesheet" ++ dq ++ py ">" ++ nl ++
  py "    <link href=" ++ dq ++ py "../assets/css/style.css" ++ dq ++ py " rel=" ++ dq ++ py "stylesheet" ++ dq ++ py ">" ++ nl ++
  py "</head>" ++ nl ++
  py "<body>" ++ nl ++
  py "    <!-- Navigation -->" ++ nl ++
  py "    <nav class=" ++ dq ++ py "navbar navbar-expand-lg navbar-dark bg-dark" ++ dq ++ py " style=" ++ dq ++ py "background-color:#212529 !important;" ++ dq ++ py ">" ++ nl ++
  py "        <div class=" ++ dq ++ py "container" ++ dq ++ py ">" ++ nl ++
  py "            <a class=" ++ dq ++ py "navbar-brand" ++ dq ++ py " href=" ++ dq ++ py "../index.html" ++ dq ++ py ">" ++ nl ++
  py "                <i class=" ++ dq ++ py "fas fa-skull me-2" ++ dq ++ py "></i>V01" ++ nl ++
  py "            </a>" ++ nl ++
  py "            <button class=" ++ dq ++ py "navbar-toggler" ++ dq ++ py " type=" ++ dq ++ py "button" ++ dq ++ py " data-bs-toggle=" ++ dq ++ py "collapse" ++ dq ++ py " data-bs-target=" ++ dq ++ py "#navbarNav" ++ dq ++ py ">" ++ nl ++
  py "                <span class=" ++ dq ++ py "navbar-toggler-icon" ++ dq ++ py "></span>" ++ nl ++
  py "            </button>" ++ nl ++
  py "            <div class=" ++ dq ++ py "collapse navbar-collapse" ++ dq ++ py " id=" ++ dq ++ py "navbarNav" ++ dq ++ py ">" ++ nl ++
  py "                <ul class=" ++ dq ++ py "navbar-nav ms-auto" ++ dq ++ py ">" ++ nl ++
  py "                    <li class=" ++ dq ++ py "nav-item" ++ dq ++ py ">" ++ nl ++
  py "                        <a class=" ++ dq ++ py "nav-link" ++ dq ++ py " href=" ++ dq ++ py "../index.html" ++ dq ++ py ">" ++ nl ++
  py "                            <i class=" ++ dq ++ py "fas fa-home me-1" ++ dq ++ py "></i>Home" ++ nl ++
  py "                        </a>" ++ nl ++
  py "                    </li>" ++ nl ++
  py "                    <li class=" ++ dq ++ py "nav-item" ++ dq ++ py ">" ++ nl ++
  py "                        <a class=" ++ dq ++ py "nav-link" ++ dq ++ py " href=" ++ dq ++ py "../writeups.html" ++ dq ++ py ">" ++ nl ++
  py "                            <i class=" ++ dq ++ py "fas fa-file-alt me-1" ++ dq ++ py "></i>Writeups" ++ nl ++
  py "                        </a>" ++ nl ++
  py "                    </li>" ++ nl ++
  py "                    <li class=" ++ dq ++ py "nav-item" ++ dq ++ py ">" ++ nl ++
  py "                        <a class=" ++ dq ++ py "nav-link" ++ dq ++ py " href=" ++ dq ++ py "../projects.html" ++ dq ++ py ">" ++ nl ++
  py "                            <i class=" ++ dq ++ py "fas fa-code me-1" ++ dq ++ py "></i>Projects" ++ nl ++
  py "                        </a>" ++ nl ++
  py "                    </li>" ++ nl ++
  py "                    <li class=" ++ dq ++ py "nav-item" ++ dq ++ py ">" ++ nl ++
  py "                        <a class=" ++ dq ++ py "nav-link" ++ dq ++ py " href=" ++ dq ++ py "../tags.html" ++ dq ++ py ">" ++ nl ++
  py "                            <i class=" ++ dq ++ py "fas fa-tags me-1" ++ dq ++ py "></i>Tags" ++ nl ++
  py "                        </a>" ++ nl ++
  py "                    </li>" ++ nl ++
  py "                </ul>" ++ nl ++
  py "            </div>" ++ nl ++
  py "        </div>" ++ nl ++
  py "    </nav>" ++ nl ++
  nl ++
  py "    <!-- Main Content with Sidebar -->" ++ nl ++
  py "    <div class=" ++ dq ++ py "container-fluid" ++ dq ++ py ">" ++ nl ++
  py "        <div class=" ++ dq ++ py "row" ++ dq ++ py ">" ++ nl ++
  py "            <!-- Sidebar -->" ++ nl ++
  py "            <div class=" ++ dq ++ py "col-md-3 col-lg-2 sidebar" ++ dq ++ py ">" ++ nl ++
  py "                <div class=" ++ dq ++ py "sidebar-content" ++ dq ++ py ">" ++ nl ++
  py "                    <div class=" ++ dq ++ py "profile-section text-center mb-4" ++ dq ++ py ">" ++ nl ++
  py "                        <img src=" ++ dq ++ py "https://hackmyvm.eu/img/u/218d122cff717db7624e56a4d380872c.jpg" ++ dq ++ py " " ++ nl ++
  py "                             alt=" ++ dq ++ py "V01" ++ dq ++ py " class=" ++ dq ++ py "profile-avatar mb-3" ++ dq ++ py ">" ++ nl ++
  py "                        <h5 class=" ++ dq ++ py "text-white mb-2" ++ dq ++ py ">V01</h5>" ++ nl ++
  py "                        <p class=" ++ dq ++ py "text-white-50 mb-3" ++ dq ++ py ">Pentester, CTF player</p>" ++ nl ++
  py "                        <p class=" ++ dq ++ py "text-white-50 mb-3" ++ dq ++ py ">ACCH Team</p>" ++ nl ++
  py "                        <a href=" ++ dq ++ py "https://github.com/EndlssNightmare" ++ dq ++ py " " ++ nl ++
  py "                           target=" ++ dq ++ py "_blank" ++ dq ++ py " class=" ++ dq ++ py "btn btn-outline-light btn-sm" ++ dq ++ py ">" ++ nl ++
  py "                            <i class=" ++ dq ++ py "fab fa-github me-1" ++ dq ++ py "></i>GitHub" ++ nl ++
  py "                        </a>" ++ nl ++
  py "                    </div>" ++ nl ++
  py "                </div>" ++ nl ++
  py "            </div>" ++ nl ++
  py "            " ++ nl ++
  py "            <!-- Main Content -->" ++ nl ++
  py "            <div class=" ++ dq ++ py "col-md-9 col-lg-10 main-content" ++ dq ++ py ">" ++ nl ++
  py "                <main class=" ++ dq ++ py "my-4" ++ dq ++ py ">" ++ nl ++
  py "                    " ++ nl ++
  py "                    <nav aria-label=" ++ dq ++ py "breadcrumb" ++ dq ++ py ">" ++ nl ++
  py "                        <ol class=" ++ dq ++ py "breadcrumb" ++ dq ++ py ">" ++ nl ++
  py "                            <li class=" ++ dq ++ py "breadcrumb-item" ++ dq ++ py "><a href=" ++ dq ++ py "../index.html" ++ dq ++ py ">Home</a></li>" ++ nl ++
  py "                            <li class=" ++ dq ++ py "breadcrumb-item" ++ dq ++ py "><a href=" ++ dq ++ py "../tags.html" ++ dq ++ py ">Tags</a></li>" ++ nl ++
  py "                            <li class=" ++ dq ++ py "breadcrumb-item active" ++ dq ++ py " aria-current=" ++ dq ++ py "page" ++ dq ++ py ">" ++ tag_name ++ py "</li>" ++ nl ++
  py "                        </ol>" ++ nl ++
  py "                    </nav>" ++ nl ++
  nl ++
  py "                    <div class=" ++ dq ++ py "mb-4" ++ dq ++ py ">" ++ nl ++
  py "                        <h2><i class=" ++ dq ++ py "fas fa-tag me-2" ++ dq ++ py "></i>Tag: " ++ tag_name ++ py "</h2>" ++ nl ++
  py "                        " ++ description_block description ++ nl ++
  py "                    </div>" ++ nl ++
  nl ++
  py "                    <div class=" ++ dq ++ py "row" ++ dq ++ py " id=" ++ dq ++ py "writeupsContainer" ++ dq ++ py ">" ++ nl ++
  py "                        <!-- Writeups with this tag will be listed here -->" ++ nl ++
  py "                    </div>" ++ nl ++
  nl ++
  py "                </main>" ++ nl ++
  py "            </div>" ++ nl ++
  py "        </div>" ++ nl ++
  py "    </div>" ++ nl ++
  nl ++
  py "    <!-- Footer -->" ++ nl ++
  py "    <footer class=" ++ dq ++ py "bg-dark text-light py-3 mt-5" ++ dq ++ py ">" ++ nl ++
  py "        <div class=" ++ dq ++ py "container" ++ dq ++ py ">" ++ nl ++
  py "            <div class=" ++ dq ++ py "row" ++ dq ++ py ">" ++ nl ++
  py "                <div class=" ++ dq ++ py "col-12" ++ dq ++ py ">" ++ nl ++
  py "                    <p class=" ++ dq ++ py "mb-0" ++ dq ++ py ">" ++ [172%N] ++ [169%N] ++ py " 2025 V01</p>" ++ nl ++
  py "                </div>" ++ nl ++
  py "            </div>" ++ nl ++
  py "        </div>" ++ nl ++
  py "    </footer>" ++ nl ++
  nl ++
  py "    <script src=" ++ dq ++ py "https://cdn.jsdelivr.net/npm/bootstrap@5.3.0/dist/js/bootstrap.bundle.min.js" ++ dq ++ py "></script>" ++ nl ++
  py "    <script src=" ++ dq ++ py "https://cdnjs.cloudflare.com/ajax/libs/prism/1.29.0/components/prism-core.min.js" ++ dq ++ py "></script>" ++ nl ++
  py "    <script src=" ++ dq ++ py "https://cdnjs.cloudflare.com/ajax/libs/prism/1.29.0/plugins/autoloader/prism-autoloader.min.js" ++ dq ++ py "></script>" ++ nl ++
  py "    <script src=" ++ dq ++ py "../assets/js/script.js" ++ dq ++ py "></script>" ++ nl ++
  py "    <script src=" ++ dq ++ py "../assets/js/search.js" ++ dq ++ py "></script>" ++ nl ++
  py "</body>" ++ nl ++
  py "</html>".

(** [_generate_writeup_html], lines 690 to 919. *)
Definition photo_block (machine_photo : text) : text :=
  match machine_photo with
  | [] => []
  | _ :: _ =>
      py "<div class=" ++ dq ++ py "d-none d-md-block" ++ dq ++ py "><img src=" ++ dq ++ machine_photo ++ dq ++ py " alt=" ++ dq ++ py "Machine Photo" ++ dq ++ py " class=" ++ dq ++ py "img-fluid rounded" ++ dq ++ py " style=" ++ dq ++ py "max-width: 300px; height: auto;" ++ dq ++ py "></div>"
  end.

Definition machine_info_parts (difficulty os_type ip_address : text) : list text :=
  (match difficulty with
   | [] => []
   | _ :: _ => [py "<span class=" ++ dq ++ py "badge bg-primary me-2" ++ dq ++ py "><i class=" ++ dq ++ py "fas fa-star me-1" ++ dq ++ py "></i>Difficulty: " ++ difficulty ++ py "</span>"]
   end)
  ++ (match os_type with
      | [] => []
      | _ :: _ => [py "<span class=" ++ dq ++ py "badge bg-info me-2" ++ dq ++ py "><i class=" ++ dq ++ py "fas fa-desktop me-1" ++ dq ++ py "></i>OS: " ++ os_type ++ py "</span>"]
      end)
  ++ (match ip_address with
      | [] => []
      | _ :: _ => [py "<span class=" ++ dq ++ py "badge bg-secondary me-2" ++ dq ++ py "><i class=" ++ dq ++ py "fas fa-network-wired me-1" ++ dq ++ py "></i>IP: " ++ ip_address ++ py "</span>"]
      end).

Definition machine_info_html (difficulty os_type ip_address : text) : text :=
  match difficulty ++ os_type ++ ip_address with
  | [] => []
  | _ :: _ =>
      nl ++
      py "                                    <div class=" ++ dq ++ py "machine-info mb-3" ++ dq ++ py ">" ++ nl ++
      py "                                        <h6 class=" ++ dq ++ py "text-muted mb-2" ++ dq ++ py "><i class=" ++ dq ++ py "fas fa-server me-1" ++ dq ++ py "></i>Machine Information:</h6>" ++ nl ++
      py "                                        <div class=" ++ dq ++ py "d-flex flex-wrap" ++ dq ++ py ">" ++ nl ++
      py "                                            " ++ mjoin (machine_info_parts difficulty os_type ip_address) ++ nl ++
      py "                                        </div>" ++ nl ++
      py "                                    </div>"
  end.

Definition _generate_writeup_html (title : text) (tags : list text)
  (machine_photo created_date updated_date difficulty os_type ip_address : text)
  : text :=
  py "<!DOCTYPE html>" ++ nl ++
  py "<html lang=" ++ dq ++ py "en" ++ dq ++ py ">" ++ nl ++
  py "<head>" ++ nl ++
  py "    <meta charset=" ++ dq ++ py "UTF-8" ++ dq ++ py ">" ++ nl ++
  py "    <meta name=" ++ dq ++ py "viewport" ++ dq ++ py " content=" ++ dq ++ py "width=device-width, initial-scale=1.0" ++ dq ++ py ">" ++ nl ++
  py "    <title>" ++ title ++ py " - V01</title>" ++ nl ++
  py "    <link href=" ++ dq ++ py "https://cdn.jsdelivr.net/npm/bootstrap@5.3.0/dist/css/bootstrap.min.css" ++ dq ++ py " rel=" ++ dq ++ py "stylesheet" ++ dq ++ py ">" ++ nl ++
  py "    <link href=" ++ dq ++ py "https://cdnjs.cloudflare.com/ajax/libs/font-awesome/6.4.0/css/all.min.css" ++ dq ++ py " rel=" ++ dq ++ py "stylesheet" ++ dq ++ py ">" ++ nl ++
  py "    <link href=" ++ dq ++ py "https://cdnjs.cloudflare.com/ajax/libs/prism/1.29.0/themes/prism-tomorrow.min.css" ++ dq ++ py " rel=" ++ dq ++ py "stylesheet" ++ dq ++ py ">" ++ nl ++
  py "    <link href=" ++ dq ++ py "../assets/css/style.css" ++ dq ++ py " rel=" ++ dq ++ py "stylesheet" ++ dq ++ py ">" ++ nl ++
  py "</head>" ++ nl ++
  py "<body>" ++ nl ++
  py "    <!-- Navigation -->" ++ nl ++
  py "    <nav class=" ++ dq ++ py "navbar navbar-expand-lg navbar-dark bg-dark" ++ dq ++ py " style=" ++ dq ++ py "background-color:#212529 !important;" ++ dq ++ py ">" ++ nl ++
  py "        <div class=" ++ dq ++ py "container" ++ dq ++ py ">" ++ nl ++
  py "            <a class=" ++ dq ++ py "navbar-brand" ++ dq ++ py " href=" ++ dq ++ py "../index.html" ++ dq ++ py ">" ++ nl ++
  py "                <i class=" ++ dq ++ py "fas fa-skull me-2" ++ dq ++ py "></i>V01" ++ nl ++
  py "            </a>" ++ nl ++
  py "            <button class=" ++ dq ++ py "navbar-toggler" ++ dq ++ py " type=" ++ dq ++ py "button" ++ dq ++ py " data-bs-toggle=" ++ dq ++ py "collapse" ++ dq ++ py " data-bs-target=" ++ dq ++ py "#navbarNav" ++ dq ++ py ">" ++ nl ++
  py "                <span class=" ++ dq ++ py "navbar-toggler-icon" ++ dq ++ py "></span>" ++ nl ++
  py "            </button>" ++ nl ++
  py "            <div class=" ++ dq ++ py "collapse navbar-collapse" ++ dq ++ py " id=" ++ dq ++ py "navbarNav" ++ dq ++ py ">" ++ nl ++
  py "                <ul class=" ++ dq ++ py "navbar-nav ms-auto" ++ dq ++ py ">" ++ nl ++
  py "                    <li class=" ++ dq ++ py "nav-item" ++ dq ++ py ">" ++ nl ++
  py "                        <a class=" ++ dq ++ py "nav-link" ++ dq ++ py " href=" ++ dq ++ py "../index.html" ++ dq ++ py ">" ++ nl ++
  py "                            <i class=" ++ dq ++ py "fas fa-home me-1" ++ dq ++ py "></i>Home" ++ nl ++
  py "                        </a>" ++ nl ++
  py "                    </li>" ++ nl ++
  py "                    <li class=" ++ dq ++ py "nav-item" ++ dq ++ py ">" ++ nl ++
  py "                        <a class=" ++ dq ++ py "nav-link" ++ dq ++ py " href=" ++ dq ++ py "../writeups.html" ++ dq ++ py ">" ++ nl ++
  py "                            <i class=" ++ dq ++ py "fas fa-file-alt me-1" ++ dq ++ py "></i>Writeups" ++ nl ++
  py "                        </a>" ++ nl ++
  py "                    </li>" ++ nl ++
  py "                    <li class=" ++ dq ++ py "nav-item" ++ dq ++ py ">" ++ nl ++
  py "                        <a class=" ++ dq ++ py "nav-link" ++ dq ++ py " href=" ++ dq ++ py "../projects.html" ++ dq ++ py ">" ++ nl ++
  py "                            <i class=" ++ dq ++ py "fas fa-code me-1" ++ dq ++ py "></i>Projects" ++ nl ++
  py "                        </a>" ++ nl ++
  py "                    </li>" ++ nl ++
  py "                    <li class=" ++ dq ++ py "nav-item" ++ dq ++ py ">" ++ nl ++
  py "                        <a class=" ++ dq ++ py "nav-link" ++ dq ++ py " href=" ++ dq ++ py "../tags.html" ++ dq ++ py ">" ++ nl ++
  py "                            <i class=" ++ dq ++ py "fas fa-tags me-1" ++ dq ++ py "></i>Tags" ++ nl ++
  py "                        </a>" ++ nl ++
  py "                    </li>" ++ nl ++
  py "                </ul>" ++ nl ++
  py "            </div>" ++ nl ++
  py "        </div>" ++ nl ++
  py "    </nav>" ++ nl ++
  nl ++
  py "    <!-- Main Content with Sidebar -->" ++ nl ++
  py "    <div class=" ++ dq ++ py "container-fluid" ++ dq ++ py ">" ++ nl ++
  py "        <div class=" ++ dq ++ py "row" ++ dq ++ py ">" ++ nl ++
  py "            <!-- Sidebar -->" ++ nl ++
  py "            <div class=" ++ dq ++ py "col-md-3 col-lg-2 sidebar" ++ dq ++ py ">" ++ nl ++
  py "                <div class=" ++ dq ++ py "sidebar-content" ++ dq ++ py ">" ++ nl ++
  py "                    <div class=" ++ dq ++ py "profile-section text-center mb-4" ++ dq ++ py ">" ++ nl ++
  py "                        <img src=" ++ dq ++ py "https://hackmyvm.eu/img/u/218d122cff717db7624e56a4d380872c.jpg" ++ dq ++ py " " ++ nl ++
  py "                             alt=" ++ dq ++ py "V01" ++ dq ++ py " class=" ++ dq ++ py "profile-avatar mb-3" ++ dq ++ py ">" ++ nl ++
  py "                        <h5 class=" ++ dq ++ py "text-white mb-2" ++ dq ++ py ">V01</h5>" ++ nl ++
  py "                        <p class=" ++ dq ++ py "text-white-50 mb-3" ++ dq ++ py ">Pentester, CTF player</p>" ++ nl ++
  py "                        <p class=" ++ dq ++ py "text-white-50 mb-3" ++ dq ++ py ">ACCH Team</p>" ++ nl ++
  py "                        <a href=" ++ dq ++ py "https://github.com/EndlssNightmare" ++ dq ++ py " " ++ nl ++
  py "                           target=" ++ dq ++ py "_blank" ++ dq ++ py " class=" ++ dq ++ py "btn btn-outline-light btn-sm" ++ dq ++ py ">" ++ nl ++
  py "                            <i class=" ++ dq ++ py "fab fa-github me-1" ++ dq ++ py "></i>GitHub" ++ nl ++
  py "                        </a>" ++ nl ++
  py "                    </div>" ++ nl ++
  py "                </div>" ++ nl ++
  py "            </div>" ++ nl ++
  py "            " ++ nl ++
  py "            <!-- Main Content -->" ++ nl ++
  py "            <div class=" ++ dq ++ py "col-md-9 col-lg-10 main-content" ++ dq ++ py ">" ++ nl ++
  py "                <main class=" ++ dq ++ py "my-4" ++ dq ++ py ">" ++ nl ++
  py "                    " ++ nl ++
  py "                    <nav aria-label=" ++ dq ++ py "breadcrumb" ++ dq ++ py ">" ++ nl ++
  py "                        <ol class=" ++ dq ++ py "breadcrumb" ++ dq ++ py ">" ++ nl ++
  py "                            <li class=" ++ dq ++ py "breadcrumb-item" ++ dq ++ py "><a href=" ++ dq ++ py "../index.html" ++ dq ++ py ">Home</a></li>" ++ nl ++
  py "                            <li class=" ++ dq ++ py "breadcrumb-item" ++ dq ++ py "><a href=" ++ dq ++ py "../writeups.html" ++ dq ++ py ">Writeups</a></li>" ++ nl ++
  py "                            <li class=" ++ dq ++ py "breadcrumb-item active" ++ dq ++ py " aria-current=" ++ dq ++ py "page" ++ dq ++ py ">" ++ title ++ py "</li>" ++ nl ++
  py "                        </ol>" ++ nl ++
  py "                    </nav>" ++ nl ++
  nl ++
  py "                    <div class=" ++ dq ++ py "card border-0 shadow-sm" ++ dq ++ py ">" ++ nl ++
  py "                        <div class=" ++ dq ++ py "card-body" ++ dq ++ py ">" ++ nl ++
  py "                            <div class=" ++ dq ++ py "d-flex align-items-start gap-4" ++ dq ++ py ">" ++ nl ++
  py "                                <div class=" ++ dq ++ py "flex-grow-1" ++ dq ++ py ">" ++ nl ++
  py "                                    <h1 class=" ++ dq ++ py "card-title mb-3" ++ dq ++ py ">" ++ title ++ py "</h1>" ++ nl ++
  py "                                    " ++ nl ++
  py "                                    <div class=" ++ dq ++ py "mb-3" ++ dq ++ py ">" ++ nl ++
  py "                                        <small class=" ++ dq ++ py "text-muted" ++ dq ++ py ">" ++ nl ++
  py "                                            <i class=" ++ dq ++ py "fas fa-calendar me-1" ++ dq ++ py "></i>Created: " ++ created_date ++ nl ++
  py "                                            " ++ nl ++
  py "                                            <br><i class=" ++ dq ++ py "fas fa-edit me-1" ++ dq ++ py "></i>Updated: " ++ updated_date ++ nl ++
  py "                                        </small>" ++ nl ++
  py "                                    </div>" ++ nl ++
  nl ++
  py "                                    <div class=" ++ dq ++ py "tag-container mb-4" ++ dq ++ py ">" ++ nl ++
  py "                                        " ++ tag_links tags ++ nl ++
  py "                                    </div>" ++ nl ++
  py "                                    " ++ nl ++
  py "                                    " ++ machine_info_html difficulty os_type ip_address ++ nl ++
  py "                                </div>" ++ nl ++
  py "                                " ++ nl ++
  py "                                " ++ photo_block machine_photo ++ nl ++
  py "                            </div>" ++ nl ++
  nl ++
  py "                            <div id=" ++ dq ++ py "markdown-content" ++ dq ++ py " class=" ++ dq ++ py "markdown-content" ++ dq ++ py " style=" ++ dq ++ py "display: none;" ++ dq ++ py ">" ++ nl ++
  py "# Overview" ++ nl ++
  nl ++
  py "Add your writeup content here using **markdown** syntax!" ++ nl ++
  nl ++
  py "## Initial Reconnaissance" ++ nl ++
  nl ++
  py "Describe your initial reconnaissance process..." ++ nl ++
  nl ++
  py "### Example Commands" ++ nl ++
  nl ++
  py "```bash" ++ nl ++
  py "nmap -sC -sV -p- 10.10.10.10" ++ nl ++
  py "```" ++ nl ++
  nl ++
  py "### Key Findings" ++ nl ++
  nl ++
  py "- Port 80: HTTP service" ++ nl ++
  py "- Port 22: SSH service" ++ nl ++
  py "- Port 445: SMB service" ++ nl ++
  nl ++
  py "## Exploitation" ++ nl ++
  nl ++
  py "Detail your exploitation steps..." ++ nl ++
  nl ++
  py "### Code Example" ++ nl ++
  nl ++
  py "```python" ++ nl ++
  py "import requests" ++ nl ++
  nl ++
  py "url = " ++ dq ++ py "http://10.10.10.10/admin" ++ dq ++ nl ++
  py "data = {" ++ dq ++ py "username" ++ dq ++ py ": " ++ dq ++ py "admin" ++ dq ++ py ", " ++ dq ++ py "password" ++ dq ++ py ": " ++ dq ++ py "password" ++ dq ++ py "}" ++ nl ++
  py "response = requests.post(url, data=data)" ++ nl ++
  py "```" ++ nl ++
  nl ++
  py "## Privilege Escalation" ++ nl ++
  nl ++
  py "Explain privilege escalation techniques used..." ++ nl ++
  nl ++
  py "### Important Notes" ++ nl ++
  nl ++
  py "> **Note**: Always document your methodology and findings clearly." ++ nl ++
  nl ++
  py "## Conclusion" ++ nl ++
  nl ++
  py "Summarize your findings and lessons learned..." ++ nl ++
  py "                            </div>" ++ nl ++
  py "                        </div>" ++ nl ++
  py "                    </div>" ++ nl ++
  nl ++
  py "                </main>" ++ nl ++
  py "            </div>" ++ nl ++
  py "        </div>" ++ nl ++
  py "    </div>" ++ nl ++
  nl ++
  py "    <!-- Footer -->" ++ nl ++
  py "    <footer class=" ++ dq ++ py "bg-dark text-light py-3 mt-5" ++ dq ++ py ">" ++ nl ++
  py "        <div class=" ++ dq ++ py "container" ++ dq ++ py ">" ++ nl ++
  py "            <div class=" ++ dq ++ py "row" ++ dq ++ py ">" ++ nl ++
  py "                <div class=" ++ dq ++ py "col-12" ++ dq ++ py ">" ++ nl ++
  py "                    <p class=" ++ dq ++ py "mb-0" ++ dq ++ py ">" ++ [172%N] ++ [169%N] ++ py " 2025 V01</p>" ++ nl ++
  py "                </div>" ++ nl ++
  py "            </div>" ++ nl ++
  py "        </div>" ++ nl ++
  py "    </footer>" ++ nl ++
  nl ++
  py "    <script src=" ++ dq ++ py "https://cdn.jsdelivr.net/npm/bootstrap@5.3.0/dist/js/bootstrap.bundle.min.js" ++ dq ++ py "></script>" ++ nl ++
  py "    <script src=" ++ dq ++ py "https://cdnjs.cloudflare.com/ajax/libs/prism/1.29.0/components/prism-core.min.js" ++ dq ++ py "></script>" ++ nl ++
  py "    <script src=" ++ dq ++ py "https://cdnjs.cloudflare.com/ajax/libs/prism/1.29.0/plugins/autoloader/prism-autoloader.min.js" ++ dq ++ py "></script>" ++ nl ++
  py "    <script src=" ++ dq ++ py "https://cdn.jsdelivr.net/npm/marked/marked.min.js" ++ dq ++ py "></script>" ++ nl ++
  py "    <script src=" ++ dq ++ py "../assets/js/script.js" ++ dq ++ py "></script>" ++ nl ++
  py "    <script src=" ++ dq ++ py "../assets/js/search.js" ++ dq ++ py "></script>" ++ nl ++
  py "    <script>" ++ nl ++
  py "        // Initialize markdown processing" ++ nl ++
  py "        document.addEventListener('DOMContentLoaded', function() {" ++ nl ++
  py "            const markdownContainer = document.getElementById('markdown-content');" ++ nl ++
  py "            if (markdownContainer) {" ++ nl ++
  py "                // Configure marked.js options" ++ nl ++
  py "                marked.setOptions({" ++ nl ++
  py "                    breaks: true," ++ nl ++
  py "                    gfm: true," ++ nl ++
  py "                    highlight: function(code, lang) {" ++ nl ++
  py "                        if (lang && Prism.languages[lang]) {" ++ nl ++
  py "                            return Prism.highlight(code, Prism.languages[lang], lang);" ++ nl ++
  py "                        }" ++ nl ++
  py "                        return code;" ++ nl ++
  py "                    }" ++ nl ++
  py "                });" ++ nl ++
  py "                " ++ nl ++
  py "                // Convert markdown to HTML" ++ nl ++
  py "                const markdownText = markdownContainer.textContent;" ++ nl ++
  py "                markdownContainer.innerHTML = marked.parse(markdownText);" ++ nl ++
  py "                markdownContainer.style.display = 'block';" ++ nl ++
  py "                " ++ nl ++
  py "                // Re-highlight code blocks with Prism" ++ nl ++
  py "                Prism.highlightAll();" ++ nl ++
  py "            }" ++ nl ++
  py "        });" ++ nl ++
  py "    </script>" ++ nl ++
  py "</body>" ++ nl ++
  py "</html>".

(** The card of [_generate_writeup_cards_for_tag], lines 541 to 571. *)
Definition tag_page_card (writeup : Writeup) : text :=
  py "    <div class=" ++ dq ++ py "col-lg-6 col-xl-4 mb-4 writeup-card" ++ dq ++ py " data-category=" ++ dq ++ dq ++ py ">" ++ nl ++
  py "        <div class=" ++ dq ++ py "card h-100 border-0 shadow-sm" ++ dq ++ py ">" ++ nl ++
  py "            <div class=" ++ dq ++ py "card-body d-flex align-items-start gap-3" ++ dq ++ py ">" ++ nl ++
  py "                <div class=" ++ dq ++ py "flex-grow-1" ++ dq ++ py ">" ++ nl ++
  py "                    <h5 class=" ++ dq ++ py "card-title mb-2 writeup-title" ++ dq ++ py ">" ++ nl ++
  py "                        <a href=" ++ dq ++ py "../writeups/" ++ wu_filename writeup ++ dq ++ py " class=" ++ dq ++ py "text-decoration-none" ++ dq ++ py ">" ++ nl ++
  py "                            " ++ wu_title writeup ++ nl ++
  py "                        </a>" ++ nl ++
  py "                    </h5>" ++ nl ++
  py "                    <p class=" ++ dq ++ py "card-text project-excerpt mb-2" ++ dq ++ py ">" ++ nl ++
  py "                        " ++ wu_title writeup ++ py " This writeup documents the discovery and analysis..." ++ nl ++
  py "                    </p>" ++ nl ++
  py "                    <small class=" ++ dq ++ py "project-date mb-2" ++ dq ++ py ">" ++ nl ++
  py "                        <i class=" ++ dq ++ py "fas fa-calendar me-1" ++ dq ++ py "></i>" ++ wu_created_date writeup ++ nl ++
  py "                    </small>" ++ nl ++
  py "                    " ++ nl ++
  py "                    <div class=" ++ dq ++ py "tag-container" ++ dq ++ py ">" ++ nl ++
  py "                        " ++ tag_link_list ([]) (wu_tags writeup) ++ nl ++
  py "                    </div>" ++ nl ++
  py "                    " ++ nl ++
  py "                </div>" ++ nl ++
  py "                <div class=" ++ dq ++ py "d-none d-md-block" ++ dq ++ py ">" ++ nl ++
  py "                    <img" ++ nl ++
  py "                        src=" ++ dq ++ wu_machine_photo writeup ++ dq ++ nl ++
  py "                        alt=" ++ dq ++ py "Writeup image" ++ dq ++ nl ++
  py "                        class=" ++ dq ++ py "writeup-thumb" ++ dq ++ nl ++
  py "                    />" ++ nl ++
  py "                </div>" ++ nl ++
  py "            </div>" ++ nl ++
  py "        </div>" ++ nl ++
  py "    </div>".

(** The card of [_generate_writeups_grid], lines 1085 to 1115. *)
Definition writeups_grid_card (writeup : Writeup) : text :=
  py "    <div class=" ++ dq ++ py "col-lg-6 col-xl-4 mb-4 writeup-card" ++ dq ++ py " data-category=" ++ dq ++ dq ++ py ">" ++ nl ++
  py "        <div class=" ++ dq ++ py "card h-100 border-0 shadow-sm" ++ dq ++ py ">" ++ nl ++
  py "            <div class=" ++ dq ++ py "card-body d-flex align-items-start gap-3" ++ dq ++ py ">" ++ nl ++
  py "                <div class=" ++ dq ++ py "flex-grow-1" ++ dq ++ py ">" ++ nl ++
  py "                    <h5 class=" ++ dq ++ py "card-title mb-2 writeup-title" ++ dq ++ py ">" ++ nl ++
  py "                        <a href=" ++ dq ++ py "writeups/" ++ wu_filename writeup ++ dq ++ py " class=" ++ dq ++ py "text-decoration-none" ++ dq ++ py ">" ++ nl ++
  py "                            " ++ wu_title writeup ++ nl ++
  py "                        </a>" ++ nl ++
  py "                    </h5>" ++ nl ++
  py "                    <p class=" ++ dq ++ py "card-text project-excerpt mb-2" ++ dq ++ py ">" ++ nl ++
  py "                        " ++ wu_title writeup ++ py " This writeup documents the discovery and analysis..." ++ nl ++
  py "                    </p>" ++ nl ++
  py "                    <small class=" ++ dq ++ py "project-date mb-2" ++ dq ++ py ">" ++ nl ++
  py "                        <i class=" ++ dq ++ py "fas fa-calendar me-1" ++ dq ++ py "></i>" ++ wu_created_date writeup ++ nl ++
  py "                    </small>" ++ nl ++
  py "                    " ++ nl ++
  py "                    <div class=" ++ dq ++ py "tag-container" ++ dq ++ py ">" ++ nl ++
  py "                        " ++ tag_link_list (py "tags/") (wu_tags writeup) ++ nl ++
  py "                    </div>" ++ nl ++
  py "                    " ++ nl ++
  py "                </div>" ++ nl ++
  py "                <div class=" ++ dq ++ py "d-none d-md-block" ++ dq ++ py ">" ++ nl ++
  py "                    <img" ++ nl ++
  py "                        src=" ++ dq ++ wu_machine_photo writeup ++ dq ++ nl ++
  py "                        alt=" ++ dq ++ py "Writeup image" ++ dq ++ nl ++
  py "                        class=" ++ dq ++ py "writeup-thumb" ++ dq ++ nl ++
  py "                    />" ++ nl ++
  py "                </div>" ++ nl ++
  py "            </div>" ++ nl ++
  py "        </div>" ++ nl ++
  py "    </div>".

(** The card of [_generate_recent_posts], lines 1172 to 1202. *)
Definition recent_post_card (writeup : Writeup) : text :=
  py "    <div class=" ++ dq ++ py "col-12 mb-4 writeup-card" ++ dq ++ py " data-category=" ++ dq ++ dq ++ py ">" ++ nl ++
  py "        <div class=" ++ dq ++ py "card h-100 border-0 shadow-sm" ++ dq ++ py ">" ++ nl ++
  py "            <div class=" ++ dq ++ py "card-body d-flex align-items-start gap-3" ++ dq ++ py ">" ++ nl ++
  py "                <div class=" ++ dq ++ py "flex-grow-1" ++ dq ++ py ">" ++ nl ++
  py "                    <h5 class=" ++ dq ++ py "card-title mb-2 writeup-title" ++ dq ++ py ">" ++ nl ++
  py "                        <a href=" ++ dq ++ py "writeups/" ++ wu_filename writeup ++ dq ++ py " class=" ++ dq ++ py "text-decoration-none" ++ dq ++ py ">" ++ nl ++
  py "                            " ++ wu_title writeup ++ nl ++
  py "                        </a>" ++ nl ++
  py "                    </h5>" ++ nl ++
  py "                    <p class=" ++ dq ++ py "card-text project-excerpt mb-2" ++ dq ++ py ">" ++ nl ++
  py "                        " ++ wu_title writeup ++ py " This writeup documents the discovery and analysis..." ++ nl ++
  py "                    </p>" ++ nl ++
  py "                    <small class=" ++ dq ++ py "project-date mb-2" ++ dq ++ py ">" ++ nl ++
  py "                        <i class=" ++ dq ++ py "fas fa-calendar me-1" ++ dq ++ py "></i>" ++ wu_created_date writeup ++ nl ++
  py "                    </small>" ++ nl ++
  py "                                                " ++ nl ++
  py "                            <div class=" ++ dq ++ py "tag-container" ++ dq ++ py ">" ++ nl ++
  py "                                " ++ tag_link_list (py "tags/") (wu_tags writeup) ++ nl ++
  py "                            </div>" ++ nl ++
  py "                            " ++ nl ++
  py "                </div>" ++ nl ++
  py "                <div class=" ++ dq ++ py "d-none d-md-block" ++ dq ++ py ">" ++ nl ++
  py "                    <img" ++ nl ++
  py "                        src=" ++ dq ++ wu_machine_photo writeup ++ dq ++ nl ++
  py "                        alt=" ++ dq ++ py "Writeup image" ++ dq ++ nl ++
  py "                        class=" ++ dq ++ py "writeup-thumb" ++ dq ++ nl ++
  py "                    />" ++ nl ++
  py "                </div>" ++ nl ++
  py "            </div>" ++ nl ++
  py "        </div>" ++ nl ++
  py "    </div>".

(** The card of [_generate_projects_grid], lines 1134 to 1155; a project
    without description gets one made of its title. *)
Definition project_card (project : Project) : text :=
  let description :=
    default (pr_title project ++ py " - A cybersecurity project.")
      (pr_description project) in
  let date := pr_date project in
  py "    <div class=" ++ dq ++ py "col-lg-6 col-xl-4 mb-4 project-card" ++ dq ++ py " data-category=" ++ dq ++ dq ++ py ">" ++ nl ++
  py "        <div class=" ++ dq ++ py "card h-100 border-0 shadow-sm" ++ dq ++ py ">" ++ nl ++
  py "            <div class=" ++ dq ++ py "card-body" ++ dq ++ py ">" ++ nl ++
  py "                <h5 class=" ++ dq ++ py "card-title mb-2" ++ dq ++ py ">" ++ nl ++
  py "                    <a href=" ++ dq ++ pr_url project ++ dq ++ py " target=" ++ dq ++ py "_blank" ++ dq ++ py " class=" ++ dq ++ py "text-decoration-none" ++ dq ++ py ">" ++ nl ++
  py "                        " ++ pr_title project ++ nl ++
  py "                    </a>" ++ nl ++
  py "                </h5>" ++ nl ++
  py "                <p class=" ++ dq ++ py "card-text project-excerpt mb-2" ++ dq ++ py ">" ++ nl ++
  py "                    " ++ description ++ nl ++
  py "                </p>" ++ nl ++
  py "                <small class=" ++ dq ++ py "project-date" ++ dq ++ py ">" ++ nl ++
  py "                    <i class=" ++ dq ++ py "fas fa-calendar me-1" ++ dq ++ py "></i>" ++ date ++ nl ++
  py "                </small>" ++ nl ++
  py "            </div>" ++ nl ++
  py "        </div>" ++ nl ++
  py "    </div>".

End Source.

Definition source_templates : Templates := {|
  _generate_tag_html := Source._generate_tag_html;
  _generate_writeup_html := Source._generate_writeup_html;
  tag_page_card := Source.tag_page_card;
  writeups_grid_card := Source.writeups_grid_card;
  recent_post_card := Source.recent_post_card;
  project_card := Source.project_card
|}.

(** ** The generator *)

Section generator.
Context `{Platform} `{Templates}.

(** *** Files *)

(** [path.exists()] *)
Definition exists_file (d : Dir) (name : text) (w : World) : bool :=
  bool_decide (is_Some (dir_files d w !! name)).

(** [open(path, 'r').read()]; [None] when it raises. *)
Definition read_file (d : Dir) (name : text) (w : World) : option text :=
  if read_fails d name then None else dir_files d w !! name.

(** [open(path, 'w').write(content)]; [None] when it raises, the file
    then being as it was. *)
Definition write_file (d : Dir) (name content : text) (w : World) : option World :=
  if write_fails d name then None
  else Some (set_dir_files d (<[name := content]> (dir_files d w)) w).

(** [path.unlink()]; [None] when it raises. *)
Definition unlink_file (d : Dir) (name : text) (w : World) : option World :=
  if unlink_fails d name || negb (exists_file d name w) then None
  else Some (set_dir_files d (delete name (dir_files d w)) w).

Definition tag_filename (tag_name : text) : text :=
  py "tag-" ++ tag_name ++ py ".html".

(** [title.lower().replace(' ', '-').replace(':', '').replace('.', '')] *)
Definition slug (title : text) : text :=
  replace (py ".") [] (replace (py ":") [] (replace (py " ") (py "-") (lower title))).

Definition writeup_filename (title : text) : text :=
  py "writeup-" ++ slug title ++ py ".html".

(** The slug as section 3 of the specification words it: lower-cased,
    spaces turned into hyphens, colons and periods stripped. *)
Definition slug_spec (title : text) : text :=
  filter (λ c, c ≠ 58%N ∧ c ≠ 46%N)
    ((λ c, if decide (c = 32%N) then 45%N else c) <$> lower title).

(** The names that [tags_dir.glob('tag-*.html')] yields. *)
Definition glob_tag_files (w : World) : list text :=
  filter (λ name, startswith (py "tag-") name ∧ py ".html" `suffix_of` name)
         (map_to_list (tags_dir w)).*1.

(** *** Tags of a writeup page *)

Definition _update_writeup_tags (writeup_file : text) (tags : list text) (w : World)
  : World :=
  match read_file WriteupsDir writeup_file w with
  | None => print (ErrorUpdatingTags writeup_file) w
  | Some content =>
      match region_splice tag_region content (tag_links tags) with
      | StartNotFound => print (TagContainerNotFound writeup_file) w
      | EndNotFound => print (TagContainerEndNotFound writeup_file) w
      | Spliced new_content =>
          match write_file WriteupsDir writeup_file new_content w with
          | None => print (ErrorUpdatingTags writeup_file) w
          | Some w' => w'
          end
      end
  end.

(** The first writeup whose title is [title], case aside. *)
Definition writeup_by_title (title : text) (w : World) : option (nat * Writeup) :=
  list_find (λ wu, lower (wu_title wu) = lower title) (existing_writeups w).

(** One round of the loop of [_add_tag_to_writeups]. *)
Definition add_tag_to_writeup (tag_name : text) (w : World) (title : text) : World :=
  match writeup_by_title title w with
  | None => print (WriteupNotFoundSkipping title) w
  | Some (i, wu) =>
      if bool_decide (tag_name ∈ wu_tags wu)
      then print (TagAlreadyInWriteup tag_name title) w
      else
        let wu' := set_tags (wu_tags wu ++ [tag_name]) wu in
        let w := set_existing_writeups (<[i := wu']> (existing_writeups w)) w in
        if exists_file WriteupsDir (wu_filename wu') w
        then print (AddedTag tag_name title)
               (_update_writeup_tags (wu_filename wu') (wu_tags wu') w)
        else print (WriteupFileNotFound (wu_filename wu')) w
  end.

Definition _add_tag_to_writeups (tag_name : text) (writeup_titles : list text)
  (w : World) : World :=
  foldl (add_tag_to_writeup tag_name) w writeup_titles.

(** [list.remove(x)] on a list that holds [x] *)
Fixpoint remove_first {A} `{EqDecision A} (x : A) (l : list A) : list A :=
  match l with
  | [] => []
  | y :: l' => if decide (x = y) then l' else y :: remove_first x l'
  end.

(** One round of the loop of [_remove_tag_from_writeups]. *)
Definition remove_tag_from_writeup (tag_name : text) (w : World) (title : text)
  : World :=
  match writeup_by_title title w with
  | None => print (WriteupNotFoundSkipping title) w
  | Some (i, wu) =>
      if bool_decide (tag_name ∈ wu_tags wu)
      then
        let wu' := set_tags (remove_first tag_name (wu_tags wu)) wu in
        let w := set_existing_writeups (<[i := wu']> (existing_writeups w)) w in
        if exists_file WriteupsDir (wu_filename wu') w
        then print (RemovedTag tag_name title)
               (_update_writeup_tags (wu_filename wu') (wu_tags wu') w)
        else print (WriteupFileNotFound (wu_filename wu')) w
      else print (TagNotInWriteup tag_name title) w
  end.

Definition _remove_tag_from_writeups (tag_name : text) (writeup_titles : list text)
  (w : World) : World :=
  foldl (remove_tag_from_writeup tag_name) w writeup_titles.

(** *** Creating *)

Definition create_tag (tag_name description : text)
  (writeup_titles : option (list text)) (w : World) : bool * World :=
  if exists_file TagsDir (tag_filename tag_name) w
  then (false, print (TagAlreadyExists tag_name) w)
  else
    let tag_content := _generate_tag_html tag_name description in
    match write_file TagsDir (tag_filename tag_name) tag_content w with
    | Some w =>
        let w := print (CreatedTag (tag_filename tag_name)) w in
        let w := set_existing_tags ({[tag_name]} ∪ existing_tags w) w in
        let w := match writeup_titles with
                 | Some (t :: ts) => _add_tag_to_writeups tag_name (t :: ts) w
                 | _ => w
                 end in
        (true, w)
    | None => (false, print (ErrorCreatingTag tag_name) w)
    end.

(** One round of the tag loop of [create_writeup]. *)
Definition ensure_tag (w : World) (tag : text) : World :=
  if bool_decide (tag ∈ existing_tags w) then w
  else (create_tag tag [] None (print (TagMissingCreatingIt tag) w)).2.

(** [value] unless it is [None] or empty *)
Definition or_default (value : option text) (default : text) : text :=
  match value with
  | Some (c :: v) => c :: v
  | _ => default
  end.

Definition create_writeup (title : text) (tags : list text) (machine_photo : text)
  (created_date updated_date : option text) (difficulty os_type ip_address : text)
  (w : World) : bool * World :=
  let filename := writeup_filename title in
  if exists_file WriteupsDir filename w
  then (false, print UseDifferentTitle
                 (print (WriteupAlreadyExistsFile filename)
                    (print (WriteupAlreadyExists title) w)))
  else
    let created_date := or_default created_date today in
    let updated_date := or_default updated_date created_date in
    let w := foldl ensure_tag w tags in
    let writeup_content :=
      _generate_writeup_html title tags machine_photo created_date updated_date
        difficulty os_type ip_address in
    match write_file WriteupsDir filename writeup_content w with
    | Some w =>
        let w := print (CreatedWriteup filename) w in
        let w := set_existing_writeups
                   (existing_writeups w ++
                    [{| wu_title := title; wu_filename := filename;
                        wu_created_date := created_date;
                        wu_updated_date := updated_date;
                        wu_machine_photo := machine_photo; wu_tags := tags;
                        wu_difficulty := difficulty; wu_os_type := os_type;
                        wu_ip_address := ip_address |}]) w in
        (true, w)
    | None => (false, print (ErrorCreatingWriteup title) w)
    end.

Definition create_project (title description project_url : text) (date : option text)
  (w : World) : bool * World :=
  let date := or_default date today in
  let w := set_existing_projects
             (existing_projects w ++
              [{| pr_title := title; pr_description := Some description;
                  pr_url := project_url; pr_date := date |}]) w in
  (true, print (AddedProject title) w).

(** *** Refreshing the listings *)

Definition _generate_writeups_grid (w : World) : text :=
  join nl (writeups_grid_card <$> existing_writeups w).

(** One card of [_generate_tags_grid]. *)
Definition tag_card (tag : text) : text :=
  blanks 4 ++ py "<div class=" ++ dq ++ py "col-auto mb-2 tag-card" ++ dq
  ++ py " data-category=" ++ dq ++ dq ++ py ">" ++ nl
  ++ blanks 8 ++ py "<a href=" ++ dq ++ py "tags/tag-" ++ tag ++ py ".html" ++ dq
  ++ py " class=" ++ dq ++ py "tag-badge" ++ dq ++ py ">" ++ tag ++ py "</a>" ++ nl
  ++ blanks 4 ++ py "</div>".

Definition _generate_tags_grid (w : World) : text :=
  join nl (tag_card <$> sorted (elements (existing_tags w))).

Definition _generate_projects_grid (w : World) : text :=
  join nl (project_card <$> existing_projects w).

Definition _generate_recent_posts (w : World) : text :=
  join nl (recent_post_card <$> reverse (existing_writeups w)).

Definition _generate_writeup_cards_for_tag (writeups : list Writeup) : text :=
  join nl (tag_page_card <$> writeups).

(** The body shared by the five page rewrites: read the page, splice
    the region, write the page back. *)
Definition rewrite_region (d : Dir) (page : text) (rg : Region N) (inner : text)
  (w : World) : World :=
  match read_file d page w with
  | None => print (ErrorUpdating page) w
  | Some content =>
      match region_splice rg content inner with
      | StartNotFound => print (ContainerNotFound page) w
      | EndNotFound => print (ContainerEndNotFound page) w
      | Spliced new_content =>
          match write_file d page new_content w with
          | None => print (ErrorUpdating page) w
          | Some w' => print (Updated page) w'
          end
      end
  end.

Definition _update_writeups_page (w : World) : World :=
  if exists_file BaseDir (py "writeups.html") w
  then rewrite_region BaseDir (py "writeups.html") writeups_region
         (_generate_writeups_grid w) w
  else print (PageNotFound (py "writeups.html")) w.

Definition _update_tags_page (w : World) : World :=
  if exists_file BaseDir (py "tags.html") w
  then rewrite_region BaseDir (py "tags.html") tags_region (_generate_tags_grid w) w
  else print (PageNotFound (py "tags.html")) w.

Definition _update_projects_page (w : World) : World :=
  if exists_file BaseDir (py "projects.html") w
  then rewrite_region BaseDir (py "projects.html") projects_region
         (_generate_projects_grid w) w
  else print (PageNotFound (py "projects.html")) w.

Definition _update_home_page (w : World) : World :=
  if exists_file BaseDir (py "index.html") w
  then rewrite_region BaseDir (py "index.html") home_region
         (_generate_recent_posts w) w
  else print (PageNotFound (py "index.html")) w.

Definition _update_single_tag_page (tag_name : text) (w : World) : World :=
  if exists_file TagsDir (tag_filename tag_name) w
  then
    let writeups_with_tag :=
      filter (λ wu, tag_name ∈ wu_tags wu) (existing_writeups w) in
    rewrite_region TagsDir (tag_filename tag_name) tag_page_region
      (_generate_writeup_cards_for_tag writeups_with_tag) w
  else print (TagFileNotFoundSkipping (tag_filename tag_name)) w.

(** The tags that some writeup carries, with repetitions. *)
Definition all_used_tags (w : World) : list text :=
  mjoin (wu_tags <$> existing_writeups w).

Definition _update_all_tag_pages (w : World) : World :=
  foldl (λ w tag, _update_single_tag_page tag w) w (set_order (all_used_tags w)).

Definition update_main_pages (w : World) : World :=
  let w := _update_writeups_page w in
  let w := _update_tags_page w in
  let w := _update_projects_page w in
  let w := _update_home_page w in
  let w := _update_all_tag_pages w in
  print UpdatedAllMainPages w.

(** *** Removing *)

(** One round of the loop of [_remove_broken_links_from_tags]. *)
Definition remove_broken_links_in (filename : text) (w : World) (tag_file : text)
  : World :=
  match read_file TagsDir tag_file w with
  | None => print (ErrorUpdating tag_file) w
  | Some content =>
      let new_content := re_sub_delete (card_pattern filename) content in
      if bool_decide (new_content ≠ content)
      then match write_file TagsDir tag_file new_content w with
           | None => print (ErrorUpdating tag_file) w
           | Some w' => print (RemovedBrokenLink tag_file) w'
           end
      else w
  end.

Definition _remove_broken_links_from_tags (filename : text) (w : World) : World :=
  foldl (remove_broken_links_in filename) w (glob_tag_files w).

(** One round of the loop of [_cleanup_unused_tags]. *)
Definition cleanup_tag (w : World) (tag : text) : World :=
  if exists_file TagsDir (tag_filename tag) w
  then match unlink_file TagsDir (tag_filename tag) w with
       | Some w' => print (DeletedUnusedTagFile tag) w'
       | None => print (ErrorDeletingTagFile (tag_filename tag)) w
       end
  else w.

Definition _cleanup_unused_tags (tags_to_check : list text) (w : World) : World :=
  let unused_tags := filter (λ tag, tag ∉ all_used_tags w) tags_to_check in
  foldl cleanup_tag w unused_tags.

Definition remove_writeup (title : text) (w : World) : bool * World :=
  let filename := writeup_filename title in
  match list_find (λ wu, wu_filename wu = filename) (existing_writeups w) with
  | None => (false, print (WriteupNotFound title) w)
  | Some (_, writeup_to_remove) =>
      let tags_to_check := wu_tags writeup_to_remove in
      let unlinked :=
        if exists_file WriteupsDir filename w
        then print (DeletedWriteupFile filename) <$> unlink_file WriteupsDir filename w
        else Some (print (WriteupFileMissing filename) w) in
      match unlinked with
      | None => (false, print ErrorDeletingWriteupFile w)
      | Some w =>
          let w := set_existing_writeups
                     (remove_first writeup_to_remove (existing_writeups w)) w in
          let w := print (RemovedWriteup title) w in
          let w := print RemovingBrokenLinks w in
          let w := _remove_broken_links_from_tags filename w in
          let w := print CleaningUpUnusedTags w in
          let w := _cleanup_unused_tags tags_to_check w in
          let w := print UpdatingMainPages w in
          let w := update_main_pages w in
          (true, w)
      end
  end.

(** The steps of [remove_writeup] that follow the unlinking of the
    writeup document, in one piece. *)
Definition remove_writeup_cascade (title filename : text)
  (writeup_to_remove : Writeup) (w : World) : World :=
  let w := set_existing_writeups
             (remove_first writeup_to_remove (existing_writeups w)) w in
  let w := print (RemovedWriteup title) w in
  let w := print RemovingBrokenLinks w in
  let w := _remove_broken_links_from_tags filename w in
  let w := print CleaningUpUnusedTags w in
  let w := _cleanup_unused_tags (wu_tags writeup_to_remove) w in
  let w := print UpdatingMainPages w in
  update_main_pages w.

Definition remove_tag (tag_name : text) (from_writeups : option (list text))
  (w : World) : bool * World :=
  if exists_file TagsDir (tag_filename tag_name) w
  then
    let w :=
      match from_writeups with
      | Some (t :: ts) => _remove_tag_from_writeups tag_name (t :: ts) w
      | _ =>
          let writeups_with_tag :=
            filter (λ wu, tag_name ∈ wu_tags wu) (existing_writeups w) in
          match writeups_with_tag with
          | [] => w
          | _ :: _ => _remove_tag_from_writeups tag_name (wu_title <$> writeups_with_tag) w
          end
      end in
    let remaining_writeups_with_tag :=
      filter (λ wu, tag_name ∈ wu_tags wu) (existing_writeups w) in
    match remaining_writeups_with_tag with
    | [] =>
        match unlink_file TagsDir (tag_filename tag_name) w with
        | Some w' =>
            (true, print (DeletedUnusedTag tag_name)
                     (set_existing_tags (existing_tags w' ∖ {[tag_name]}) w'))
        | None => (false, print ErrorDeletingTag w)
        end
    | _ :: _ => (true, print (TagStillUsed tag_name) w)
    end
  else (false, print (TagNotFound tag_name) w).

(** *** Reading the tags of a writeup page back *)

(** The tags that [_extract_writeup_metadata] recovers:
    [list(set(re.findall(..., content)))]. *)
Definition extract_tags (content : text) : list text :=
  set_order (findall_tag_links content).
End generator.

(** ** Sample platforms, templates and worlds *)

(** [str.lower] restricted to the ASCII letters. *)
Definition ascii_lower (t : text) : text :=
  (λ c, if ((65 <=? c) && (c <=? 90))%N then (c + 32)%N else c) <$> t.

Definition no_fault (d : Dir) (name : text) : bool := false.

(** A platform whose sets iterate in the given order. *)
Definition platform_with (order : list text → list text)
  (order_NoDup : ∀ l, NoDup (order l)) (order_elem : ∀ l x, x ∈ order l ↔ x ∈ l)
  (unlink_faults : Dir → text → bool) : Platform := {|
  lower := ascii_lower;
  set_order := order;
  set_order_NoDup := order_NoDup;
  set_order_elem := order_elem;
  today := py "January 01, 2025";
  read_fails := no_fault;
  write_fails := no_fault;
  unlink_fails := unlink_faults
|}.

(** No faults; a set iterates its items in the order of their last
    insertions. *)
Definition plain_platform : Platform :=
  platform_with remove_dups NoDup_remove_dups elem_of_remove_dups no_fault.

(** A writeup page reduced to its tag container. *)
Definition sample_page : text :=
  py "<body>" ++ start_marker tag_region ++ py "old" ++ py "</div>" ++ py "</body>".

(** The tag page that [create_tag] writes for the tag [web]. *)
Definition sample_tag_page : text :=
  @_generate_tag_html source_templates (py "web") [].



(** The items of a list in the order of their first occurrences. *)
Fixpoint first_occurrences (seen l : list text) : list text :=
  match l with
  | [] => []
  | x :: l' =>
      if decide (x ∈ seen) then first_occurrences seen l'
      else x :: first_occurrences (x :: seen) l'
  end.

(** The tag list that preserving the order of the document would give. *)
Definition in_document_order (content : text) : list text :=
  first_occurrences [] (findall_tag_links content).

(** A writeup page with the tags [linux] and [smb], the first one linked
    twice. *)
Definition two_tag_page : text :=
  @_generate_writeup_html source_templates (py "Machine One")
    [py "linux"; py "smb"; py "linux"] [] (py "May 01, 2025") [] [] [] [].

(** A fresh site: a tags listing page and nothing else. *)
Definition site_world : World := {|
  base_dir := {[ py "tags.html" := tags_container ++ nl ++ listing_end_marker ]};
  tags_dir := ∅;
  writeups_dir := ∅;
  existing_tags := ∅;
  existing_writeups := [];
  existing_projects := [];
  stdout := []
|}.


(** ** Footprints *)

(** [w'] has the model and the writeup files of [w], more output, and no
    file that [w] lacks. *)
Definition refreshes (w w' : World) : Prop :=
  existing_tags w' = existing_tags w
  ∧ existing_writeups w' = existing_writeups w
  ∧ existing_projects w' = existing_projects w
  ∧ writeups_dir w' = writeups_dir w
  ∧ stdout w `prefix_of` stdout w'
  ∧ ∀ d name, dir_files d w !! name = None → dir_files d w' !! name = None.

(** [w'] differs from [w] in the tag files and the output at most. *)
Definition retags (w w' : World) : Prop :=
  refreshes w w' ∧ base_dir w' = base_dir w.

(** [w'] differs from [w] in the writeups, their files and the output at
    most. *)
Definition rewrites_writeups (w w' : World) : Prop :=
  existing_tags w' = existing_tags w
  ∧ existing_projects w' = existing_projects w
  ∧ base_dir w' = base_dir w
  ∧ tags_dir w' = tags_dir w
  ∧ stdout w `prefix_of` stdout w'.

(** [w'] differs from [w] in the tag files, in tags added to the tag set
    and the output at most. *)
Definition creates_tags (w w' : World) : Prop :=
  existing_writeups w' = existing_writeups w
  ∧ existing_projects w' = existing_projects w
  ∧ writeups_dir w' = writeups_dir w
  ∧ base_dir w' = base_dir w
  ∧ existing_tags w ⊆ existing_tags w'
  ∧ stdout w `prefix_of` stdout w'.

(** Every writeup of the model has its document, as after loading. *)
Definition on_disk (w : World) : Prop :=
  ∀ wu, wu ∈ existing_writeups w → is_Some (writeups_dir w !! wu_filename wu).

(** The model and the writeup documents agree: every writeup has its
    document and no two writeups share a file name. *)
Definition model_on_disk (w : World) : Prop :=
  on_disk w ∧ NoDup (wu_filename <$> existing_writeups w).

(** [w'] has the writeups of [w] under the same file names, and the
    writeup documents of [w]. *)
Definition keeps_documents (w w' : World) : Prop :=
  wu_filename <$> existing_writeups w' = wu_filename <$> existing_writeups w
  ∧ ∀ name, is_Some (writeups_dir w !! name) → is_Some (writeups_dir w' !! name).

(** The number of writeups of the model with the given file name. *)
Definition writeups_named (filename : text) (w : World) : nat :=
  length (filter (λ wu, wu_filename wu = filename) (existing_writeups w)).

(** Every tag that a writeup of the model carries has its tag document. *)
Definition tags_have_documents (w : World) : Prop :=
  Forall (λ wu, Forall (λ t, is_Some (tags_dir w !! tag_filename t)) (wu_tags wu))
    (existing_writeups w).

#[global] Instance tags_have_documents_dec w : Decision (tags_have_documents w).
Proof. unfold tags_have_documents. apply _. Defined.

(** On the fresh site: [create_writeup('A', ['x'])], then
    [remove_writeup('A')], then [create_writeup('B', ['x'])]. *)
Definition created_a : bool * World :=
  @create_writeup plain_platform source_templates (py "A") [py "x"] [] None None
    [] [] [] site_world.
Definition removed_a : bool * World :=
  @remove_writeup plain_platform source_templates (py "A") created_a.2.
Definition created_b : bool * World :=
  @create_writeup plain_platform source_templates (py "B") [py "x"] [] None None
    [] [] [] removed_a.2.




(** ** Patterns with groups, [str.strip] and [Path.stem] *)

(** A pattern whose groups are to be read: its atoms, with a mark at
    each border of a group. *)
Inductive Item :=
| At (a : Atom)
| Mark.

Section run.
Context {R : Type}.

(** The starred classes of a backtracking engine, for any result. *)
Fixpoint run_greedy (p : N → bool) (k : text → option R) (s : text) : option R :=
  match s with
  | c :: s' =>
      if p c then
        match run_greedy p k s' with
        | Some x => Some x
        | None => k s
        end
      else k s
  | [] => k s
  end.

Fixpoint run_lazy (p : N → bool) (k : text → option R) (s : text) : option R :=
  match k s with
  | Some x => Some x
  | None =>
      match s with
      | c :: s' => if p c then run_lazy p k s' else None
      | [] => None
      end
  end.
End run.

(** A match of [r] at the head of [s]: the texts that were left at the
    marks passed, in order, and the text behind the match. *)
Fixpoint re_run (r : list Item) (marks : list text) (s : text)
  : option (list text * text) :=
  match r with
  | [] => Some (marks, s)
  | Mark :: r' => re_run r' (marks ++ [s]) s
  | At (Lit l) :: r' =>
      if startswith l s then re_run r' marks (drop (length l) s) else None
  | At (One p) :: r' =>
      match s with
      | c :: s' => if p c then re_run r' marks s' else None
      | [] => None
      end
  | At (Star p) :: r' => run_greedy p (re_run r' marks) s
  | At (LazyStar p) :: r' => run_lazy p (re_run r' marks) s
  end.

(** The groups between the marks, two marks per group. *)
Fixpoint groups (marks : list text) : list text :=
  match marks with
  | a :: b :: marks' => take (length a - length b) a :: groups marks'
  | _ => []
  end.

(** [re.search(r, s)]: the groups of the leftmost match. *)
Fixpoint re_search (r : list Item) (s : text) : option (list text) :=
  match re_run r [] s with
  | Some (marks, _) => Some (groups marks)
  | None =>
      match s with
      | [] => None
      | _ :: s' => re_search r s'
      end
  end.

(** [m.group(1) if m else default] *)
Definition group1 (m : option (list text)) (default : text) : text :=
  match m with
  | Some (g :: _) => g
  | _ => default
  end.

(** [re.findall(r, s)] for a pattern that matches no empty text: the
    groups of the matches, left to right, none overlapping. *)
Fixpoint re_findall (r : list Item) (skip : nat) (s : text) : list (list text) :=
  match s with
  | [] => []
  | c :: s' =>
      match skip with
      | S k => re_findall r k s'
      | 0 => match re_run r [] s with
             | Some (marks, rest) =>
                 groups marks :: re_findall r (length s - length rest - 1) s'
             | None => re_findall r 0 s'
             end
      end
  end.

(** [s.lstrip()] and [s.strip()] *)
Fixpoint lstrip (s : text) : text :=
  match s with
  | c :: s' => if whitespace c then lstrip s' else s
  | [] => []
  end.
Definition strip (s : text) : text := reverse (lstrip (reverse (lstrip s))).

(** [s.rfind(c)] for one character. *)
Fixpoint rfind_char (c : N) (s : text) : option nat :=
  match s with
  | [] => None
  | x :: s' =>
      match rfind_char c s' with
      | Some i => Some (S i)
      | None => if decide (x = c) then Some 0 else None
      end
  end.

(** [Path(name).stem] of pathlib: the name up to its last period, when
    that period is neither its first nor its last character. *)
Definition stem (name : text) : text :=
  match rfind_char 46 name with
  | Some i => if decide (0 < i < length name - 1) then take i name else name
  | None => name
  end.

(** ** Loading the model from the site *)

(** What the loader takes from the runtime and the file system besides
    the [Platform]: [str.title] and the [st_ctime] of the writeup
    documents, by name. *)
Class Runtime := {
  str_title : text → text;
  st_ctime : text → nat
}.

(** The lines of the loader. *)
Inductive LoadMsg :=
| ErrorExtractingMetadata (writeup_file : text)
| ErrorExtractingProjects.

(** The patterns of [_extract_writeup_metadata], in the order of the
    source. *)
Definition h1_pattern : list Item :=
  [At (Lit (py "<h1")); At (Star (not_char (py ">"))); At (Lit (py ">"));
   Mark; At (One (not_char (py "<"))); At (Star (not_char (py "<"))); Mark;
   At (Lit (py "</h1>"))].

(** [label\s*([^<\n]+)] and [label\s*([^<]+)] *)
Definition line_pattern (label : text) : list Item :=
  [At (Lit label); At (Star whitespace);
   Mark; At (One (not_char (py "<" ++ nl))); At (Star (not_char (py "<" ++ nl))); Mark].
Definition field_pattern (label : text) : list Item :=
  [At (Lit label); At (Star whitespace);
   Mark; At (One (not_char (py "<"))); At (Star (not_char (py "<"))); Mark].

Definition machine_photo_pattern : list Item :=
  [At (Lit (py "<img")); At (Star (not_char (py ">"))); At (Lit (py "src=" ++ dq));
   Mark; At (Star (not_char dq)); Mark;
   At (Lit dq); At (Star (not_char (py ">")));
   At (Lit (py "alt=" ++ dq ++ py "Machine Photo" ++ dq))].

(** The pattern of [_extract_projects_from_html]; its second group is
    not greedy. *)
Definition project_pattern : list Item :=
  [At (Lit (py "<h5")); At (Star (not_char (py ">"))); At (Lit (py ">"));
   At (Star whitespace);
   At (Lit (py "<a")); At (Star (not_char (py ">"))); At (Lit (py "href=" ++ dq));
   Mark; At (Star (not_char dq)); Mark;
   At (Lit dq); At (Star (not_char (py ">"))); At (Lit (py ">"));
   At (Star whitespace);
   Mark; At (One (not_char (py "<"))); At (LazyStar (not_char (py "<"))); Mark;
   At (Star whitespace); At (Lit (py "</a>"))].

Section loader.
Context `{Platform} `{Runtime}.

(** [_load_existing_tags]: the directories exist once [__init__] has
    made them. *)
Definition _load_existing_tags (w : World) : gset text :=
  list_to_set ((λ tag_file, replace (py "tag-") [] (stem tag_file)) <$> glob_tag_files w).

(** The title that a page without heading gets from its file name. *)
Definition title_of_filename (writeup_file : text) : text :=
  str_title (replace (py "-") (py " ") (replace (py "writeup-") [] (stem writeup_file))).

(** The body of the [try] of [_extract_writeup_metadata], on the text
    read. *)
Definition metadata_of (writeup_file content : text) : Writeup :=
  let title :=
    group1 (re_search h1_pattern content) (title_of_filename writeup_file) in
  let created_date :=
    match re_search (line_pattern (py "Created:")) content with
    | Some m => strip (group1 (Some m) [])
    | None => []
    end in
  let updated_date :=
    match re_search (line_pattern (py "Updated:")) content with
    | Some m => strip (group1 (Some m) [])
    | None => []
    end in
  let machine_photo := group1 (re_search machine_photo_pattern content) [] in
  let tags := extract_tags content in
  let difficulty :=
    match re_search (field_pattern (py "Difficulty:")) content with
    | Some m => strip (group1 (Some m) [])
    | None => []
    end in
  let os_type :=
    match re_search (field_pattern (py "OS:")) content with
    | Some m => strip (group1 (Some m) [])
    | None => []
    end in
  let ip_address :=
    match re_search (field_pattern (py "IP:")) content with
    | Some m => strip (group1 (Some m) [])
    | None => []
    end in
  {| wu_title := title; wu_filename := writeup_file;
     wu_created_date := created_date; wu_updated_date := updated_date;
     wu_machine_photo := machine_photo; wu_tags := tags;
     wu_difficulty := difficulty; wu_os_type := os_type;
     wu_ip_address := ip_address |}.

(** [_extract_writeup_metadata]: [None] with one line printed when the
    file cannot be read. *)
Definition _extract_writeup_metadata (writeup_file : text) (w : World)
  : option Writeup * list LoadMsg :=
  match read_file WriteupsDir writeup_file w with
  | Some content => (Some (metadata_of writeup_file content), [])
  | None => (None, [ErrorExtractingMetadata writeup_file])
  end.

(** The names that [writeups_dir.glob('writeup-*.html')] yields. *)
Definition glob_writeup_files (w : World) : list text :=
  filter (λ name, startswith (py "writeup-") name ∧ py ".html" `suffix_of` name)
         (map_to_list (writeups_dir w)).*1.

(** [files.sort(key=lambda x: x.stat().st_ctime)]: a stable sort. *)
Fixpoint insert_by_ctime (name : text) (files : list text) : list text :=
  match files with
  | [] => [name]
  | x :: files' =>
      if decide (st_ctime x ≤ st_ctime name)
      then x :: insert_by_ctime name files'
      else name :: files
  end.
Definition sort_by_ctime (files : list text) : list text :=
  foldl (λ sorted name, insert_by_ctime name sorted) [] files.

(** [_load_existing_writeups]: the writeups of the documents that can be
    read, oldest first, and the lines printed. *)
Definition _load_existing_writeups (w : World) : list Writeup * list LoadMsg :=
  foldl (λ acc writeup_file,
           let r := _extract_writeup_metadata writeup_file w in
           (acc.1 ++ option_list r.1, acc.2 ++ r.2))
        ([], []) (sort_by_ctime (glob_writeup_files w)).

(** [_extract_projects_from_html]: a project read back has its title
    and its link, an empty date and no description. *)
Definition projects_of (content : text) : list Project :=
  (λ m, {| pr_title := strip (default [] (m !! 1));
           pr_description := None;
           pr_url := default [] (m !! 0);
           pr_date := [] |}) <$> re_findall project_pattern 0 content.

Definition _extract_projects_from_html (w : World) : list Project * list LoadMsg :=
  match read_file BaseDir (py "projects.html") w with
  | Some content => (projects_of content, [])
  | None => ([], [ErrorExtractingProjects])
  end.

Definition _load_existing_projects (w : World) : list Project * list LoadMsg :=
  if exists_file BaseDir (py "projects.html") w
  then _extract_projects_from_html w
  else ([], []).

(** [PortfolioGenerator(base_dir)] on the files of a site: the generator
    of a new process, nothing printed by an operation yet, and the lines
    of the loader. *)
Definition __init__ (base tags writeups : gmap text text) : World * list LoadMsg :=
  let files := {| base_dir := base; tags_dir := tags; writeups_dir := writeups;
                  existing_tags := ∅; existing_writeups := [];
                  existing_projects := []; stdout := [] |} in
  let loaded_writeups := _load_existing_writeups files in
  let loaded_projects := _load_existing_projects files in
  ({| base_dir := base; tags_dir := tags; writeups_dir := writeups;
      existing_tags := _load_existing_tags files;
      existing_writeups := loaded_writeups.1;
      existing_projects := loaded_projects.1;
      stdout := [] |},
   loaded_writeups.2 ++ loaded_projects.2).
End loader.

(** ** The command line *)

(** The lines of [list_content]. *)
Inductive ListLine :=
| ContentHeading
| TagsHeading (n : nat)
| TagLine (tag : text)
| WriteupsHeading (n : nat)
| WriteupLine (title filename : text)
| ProjectsHeading (n : nat)
| ProjectLine (title : text).

(** The arguments as [argparse] hands them over; a list option that was
    not given is [None]. *)
Inductive Command :=
| CmdTag (name description : text) (writeups : option (list text))
| CmdWriteup (title : text) (tags : list text) (machine_photo : text)
    (created_date updated_date : option text) (difficulty os ip : text)
| CmdRemove (title : text)
| CmdRemoveTag (name : text) (from_writeups : option (list text))
| CmdProject (title description project_url : text) (date : option text)
| CmdList
| CmdUpdate.

(** What a run of the program prints. *)
Inductive Line :=
| Help
| Loading (m : LoadMsg)
| Listing (l : ListLine)
| Said (m : Msg).

Section main.
Context `{Platform} `{Templates} `{Runtime}.

Definition list_content (w : World) : list ListLine :=
  [ContentHeading; TagsHeading (size (existing_tags w))]
  ++ (TagLine <$> sorted (elements (existing_tags w)))
  ++ [WriteupsHeading (length (existing_writeups w))]
  ++ ((λ wu, WriteupLine (wu_title wu) (wu_filename wu)) <$> existing_writeups w)
  ++ [ProjectsHeading (length (existing_projects w))]
  ++ ((λ pr, ProjectLine (pr_title pr)) <$> existing_projects w).

(** The operation that [main] runs on the generator for a command. *)
Definition run_command (cmd : Command) (w : World) : list Line * World :=
  let said (w' : World) := (Said <$> stdout w', w') in
  match cmd with
  | CmdTag name description writeups => said (create_tag name description writeups w).2
  | CmdWriteup title tags machine_photo created_date updated_date difficulty os ip =>
      said (create_writeup title tags machine_photo created_date updated_date
              difficulty os ip w).2
  | CmdRemove title => said (remove_writeup title w).2
  | CmdRemoveTag name from_writeups => said (remove_tag name from_writeups w).2
  | CmdProject title description project_url date =>
      said (create_project title description project_url date w).2
  | CmdList => (Listing <$> list_content w, w)
  | CmdUpdate => said (update_main_pages w)
  end.

(** [main()] on the files of a site: the lines printed and the
    generator at the end, or nothing but the help when no command was
    given. *)
Definition main (command : option Command) (base tags writeups : gmap text text)
  : list Line * option World :=
  match command with
  | None => ([Help], None)
  | Some cmd =>
      let generator := __init__ base tags writeups in
      let r := run_command cmd generator.1 in
      ((Loading <$> generator.2) ++ r.1, Some r.2)
  end.
End main.

(** ** Tagging the writeups of the model *)

Section tagging.
Context `{Platform}.

(** No two writeups of the model have the same title, case aside. *)
Definition distinct_titles (w : World) : Prop :=
  NoDup ((λ wu, lower (wu_title wu)) <$> existing_writeups w).

(** No writeup of the model carries a tag twice. *)
Definition tags_once (w : World) : Prop :=
  Forall (λ wu, NoDup (wu_tags wu)) (existing_writeups w).

(** One of [titles] is the title of the writeup, case aside. *)
Definition named_in (titles : list text) (wu : Writeup) : Prop :=
  lower (wu_title wu) ∈ lower <$> titles.

#[global] Instance named_in_dec titles wu : Decision (named_in titles wu).
Proof. unfold named_in. apply _. Defined.

(** The writeup with [tag] behind its tags when it is named and lacks
    the tag, and the writeup without [tag] when it is named. *)
Definition tagged (tag : text) (titles : list text) (wu : Writeup) : Writeup :=
  if decide (named_in titles wu ∧ tag ∉ wu_tags wu)
  then set_tags (wu_tags wu ++ [tag]) wu else wu.
Definition untagged (tag : text) (titles : list text) (wu : Writeup) : Writeup :=
  if decide (named_in titles wu)
  then set_tags (filter (λ t, t ≠ tag) (wu_tags wu)) wu else wu.
End tagging.

(** ** The writeup page around its fields *)

(** [s[a:b]] *)
Definition cut (a b : nat) (s : text) : text := take (b - a) (drop a s).

(** The page of empty fields, and the texts of the template between
    the places of the fields: up to the title of the head, up to the
    title of the breadcrumb, up to the heading, from the heading to the
    label of the creation date, and so on. *)
Definition writeup_blank : text := Source._generate_writeup_html [] [] [] [] [] [] [] [].

Definition wp_head : text := Eval vm_compute in cut 0 153 writeup_blank.
Definition wp_crumb : text := Eval vm_compute in cut 153 3694 writeup_blank.
Definition wp_heading : text := Eval vm_compute in cut 3694 4031 writeup_blank.
Definition h1_attributes : text := py " class=" ++ dq ++ py "card-title mb-3" ++ dq.
Definition wp_dates : text := Eval vm_compute in cut 4064 4304 writeup_blank.
Definition wp_updated : text := Eval vm_compute in cut 4313 4439 writeup_blank.
Definition wp_tags : text := Eval vm_compute in cut 4448 4651 writeup_blank.
Definition wp_machine : text := Eval vm_compute in cut 4651 4768 writeup_blank.
Definition wp_photo : text := Eval vm_compute in cut 4768 4873 writeup_blank.
Definition wp_tail : text := Eval vm_compute in drop 4873 writeup_blank.

(** The texts of the machine information around its fields. *)
Definition info_open : text :=
  Eval vm_compute in cut 0 312 (Source.machine_info_html [0%N] [] []).
Definition info_close : text :=
  Eval vm_compute in cut 400 490 (Source.machine_info_html [0%N] [] []).
Definition difficulty_open : text :=
  Eval vm_compute in cut 312 380 (Source.machine_info_html [0%N] [] []).
Definition os_open : text :=
  Eval vm_compute in cut 312 380 (Source.machine_info_html [] [0%N] []).
Definition ip_open : text :=
  Eval vm_compute in cut 312 391 (Source.machine_info_html [] [] [0%N]).

(** One badge of the machine information; it is there when its field
    is not empty. *)
Definition badge (opening label field : text) : text :=
  match field with
  | [] => []
  | _ :: _ => opening ++ label ++ py " " ++ field ++ py "</span>"
  end.

(** The texts of the photo around its address. *)
Definition photo_open : text :=
  py "<div class=" ++ dq ++ py "d-none d-md-block" ++ dq ++ py ">".
Definition photo_close : text :=
  Eval vm_compute in cut 42 136 (Source.photo_block [0%N]).

(** One link of [tag_links]. *)
Definition link_href : text := py "<a href=" ++ dq ++ py "../tags/".
Definition link_class : text :=
  dq ++ py " class=" ++ dq ++ py "tag-badge me-1" ++ dq ++ py ">".
Definition tag_link (tag : text) : text :=
  link_href ++ py "tag-" ++ tag ++ py ".html" ++ link_class ++ tag ++ py "</a>".

(** ** Fields that the patterns read back *)

(** The labels and the link prefix that the patterns look for. *)
Definition field_labels : list text :=
  [py "Created:"; py "Updated:"; py "Difficulty:"; py "OS:"; py "IP:"; py "tag-"].

(** A field without [<] and without any of the labels. *)
Definition plain (s : text) : Prop :=
  (60%N ∉ s) ∧ Forall (λ l, ¬ contains s l) field_labels.

#[global] Instance plain_dec s : Decision (plain s).
Proof. unfold plain. apply _. Defined.

(** A field without white space at its ends. *)
Definition trimmed (s : text) : Prop := strip s = s.

(** ** Matches of a pattern in a text made of parts *)

(** No match of [r] begins in [pre] when [rest] follows it. *)
Definition silent (r : list Item) (pre rest : text) : Prop :=
  ∀ i, i < length pre → ∀ marks, re_run r marks (drop i pre ++ rest) = None.

(** No occurrence of [l] begins in [pre] when [rest] follows it. *)
Definition absent (l pre rest : text) : Prop :=
  ∀ i, i < length pre → startswith l (drop i pre ++ rest) = false.

(** The text [c] settles that [r] matches at the head of no text that
    begins with [c]. *)
Fixpoint greedy_fails (p : N → bool) (k : text → bool) (s : text) : bool :=
  match s with
  | c :: s' => if p c then greedy_fails p k s' && k s else k s
  | [] => false
  end.

Fixpoint lazy_fails (p : N → bool) (k : text → bool) (s : text) : bool :=
  match s with
  | c :: s' => k s && (if p c then lazy_fails p k s' else true)
  | [] => false
  end.

Fixpoint fails (r : list Item) (s : text) : bool :=
  match r with
  | [] => false
  | Mark :: r' => fails r' s
  | At (Lit l) :: r' =>
      if startswith l s then fails r' (drop (length l) s) else negb (compatible s l)
  | At (One p) :: r' =>
      match s with
      | c :: s' => if p c then fails r' s' else true
      | [] => false
      end
  | At (Star p) :: r' => greedy_fails p (fails r') s
  | At (LazyStar p) :: r' => lazy_fails p (fails r') s
  end.

(** The text [c] settles that no match of [r] begins in it. *)
Fixpoint dead (r : list Item) (c : text) : bool :=
  match c with
  | [] => true
  | _ :: c' => fails r c && dead r c'
  end.

(** No occurrence of [l] ends in a text that begins with [c], unless
    it begins there. *)
Definition border_clear (l c : text) : bool :=
  forallb (λ m, negb (compatible c (drop m l))) (seq 1 (length l - 1)).

(** The class [p] does not take the head of [s]. *)
Definition stops (p : N → bool) (s : text) : bool :=
  match s with
  | y :: _ => negb (p y)
  | [] => true
  end.


(** The label [l] is one that a plain field cannot hold or straddle
    into a text that begins with [c]: it begins with [<], or it is one
    of the labels and none of its endings begins [c]. *)
Definition good_label (l c : text) : bool :=
  bool_decide (head l = Some 60%N)
  || (bool_decide (l ∈ field_labels) && border_clear l c).

(** The tag-link pattern as a pattern with marks. *)
Definition tag_link_items : list Item :=
  [At (Lit (py "tag-")); At (One (not_char dq)); At (Star (not_char dq));
   At (Lit (py ".html"))].

(** The texts of a tag link, of the machine information and of the
    photo that stand between fields. *)
Definition link_pieces : list text :=
  [link_href; py "tag-"; py ".html"; link_class; py "</a>"; nl].
Definition info_pieces : list text :=
  [info_open; info_close; difficulty_open; os_open; ip_open;
   py "Difficulty:"; py "OS:"; py "IP:"; py " "; py "</span>"].
Definition src_open : text := py " src=" ++ dq.
Definition photo_pieces : list text :=
  [photo_open; py "<img"; src_open; photo_close].
Definition photo_close_tail : text := Eval vm_compute in drop 1 photo_close.

(** What follows [src=] and the photo in the pattern of the photo. *)
Definition photo_pattern_tail : list Item :=
  [At (Lit dq); At (Star (not_char (py ">")));
   At (Lit (py "alt=" ++ dq ++ py "Machine Photo" ++ dq))].

(** ** Writeups that their pages give back *)

(** A date on its line, a machine field in its badge, and the name of
    a tag in its link. *)
Definition readable_date (s : text) : Prop :=
  s ≠ [] ∧ trimmed s ∧ plain s ∧ (10%N ∉ s).
Definition readable_field (s : text) : Prop := trimmed s ∧ plain s.
Definition readable_tag (tag : text) : Prop :=
  tag ≠ [] ∧ (34%N ∉ tag) ∧ plain tag.

(** A writeup whose fields its page holds as the patterns of
    [_extract_writeup_metadata] expect them. *)
Definition readable (wu : Writeup) : Prop :=
  wu_title wu ≠ [] ∧ plain (wu_title wu)
  ∧ Forall readable_tag (wu_tags wu)
  ∧ plain (wu_machine_photo wu) ∧ (34%N ∉ wu_machine_photo wu)
  ∧ readable_date (wu_created_date wu) ∧ readable_date (wu_updated_date wu)
  ∧ readable_field (wu_difficulty wu) ∧ readable_field (wu_os_type wu)
  ∧ readable_field (wu_ip_address wu).

#[global] Instance readable_dec wu : Decision (readable wu).
Proof.
  unfold readable, readable_date, readable_field, readable_tag, trimmed. apply _.
Defined.

(** The page of a writeup with the templates of the source. *)
Definition writeup_page (wu : Writeup) : text :=
  Source._generate_writeup_html (wu_title wu) (wu_tags wu) (wu_machine_photo wu)
    (wu_created_date wu) (wu_updated_date wu)
    (wu_difficulty wu) (wu_os_type wu) (wu_ip_address wu).

(** A runtime for the samples: titles as they are, one creation time. *)
Definition sample_runtime : Runtime :=
  {| str_title := id; st_ctime := λ _, 0 |}.

(** A writeup with every field. *)
Definition full_writeup : Writeup :=
  {| wu_title := py "Machine One"; wu_filename := py "writeup-machine-one.html";
     wu_created_date := py "May 01, 2025"; wu_updated_date := py "June 02, 2025";
     wu_machine_photo := py "../images/one.png";
     wu_tags := [py "linux"; py "smb"; py "linux"];
     wu_difficulty := py "Easy"; wu_os_type := py "Linux";
     wu_ip_address := py "10.10.10.3" |}.

(** ** The project card around its fields *)

Definition project_blank : text :=
  Eval vm_compute in
    Source.project_card {| pr_title := [0%N]; pr_description := Some [1%N];
                           pr_url := [2%N]; pr_date := [3%N] |}.

(** The card between its fields. *)
Definition pc_lead : text := Eval vm_compute in cut 0 175 project_blank.
Definition h5_attributes : text := Eval vm_compute in cut 178 202 project_blank.
Definition pc_gap1 : text := Eval vm_compute in cut 203 224 project_blank.
Definition a_attributes_tail : text := Eval vm_compute in cut 235 280 project_blank.
Definition a_attributes : text := dq ++ a_attributes_tail.
Definition pc_gap2 : text := Eval vm_compute in cut 281 306 project_blank.
Definition pc_gap3 : text := Eval vm_compute in cut 307 328 project_blank.
Definition pc_desc : text := Eval vm_compute in cut 332 434 project_blank.
Definition pc_date : text := Eval vm_compute in cut 435 558 project_blank.
Definition pc_end : text := Eval vm_compute in drop 559 project_blank.

(** The heading of a card, from [<h5] to [</a>]: what the pattern of
    [_extract_projects_from_html] matches. *)
Definition card_heading (url title : text) : text :=
  py "<h5" ++ h5_attributes ++ py ">" ++ pc_gap1 ++ py "<a" ++ py " "
  ++ (py "href=" ++ dq) ++ url ++ a_attributes ++ py ">" ++ pc_gap2
  ++ title ++ pc_gap3 ++ py "</a>".

(** The description that a card shows. *)
Definition project_text (project : Project) : text :=
  default (pr_title project ++ py " - A cybersecurity project.")
    (pr_description project).

(** A project whose card holds the link and the title as the pattern
    expects them. *)
Definition readable_project (project : Project) : Prop :=
  pr_title project ≠ [] ∧ trimmed (pr_title project) ∧ (60%N ∉ pr_title project)
  ∧ (34%N ∉ pr_url project) ∧ ¬ (py "href=" `suffix_of` pr_url project)
  ∧ (60%N ∉ project_text project) ∧ (60%N ∉ pr_date project).

#[global] Instance readable_project_dec project : Decision (readable_project project).
Proof. unfold readable_project, trimmed. apply _. Defined.

(** A project as [_extract_projects_from_html] gives it back. *)
Definition read_back (project : Project) : Project :=
  {| pr_title := pr_title project; pr_description := None;
     pr_url := pr_url project; pr_date := [] |}.

(** A project with every field. *)
Definition full_project : Project :=
  {| pr_title := py "Port Scanner"; pr_description := Some (py "Scans ports.");
     pr_url := py "https://example.org/scanner"; pr_date := py "May 01, 2025" |}.

(** ** The operations when [Path.exists] raises *)

(** [Path.exists()] asks the system with [stat].  On the Pythons up to
    3.13 it answers [False] for a file that is missing and lets the
    other errors of the system out as [OSError]: a name too long for
    the file system, a directory that may not be searched.  These are
    the files on which it raises. *)
Class Probe := {
  exists_fails : Dir → text → bool
}.

(** How a call ends: it returns a value, or an exception leaves it;
    either way the generator, the files and the output are as the call
    left them. *)
Inductive Run (A : Type) :=
| Returns (a : A) (w : World)
| Raises (w : World).
Arguments Returns {A} a w.
Arguments Raises {A} w.

(** A piece of the program: from the world it starts in to its end. *)
Definition M (A : Type) : Type := World → Run A.

Definition ret {A} (a : A) : M A := λ w, Returns a w.

Definition bind {A B} (m : M A) (k : A → M B) : M B :=
  λ w, match m w with
       | Returns a w' => k a w'
       | Raises w' => Raises w'
       end.

Notation "x <- m ;; k" := (bind m (λ x, k))
  (at level 100, m at next level, right associativity, only parsing).
Notation "m ;;; k" := (bind m (λ _, k))
  (at level 100, right associativity, only parsing).

(** Statements that raise nothing. *)
Definition step (f : World → World) : M unit := λ w, Returns () (f w).

(** [for x in l: body(x)] *)
Fixpoint for_each {A} (body : A → M unit) (l : list A) : M unit :=
  match l with
  | [] => ret ()
  | x :: l' => body x ;;; for_each body l'
  end.

(** The operations of the generator whose probes stand outside every
    [try], with the error of the probe; what raises nothing in them is
    taken from the operations above. *)
Module Raising.
Section raising.
Context `{Platform} `{Templates} `{Probe}.

(** [path.exists()] *)
Definition exists_file (d : Dir) (name : text) : M bool :=
  λ w, if exists_fails d name then Raises w
       else Returns (exists_file d name w) w.

(** [create_tag(tag_name, description)], called without writeups: the
    probe of the tag document stands before the [try], and nothing else
    in the call raises. *)
Definition create_tag (tag_name description : text) : M bool :=
  there <- exists_file TagsDir (tag_filename tag_name) ;;
  if there
  then step (print (TagAlreadyExists tag_name)) ;;; ret false
  else
    λ w,
      let tag_content := _generate_tag_html tag_name description in
      match write_file TagsDir (tag_filename tag_name) tag_content w with
      | Some w =>
          let w := print (CreatedTag (tag_filename tag_name)) w in
          let w := set_existing_tags ({[tag_name]} ∪ existing_tags w) w in
          Returns true w
      | None => Returns false (print (ErrorCreatingTag tag_name) w)
      end.

(** One round of the tag loop of [create_writeup]. *)
Definition ensure_tag (tag : text) : M unit :=
  λ w, if bool_decide (tag ∈ existing_tags w) then Returns () w
       else (step (print (TagMissingCreatingIt tag)) ;;;
             create_tag tag [] ;;;
             ret ()) w.

Definition create_writeup (title : text) (tags : list text) (machine_photo : text)
  (created_date updated_date : option text) (difficulty os_type ip_address : text)
  : M bool :=
  let filename := writeup_filename title in
  there <- exists_file WriteupsDir filename ;;
  if there
  then
    step (print (WriteupAlreadyExists title)) ;;;
    step (print (WriteupAlreadyExistsFile filename)) ;;;
    step (print UseDifferentTitle) ;;;
    ret false
  else
    let created_date := or_default created_date today in
    let updated_date := or_default updated_date created_date in
    for_each ensure_tag tags ;;;
    λ w,
      let writeup_content :=
        _generate_writeup_html title tags machine_photo created_date updated_date
          difficulty os_type ip_address in
      match write_file WriteupsDir filename writeup_content w with
      | Some w =>
          let w := print (CreatedWriteup filename) w in
          let w := set_existing_writeups
                     (existing_writeups w ++
                      [{| wu_title := title; wu_filename := filename;
                          wu_created_date := created_date;
                          wu_updated_date := updated_date;
                          wu_machine_photo := machine_photo; wu_tags := tags;
                          wu_difficulty := difficulty; wu_os_type := os_type;
                          wu_ip_address := ip_address |}]) w in
          Returns true w
      | None => Returns false (print (ErrorCreatingWriteup title) w)
      end.

(** One round of the loop of [_cleanup_unused_tags]: the probe stands
    before the [try]. *)
Definition cleanup_tag (tag : text) : M unit :=
  there <- exists_file TagsDir (tag_filename tag) ;;
  if there
  then step (λ w, match unlink_file TagsDir (tag_filename tag) w with
                  | Some w' => print (DeletedUnusedTagFile tag) w'
                  | None => print (ErrorDeletingTagFile (tag_filename tag)) w
                  end)
  else ret ().

Definition _cleanup_unused_tags (tags_to_check : list text) : M unit :=
  λ w, let unused_tags := filter (λ tag, tag ∉ all_used_tags w) tags_to_check in
       for_each cleanup_tag unused_tags w.

Definition _update_writeups_page : M unit :=
  there <- exists_file BaseDir (py "writeups.html") ;;
  if there
  then step (λ w, rewrite_region BaseDir (py "writeups.html") writeups_region
                    (_generate_writeups_grid w) w)
  else step (print (PageNotFound (py "writeups.html"))).

Definition _update_tags_page : M unit :=
  there <- exists_file BaseDir (py "tags.html") ;;
  if there
  then step (λ w, rewrite_region BaseDir (py "tags.html") tags_region
                    (_generate_tags_grid w) w)
  else step (print (PageNotFound (py "tags.html"))).

Definition _update_projects_page : M unit :=
  there <- exists_file BaseDir (py "projects.html") ;;
  if there
  then step (λ w, rewrite_region BaseDir (py "projects.html") projects_region
                    (_generate_projects_grid w) w)
  else step (print (PageNotFound (py "projects.html"))).

Definition _update_home_page : M unit :=
  there <- exists_file BaseDir (py "index.html") ;;
  if there
  then step (λ w, rewrite_region BaseDir (py "index.html") home_region
                    (_generate_recent_posts w) w)
  else step (print (PageNotFound (py "index.html"))).

Definition _update_single_tag_page (tag_name : text) : M unit :=
  there <- exists_file TagsDir (tag_filename tag_name) ;;
  if there
  then step (λ w,
         let writeups_with_tag :=
           filter (λ wu, tag_name ∈ wu_tags wu) (existing_writeups w) in
         rewrite_region TagsDir (tag_filename tag_name) tag_page_region
           (_generate_writeup_cards_for_tag writeups_with_tag) w)
  else step (print (TagFileNotFoundSkipping (tag_filename tag_name))).

Definition _update_all_tag_pages : M unit :=
  λ w, for_each _update_single_tag_page (set_order (all_used_tags w)) w.

Definition update_main_pages : M unit :=
  _update_writeups_page ;;;
  _update_tags_page ;;;
  _update_projects_page ;;;
  _update_home_page ;;;
  _update_all_tag_pages ;;;
  step (print UpdatedAllMainPages).

(** The probe of the writeup document stands inside the [try] of
    [remove_writeup]: its error is reported as the error of the
    unlinking. *)
Definition remove_writeup (title : text) : M bool :=
  λ w,
    let filename := writeup_filename title in
    match list_find (λ wu, wu_filename wu = filename) (existing_writeups w) with
    | None => Returns false (print (WriteupNotFound title) w)
    | Some (_, writeup_to_remove) =>
        let tags_to_check := wu_tags writeup_to_remove in
        let unlinked :=
          match exists_file WriteupsDir filename w with
          | Raises _ => None
          | Returns true _ =>
              print (DeletedWriteupFile filename) <$> unlink_file WriteupsDir filename w
          | Returns false _ => Some (print (WriteupFileMissing filename) w)
          end in
        match unlinked with
        | None => Returns false (print ErrorDeletingWriteupFile w)
        | Some w =>
            (step (set_existing_writeups
                     (remove_first writeup_to_remove (existing_writeups w))) ;;;
             step (print (RemovedWriteup title)) ;;;
             step (print RemovingBrokenLinks) ;;;
             step (_remove_broken_links_from_tags filename) ;;;
             step (print CleaningUpUnusedTags) ;;;
             _cleanup_unused_tags tags_to_check ;;;
             step (print UpdatingMainPages) ;;;
             update_main_pages ;;;
             ret true) w
        end
    end.
End raising.
End Raising.

Definition name_max_probe : Probe :=
  {| exists_fails := λ _ name, bool_decide (255 < length name) |}.

(** A tag of 300 characters. *)
Definition long_tag : text := replicate 300 120%N.

(** ** What a step of a cascade reports and leaves *)

Section outcomes.
Context `{Platform} `{Templates}.



(** The listing pages with their regions and their fillings, in the
    order of [update_main_pages]. *)
Definition listings : list (text * Region N * (World → text)) :=
  [(py "writeups.html", writeups_region, _generate_writeups_grid);
   (py "tags.html", tags_region, _generate_tags_grid);
   (py "projects.html", projects_region, _generate_projects_grid);
   (py "index.html", home_region, _generate_recent_posts)].
End outcomes.

Section cascade_probes.
Context `{Platform} `{Templates}.

(** The files that the steps of [remove_writeup] behind the unlinking
    probe outside every [try], when [writeup_to_remove] leaves the
    writeups [rest]: the documents of its tags that no other writeup
    uses, the listing pages, and the pages of the tags still used. *)
Definition cascade_probes (writeup_to_remove : Writeup) (rest : list Writeup)
  : list (Dir * text) :=
  let used := mjoin (wu_tags <$> rest) in
  let unused := filter (λ tag, tag ∉ used) (wu_tags writeup_to_remove) in
  ((λ tag, (TagsDir, tag_filename tag)) <$> unused)
  ++ ((λ l, (BaseDir, l.1.1)) <$> listings)
  ++ ((λ tag, (TagsDir, tag_filename tag)) <$> used).
End cascade_probes.

(** A site whose one writeup carries a tag of 300 characters, for which
    no document can be. *)
Definition long_tag_world : World :=
  set_existing_writeups
    [{| wu_title := py "A"; wu_filename := py "writeup-a.html";
        wu_created_date := py "January 01, 2025";
        wu_updated_date := py "January 01, 2025";
        wu_machine_photo := []; wu_tags := [long_tag];
        wu_difficulty := []; wu_os_type := []; wu_ip_address := [] |}]
    site_world.

(** * Properties *)

Section find_facts.
Context {A : Type} `{EqDecision A}.
Implicit Types (s sub l r content : list A).

(** *** Facts about [find] *)

Lemma startswith_prefix sub s : startswith sub s = true ↔ sub `prefix_of` s.
Proof.
  revert s. induction sub as [|x sub IH]; intros [|y s]; simpl.
  - split; [intros _; apply prefix_nil | done].
  - split; [intros _; apply prefix_nil | done].
  - split; [done | intros [k Hk]; discriminate].
  - rewrite andb_true_iff, bool_decide_eq_true, IH. split.
    + intros [-> Hp]. by apply prefix_cons.
    + intros [k Hk]. simplify_eq/=. split; [done | by exists k].
Qed.

Lemma match_at_0 sub s : match_at s sub 0 ↔ startswith sub s = true.
Proof.
  rewrite startswith_prefix. unfold match_at. simpl.
  split; [by intros [_ ?] | intros ?; split; [lia | done]].
Qed.

Lemma match_at_S sub y s j : match_at (y :: s) sub (S j) ↔ match_at s sub j.
Proof. unfold match_at. simpl. split; intros [? ?]; (split; [lia | done]). Qed.

Lemma find_first_Some sub s i :
  find_first sub s = Some i ↔
  match_at s sub i ∧ ∀ j, j < i → ¬ match_at s sub j.
Proof.
  revert i. induction s as [|y s IH]; intros i; simpl;
    destruct (startswith sub _) eqn:E.
  - split.
    + intros [= <-]. split; [by apply match_at_0 | intros; lia].
    + intros [[Hi _] _]. simpl in Hi. f_equal. lia.
  - split; [done |]. intros [[Hi Hp] _]. simpl in Hi.
    assert (i = 0) as -> by lia.
    apply startswith_prefix in Hp. simpl in Hp. congruence.
  - split.
    + intros [= <-]. split; [by apply match_at_0 | intros; lia].
    + intros [_ Hmin]. destruct i as [|i]; [done |].
      exfalso. apply (Hmin 0); [lia |]. by apply match_at_0.
  - destruct i as [|i].
    + split; [by destruct (find_first sub s) |].
      intros [Hm _]. apply match_at_0 in Hm. congruence.
    + rewrite fmap_Some. split.
      * intros (k & Hk & [= ->]). apply IH in Hk as [Hm Hmin]. split.
        -- by apply match_at_S.
        -- intros [|j] Hj.
           ++ rewrite match_at_0. congruence.
           ++ rewrite match_at_S. apply Hmin. lia.
      * intros [Hm Hmin]. exists i. split; [| done]. apply IH. split.
        -- by apply match_at_S in Hm.
        -- intros j Hj Hm'. apply (Hmin (S j)); [lia |]. by apply match_at_S.
Qed.

Lemma find_first_None sub s :
  find_first sub s = None ↔ ∀ j, ¬ match_at s sub j.
Proof.
  induction s as [|y s IH]; simpl; destruct (startswith sub _) eqn:E.
  - split; [done |]. intros Hno. exfalso. apply (Hno 0). by apply match_at_0.
  - split; [| done]. intros _ j [Hj Hp]. simpl in Hj.
    assert (j = 0) as -> by lia.
    apply startswith_prefix in Hp. simpl in Hp. congruence.
  - split; [done |]. intros Hno. exfalso. apply (Hno 0). by apply match_at_0.
  - rewrite fmap_None, IH. split.
    + intros Hno [|j].
      * rewrite match_at_0. congruence.
      * rewrite match_at_S. apply Hno.
    + intros Hno j Hm. apply (Hno (S j)). by apply match_at_S.
Qed.

Lemma match_at_drop s sub a i :
  a ≤ length s → match_at (drop a s) sub i ↔ match_at s sub (a + i).
Proof.
  intros Ha. unfold match_at. rewrite length_drop, drop_drop.
  split; intros [? ?]; (split; [lia | done]).
Qed.

(** [find] returns the lowest matching index from [start] on. *)
Lemma find_Some s sub start i :
  find s sub start = Some i ↔ first_match s sub start i.
Proof.
  unfold find, first_match. case_decide as Hs.
  - rewrite fmap_Some. split.
    + intros (k & Hk & ->). apply find_first_Some in Hk as [Hm Hmin].
      split; [lia |]. split; [by apply match_at_drop in Hm |].
      intros j Hj Hm'. apply (Hmin (j - start)); [lia |].
      apply match_at_drop; [done |]. by replace (start + (j - start)) with j by lia.
    + intros (Hle & Hm & Hmin). exists (i - start). split; [| lia].
      apply find_first_Some. split.
      * apply match_at_drop; [done |]. by replace (start + (i - start)) with i by lia.
      * intros j Hj Hm'. apply (Hmin (start + j)); [lia |]. by apply match_at_drop in Hm'.
  - split; [done |]. intros (Hle & [Hi _] & _). lia.
Qed.

(** [find] fails exactly when there is no match from [start] on. *)
Lemma find_None s sub start :
  find s sub start = None ↔ ∀ j, start ≤ j → ¬ match_at s sub j.
Proof.
  unfold find. case_decide as Hs.
  - rewrite fmap_None, find_first_None. split.
    + intros Hno j Hj Hm. apply (Hno (j - start)).
      apply match_at_drop; [done |]. by replace (start + (j - start)) with j by lia.
    + intros Hno j Hm. apply (Hno (start + j)); [lia |]. by apply match_at_drop in Hm.
  - split; [| done]. intros _ j Hj [Hl _]. lia.
Qed.

Lemma find_skip s sub a b :
  a ≤ b → (∀ j, a ≤ j < b → ¬ match_at s sub j) →
  find s sub a = find s sub b.
Proof.
  intros Hab Hno. destruct (find s sub b) as [i|] eqn:E.
  - apply find_Some in E as (Hle & Hm & Hmin). apply find_Some.
    split; [lia |]. split; [done |]. intros j Hj.
    destruct (decide (j < b)); [apply Hno | apply Hmin]; lia.
  - apply find_None. intros j Hj.
    destruct (decide (j < b)); [apply Hno; lia |].
    eapply find_None; [exact E | lia].
Qed.

Lemma match_at_length s sub i : match_at s sub i → i + length sub ≤ length s.
Proof.
  intros [Hi [k Hk]]. apply (f_equal length) in Hk.
  rewrite length_drop, length_app in Hk. lia.
Qed.

Lemma match_at_app_l l r sub i :
  i + length sub ≤ length l → match_at (l ++ r) sub i ↔ match_at l sub i.
Proof.
  intros Hi. unfold match_at. rewrite length_app, drop_app_le by lia. split.
  - intros [_ [k Hk]]. split; [lia |].
    assert (sub = take (length sub) (drop i l)) as ->; [| apply prefix_take].
    apply (f_equal (take (length sub))) in Hk.
    rewrite take_app_length in Hk.
    by rewrite take_app_le in Hk by (rewrite length_drop; lia).
  - intros [? ?]. split; [lia | by apply prefix_app_r].
Qed.

Lemma match_at_app_r l r sub i :
  match_at (l ++ r) sub (length l + i) ↔ match_at r sub i.
Proof.
  unfold match_at. rewrite length_app, drop_app_add'; [| done].
  split; intros [? ?]; (split; [lia | done]).
Qed.

(** An occurrence of [s] rules out the matches of [e] that [clear_of]
    excludes. *)
Lemma compatible_prefix a b r : b `prefix_of` a ++ r → compatible a b = true.
Proof.
  revert b. induction a as [|x a IH]; intros [|y b]; simpl; try done.
  intros [k Hk]. simplify_eq/=. rewrite bool_decide_true by done. simpl.
  apply IH. by exists k.
Qed.

Lemma clear_of_no_match s e content sp j :
  clear_of s e = true → match_at content s sp →
  sp ≤ j < sp + length s → ¬ match_at content e j.
Proof.
  intros Hc [Hsp [k Hk]] Hj [_ He].
  unfold clear_of in Hc. rewrite forallb_forall in Hc.
  specialize (Hc (j - sp)). rewrite negb_true_iff in Hc.
  rewrite <- not_true_iff_false in Hc. apply Hc.
  - apply in_seq. lia.
  - apply (compatible_prefix _ _ k).
    replace j with (sp + (j - sp)) in He by lia.
    rewrite <- drop_drop, Hk in He.
    by rewrite drop_app_le in He by lia.
Qed.
End find_facts.

(** ** Facts about the splice *)

Section splice_facts.
Context {A : Type} `{EqDecision A}.
Implicit Types (rg : Region A) (content inner : list A).

Lemma region_splice_spec rg content inner :
  searches_after rg = true →
  region_splice rg content inner = splice_spec rg content inner.
Proof.
  unfold searches_after, region_splice, splice_spec, filling.
  rewrite orb_true_iff, andb_true_iff, !bool_decide_eq_true.
  intros Hgap.
  destruct (find content (start_marker rg) 0) as [sp|] eqn:Es; [| done].
  assert (find content (end_marker rg) (sp + gap rg)
          = find content (end_marker rg) (sp + length (start_marker rg))) as ->;
    [| by destruct (find content (end_marker rg) _); rewrite <- ?(assoc_L (++))].
  destruct Hgap as [-> | [-> Hclear]]; [done |].
  apply find_Some in Es as (_ & Hm & _).
  rewrite (find_skip content (end_marker rg) (sp + 0) (sp + length (start_marker rg)));
    [done | lia |].
  intros j Hj. eapply clear_of_no_match; [done.. | lia].
Qed.

Lemma splice_spec_Spliced rg content inner new_content :
  splice_spec rg content inner = Spliced new_content ↔
  ∃ sp ep,
    find content (start_marker rg) 0 = Some sp
    ∧ find content (end_marker rg) (sp + length (start_marker rg)) = Some ep
    ∧ new_content = take (sp + length (start_marker rg)) content
                    ++ filling rg inner ++ drop ep content.
Proof.
  unfold splice_spec. split.
  - destruct (find content (start_marker rg) 0) as [sp|]; [| done].
    destruct (find content (end_marker rg) _) as [ep|] eqn:E; [| done].
    intros [= <-]. by exists sp, ep.
  - intros (sp & ep & -> & -> & ->). done.
Qed.

(** After a splice the start marker is found where it was. *)
Lemma spliced_find_start rg content sp tail :
  find content (start_marker rg) 0 = Some sp →
  find (take (sp + length (start_marker rg)) content ++ tail) (start_marker rg) 0
  = Some sp.
Proof.
  intros (_ & Hm & Hmin)%find_Some. apply find_Some.
  pose proof (match_at_length _ _ _ Hm) as Hlen.
  assert (∀ j, j ≤ sp →
            match_at (take (sp + length (start_marker rg)) content ++ tail)
              (start_marker rg) j
            ↔ match_at content (start_marker rg) j) as Hsame.
  { intros j Hj. rewrite match_at_app_l by (rewrite length_take; lia).
    rewrite <- (take_drop (sp + length (start_marker rg)) content) at 2.
    by rewrite match_at_app_l by (rewrite length_take; lia). }
  split; [lia |]. split; [by apply Hsame |].
  intros j Hj. rewrite Hsame by lia. apply Hmin. lia.
Qed.

(** Behind a kept prefix [kept] and a filling [fill] in which the
    marker [e] is fresh, [e] is found right behind the filling. *)
Lemma find_behind_filling (kept fill rest e : list A) :
  e `prefix_of` rest →
  find (fill ++ e) e 0 = Some (length fill) →
  find (kept ++ fill ++ rest) e (length kept) = Some (length kept + length fill).
Proof.
  intros [k ->] (_ & _ & Hmin)%find_Some.
  apply find_Some. split; [lia |]. split.
  - rewrite match_at_app_r.
    rewrite <- (Nat.add_0_r (length fill)), match_at_app_r.
    split; [lia | by exists k].
  - intros j Hj. replace j with (length kept + (j - length kept)) by lia.
    rewrite match_at_app_r, (assoc_L (++)).
    rewrite match_at_app_l by (rewrite length_app; lia).
    apply Hmin. lia.
Qed.

Lemma spliced_find_end rg content inner sp ep :
  find content (start_marker rg) 0 = Some sp →
  find content (end_marker rg) (sp + length (start_marker rg)) = Some ep →
  end_marker_fresh rg inner →
  find (take (sp + length (start_marker rg)) content
        ++ filling rg inner ++ drop ep content)
    (end_marker rg) (sp + length (start_marker rg))
  = Some (sp + length (start_marker rg) + length (filling rg inner)).
Proof.
  intros (_ & Hms & _)%find_Some (Hle & [_ Hme] & _)%find_Some Hfresh.
  pose proof (match_at_length _ _ _ Hms) as Hlen.
  assert (length (take (sp + length (start_marker rg)) content)
          = sp + length (start_marker rg)) as Hn by (rewrite length_take; lia).
  rewrite <- Hn at 2 3. by apply find_behind_filling.
Qed.

(** Frame: a successful splice keeps the text up to the end of the
    start marker and the text from the matched end marker on. *)
Lemma splice_spec_frame rg content inner new_content :
  splice_spec rg content inner = Spliced new_content →
  ∃ sp ep,
    find content (start_marker rg) 0 = Some sp
    ∧ find content (end_marker rg) (sp + length (start_marker rg)) = Some ep
    ∧ take (sp + length (start_marker rg)) new_content
      = take (sp + length (start_marker rg)) content
    ∧ drop (length new_content - (length content - ep)) new_content
      = drop ep content.
Proof.
  intros (sp & ep & Hs & He & ->)%splice_spec_Spliced.
  exists sp, ep. split; [done |]. split; [done |].
  pose proof Hs as (_ & Hms & _)%find_Some.
  pose proof He as (_ & [Hep _] & _)%find_Some.
  pose proof (match_at_length _ _ _ Hms) as Hlen.
  assert (length (take (sp + length (start_marker rg)) content)
          = sp + length (start_marker rg)) as Hn by (rewrite length_take; lia).
  split.
  - rewrite take_app_le by lia. rewrite take_take. f_equal. lia.
  - rewrite !(assoc_L (++)).
    rewrite drop_app_length'; [done |].
    rewrite !length_app, length_drop. lia.
Qed.

(** Idempotence, given a fresh end marker. *)
Lemma splice_spec_idem rg content inner new_content :
  end_marker_fresh rg inner →
  splice_spec rg content inner = Spliced new_content →
  splice_spec rg new_content inner = Spliced new_content.
Proof.
  intros Hfresh (sp & ep & Hs & He & ->)%splice_spec_Spliced.
  apply splice_spec_Spliced.
  exists sp, (sp + length (start_marker rg) + length (filling rg inner)).
  pose proof Hs as (_ & Hms & _)%find_Some.
  pose proof (match_at_length _ _ _ Hms) as Hlen.
  split; [by apply spliced_find_start |].
  split; [by apply spliced_find_end |].
  assert (length (take (sp + length (start_marker rg)) content)
          = sp + length (start_marker rg)) as Hn by (rewrite length_take; lia).
  remember (take (sp + length (start_marker rg)) content) as kept.
  rewrite <- Hn, take_app_length.
  by rewrite drop_app_add', drop_app_length.
Qed.

(** Round trip, given a fresh end marker: the region read back is the
    filling. *)
Lemma splice_spec_read_back rg content inner new_content :
  end_marker_fresh rg inner →
  splice_spec rg content inner = Spliced new_content →
  read_region rg new_content = Some (filling rg inner).
Proof.
  intros Hfresh (sp & ep & Hs & He & ->)%splice_spec_Spliced.
  pose proof Hs as (_ & Hms & _)%find_Some.
  pose proof (match_at_length _ _ _ Hms) as Hlen.
  unfold read_region.
  rewrite (spliced_find_start _ _ _ _ Hs).
  rewrite (spliced_find_end _ _ _ _ _ Hs He Hfresh). simpl.
  assert (length (take (sp + length (start_marker rg)) content)
          = sp + length (start_marker rg)) as Hn by (rewrite length_take; lia).
  remember (take (sp + length (start_marker rg)) content) as kept.
  rewrite <- Hn, drop_app_length. f_equal.
  rewrite take_app_length'; [done | lia].
Qed.
End splice_facts.

(** ** Facts about the markers *)

Lemma generator_regions_search_after rg :
  rg ∈ generator_regions → searches_after rg = true.
Proof.
  unfold generator_regions. rewrite !elem_of_cons, elem_of_nil.
  intros [-> | [-> | [-> | [-> | [-> | [-> | []]]]]]]; by vm_compute.
Qed.

(** ** The region splice of the generator *)


Section located.
Context `{Platform} `{Templates}.

End located.

(** C2. A splice that succeeds keeps the document up to the end of the
    start marker's match and from the start of the end marker's match
    on: the result begins with the same [start_pos + len(start_marker)]
    characters and ends with the same characters as the document from
    [end_pos] on. *)
Theorem C2_splice_frame (rg : Region N) (content inner new_content : text) :
  rg ∈ generator_regions →
  region_splice rg content inner = Spliced new_content →
  ∃ sp ep,
    first_match content (start_marker rg) 0 sp
    ∧ first_match content (end_marker rg) (sp + length (start_marker rg)) ep
    ∧ take (sp + length (start_marker rg)) new_content
      = take (sp + length (start_marker rg)) content
    ∧ drop (length new_content - (length content - ep)) new_content
      = drop ep content.
Proof.
  intros Hrg. rewrite region_splice_spec by by apply generator_regions_search_after.
  intros (sp & ep & Hs & He & Ht & Hd)%splice_spec_frame.
  exists sp, ep. by rewrite <- !find_Some.
Qed.

(** C3, as amended. After a successful splice whose filling keeps the
    end marker fresh, the text between the start marker and the matched
    end marker is the replacement text wrapped in the two separators of
    the region. *)
Theorem C3_read_back_filling (rg : Region N) (content inner new_content : text) :
  rg ∈ generator_regions →
  end_marker_fresh rg inner →
  region_splice rg content inner = Spliced new_content →
  read_region rg new_content = Some (sep_before rg ++ inner ++ sep_after rg).
Proof.
  intros Hrg Hfresh.
  rewrite region_splice_spec by by apply generator_regions_search_after.
  by apply splice_spec_read_back.
Qed.

(** C4, as amended. Splicing the same replacement text a second time
    changes nothing, provided the filling keeps the end marker fresh. *)
Theorem C4_splice_idempotent (rg : Region N) (content inner new_content : text) :
  rg ∈ generator_regions →
  end_marker_fresh rg inner →
  region_splice rg content inner = Spliced new_content →
  region_splice rg new_content inner = Spliced new_content.
Proof.
  intros Hrg Hfresh.
  rewrite !region_splice_spec by by apply generator_regions_search_after.
  by apply splice_spec_idem.
Qed.

(** C3, as stated, fails: what is read back carries the separators. *)
Lemma C3_read_back_differs :
  ∃ new_content,
    region_splice tag_region sample_page (py "x") = Spliced new_content
    ∧ read_region tag_region new_content
      = Some (nl ++ blanks 24 ++ py "x" ++ nl ++ blanks 20)
    ∧ read_region tag_region new_content ≠ Some (py "x").
Proof. eexists. split; [by vm_compute |]. split; by vm_compute. Qed.

(** C4, as stated, fails: with the end marker inside the replacement
    text, the second splice keeps a second copy of what followed it. *)
Lemma C4_second_splice_differs :
  ∃ once twice,
    region_splice tag_region sample_page (tag_links [py "</div>"]) = Spliced once
    ∧ region_splice tag_region once (tag_links [py "</div>"]) = Spliced twice
    ∧ twice ≠ once.
Proof. eexists _, _. split; [by vm_compute |]. split; by vm_compute. Qed.

Lemma C2_splice_frame_witness :
  tag_region ∈ generator_regions
  ∧ ∃ new_content,
      region_splice tag_region sample_page (py "x") = Spliced new_content
      ∧ ∃ sp ep,
          first_match sample_page (start_marker tag_region) 0 sp
          ∧ first_match sample_page (end_marker tag_region)
              (sp + length (start_marker tag_region)) ep
          ∧ take (sp + length (start_marker tag_region)) new_content
            = take (sp + length (start_marker tag_region)) sample_page
          ∧ drop (length new_content - (length sample_page - ep)) new_content
            = drop ep sample_page.
Proof.
  split; [constructor |]. eexists. split; [by vm_compute |].
  apply (C2_splice_frame tag_region sample_page (py "x"));
    [constructor | by vm_compute].
Defined.

Lemma C3_read_back_filling_witness :
  tag_region ∈ generator_regions
  ∧ end_marker_fresh tag_region (py "x")
  ∧ ∃ new_content,
      region_splice tag_region sample_page (py "x") = Spliced new_content
      ∧ read_region tag_region new_content
        = Some (sep_before tag_region ++ py "x" ++ sep_after tag_region).
Proof.
  split; [constructor |]. split; [by vm_compute |].
  eexists. split; [by vm_compute |].
  apply (C3_read_back_filling tag_region sample_page);
    [constructor | by vm_compute | by vm_compute].
Defined.

Lemma C4_splice_idempotent_witness :
  tag_page_region ∈ generator_regions
  ∧ end_marker_fresh tag_page_region (py "<card>")
  ∧ ∃ new_content,
      region_splice tag_page_region sample_tag_page (py "<card>")
      = Spliced new_content
      ∧ region_splice tag_page_region new_content (py "<card>") = Spliced new_content.
Proof.
  split; [do 2 constructor |]. split; [by vm_compute |].
  eexists. split; [by vm_compute |].
  apply (C4_splice_idempotent tag_page_region sample_tag_page);
    [do 2 constructor | by vm_compute | by vm_compute].
Defined.

(** ** Footprints of the steps of the generator *)

Lemma foldl_invariant {A B} (P : A → Prop) (f : A → B → A) (l : list B) (a : A) :
  P a → (∀ a b, P a → P (f a b)) → P (foldl f a l).
Proof. revert a. induction l as [|b l IH]; simpl; auto. Qed.

Lemma dir_files_set d d' fs w :
  dir_files d (set_dir_files d' fs w) = if decide (d = d') then fs else dir_files d w.
Proof. by destruct d, d'. Qed.

#[global] Instance refreshes_preorder : PreOrder refreshes.
Proof.
  split.
  - intros w. by repeat split.
  - intros w1 w2 w3 (?&?&?&?&?&?) (?&?&?&?&?&?).
    repeat split; try congruence; [by etrans | auto].
Qed.

#[global] Instance retags_preorder : PreOrder retags.
Proof.
  split.
  - intros w. by split.
  - intros w1 w2 w3 [? ?] [? ?]. split; [by etrans | congruence].
Qed.

Lemma refreshes_absent w w' d name :
  refreshes w w' → dir_files d w !! name = None → dir_files d w' !! name = None.
Proof. intros (_&_&_&_&_&Ha). apply Ha. Qed.

Lemma refreshes_stdout w w' : refreshes w w' → ∃ out, stdout w' = stdout w ++ out.
Proof. intros (_&_&_&_&Hp&_). exact Hp. Qed.

Lemma refreshes_print m w : refreshes w (print m w).
Proof. repeat split; simpl; [by apply prefix_app_r | by destruct d]. Qed.

Lemma retags_print m w : retags w (print m w).
Proof. split; [apply refreshes_print | done]. Qed.

Section footprints.
Context `{Platform} `{Templates}.

Lemma read_file_Some d name w content :
  read_file d name w = Some content → dir_files d w !! name = Some content.
Proof. unfold read_file. by destruct (read_fails d name). Qed.


Lemma exists_file_false d name w :
  exists_file d name w = false ↔ dir_files d w !! name = None.
Proof.
  unfold exists_file. rewrite bool_decide_eq_false, <- eq_None_not_Some. done.
Qed.

Lemma exists_file_true d name w :
  exists_file d name w = true ↔ is_Some (dir_files d w !! name).
Proof. unfold exists_file. by rewrite bool_decide_eq_true. Qed.

(** Writing over a file that is there. *)
Lemma refreshes_overwrite d name content new_content w w' :
  d ≠ WriteupsDir →
  dir_files d w !! name = Some content →
  write_file d name new_content w = Some w' →
  refreshes w w'.
Proof.
  unfold write_file. intros Hd Hthere Hw.
  destruct (write_fails d name); simplify_eq.
  repeat split; simpl; try done; [by destruct d |].
  intros d' n Hn. rewrite dir_files_set. case_decide; [subst d' | done].
  rewrite lookup_insert_ne; [done | congruence].
Qed.

Lemma refreshes_unlink d name w w' :
  d ≠ WriteupsDir → unlink_file d name w = Some w' → refreshes w w'.
Proof.
  unfold unlink_file. intros Hd Hu.
  destruct (_ || _); simplify_eq.
  repeat split; simpl; try done; [by destruct d |].
  intros d' n Hn. rewrite dir_files_set. case_decide; [subst d' | done].
  rewrite lookup_delete. by case_decide.
Qed.

Lemma refreshes_rewrite_region d page rg inner w :
  d ≠ WriteupsDir → refreshes w (rewrite_region d page rg inner w).
Proof.
  intros Hd. unfold rewrite_region.
  destruct (read_file d page w) as [content|] eqn:Hr; [| apply refreshes_print].
  apply read_file_Some in Hr.
  destruct (region_splice rg content inner); try apply refreshes_print.
  destruct (write_file d page new_content w) as [w'|] eqn:Hw;
    [| apply refreshes_print].
  etrans; [by eapply refreshes_overwrite | apply refreshes_print].
Qed.

Lemma refreshes_update_writeups_page w : refreshes w (_update_writeups_page w).
Proof.
  unfold _update_writeups_page. destruct (exists_file _ _ _);
    [by apply refreshes_rewrite_region | apply refreshes_print].
Qed.

Lemma refreshes_update_tags_page w : refreshes w (_update_tags_page w).
Proof.
  unfold _update_tags_page. destruct (exists_file _ _ _);
    [by apply refreshes_rewrite_region | apply refreshes_print].
Qed.

Lemma refreshes_update_projects_page w : refreshes w (_update_projects_page w).
Proof.
  unfold _update_projects_page. destruct (exists_file _ _ _);
    [by apply refreshes_rewrite_region | apply refreshes_print].
Qed.

Lemma refreshes_update_home_page w : refreshes w (_update_home_page w).
Proof.
  unfold _update_home_page. destruct (exists_file _ _ _);
    [by apply refreshes_rewrite_region | apply refreshes_print].
Qed.

(** Steps on tag files leave the base directory alone. *)
Lemma retags_tag_write name content new_content w w' :
  dir_files TagsDir w !! name = Some content →
  write_file TagsDir name new_content w = Some w' →
  retags w w'.
Proof.
  intros Hthere Hw. split.
  { refine (refreshes_overwrite TagsDir _ _ _ _ _ _ Hthere Hw). done. }
  unfold write_file in Hw. destruct (write_fails _ _); by simplify_eq.
Qed.

Lemma retags_tag_unlink name w w' :
  unlink_file TagsDir name w = Some w' → retags w w'.
Proof.
  intros Hu. split.
  { refine (refreshes_unlink TagsDir _ _ _ _ Hu). done. }
  unfold unlink_file in Hu. destruct (_ || _); by simplify_eq.
Qed.

Lemma retags_update_single_tag_page tag_name w :
  retags w (_update_single_tag_page tag_name w).
Proof.
  unfold _update_single_tag_page, rewrite_region.
  destruct (exists_file _ _ _); [| apply retags_print].
  destruct (read_file _ _ w) as [content|] eqn:Hr; [| apply retags_print].
  apply read_file_Some in Hr.
  destruct (region_splice _ content _); try apply retags_print.
  destruct (write_file _ _ new_content w) as [w'|] eqn:Hw; [| apply retags_print].
  etrans; [by eapply retags_tag_write | apply retags_print].
Qed.

Lemma retags_update_all_tag_pages w : retags w (_update_all_tag_pages w).
Proof.
  unfold _update_all_tag_pages. apply foldl_invariant; [done |].
  intros w' tag Hw'. etrans; [done | apply retags_update_single_tag_page].
Qed.

Lemma refreshes_update_main_pages w : refreshes w (update_main_pages w).
Proof.
  unfold update_main_pages.
  etrans; [apply refreshes_update_writeups_page |].
  etrans; [apply refreshes_update_tags_page |].
  etrans; [apply refreshes_update_projects_page |].
  etrans; [apply refreshes_update_home_page |].
  etrans; [apply retags_update_all_tag_pages |].
  apply refreshes_print.
Qed.

Lemma retags_remove_broken_links filename w :
  retags w (_remove_broken_links_from_tags filename w).
Proof.
  unfold _remove_broken_links_from_tags.
  generalize (glob_tag_files w). intros names.
  apply foldl_invariant; [done |].
  intros w' tag_file Hw'. etrans; [done |].
  unfold remove_broken_links_in.
  destruct (read_file _ _ w') as [content|] eqn:Hr; [| apply retags_print].
  apply read_file_Some in Hr.
  case_bool_decide; [| done].
  destruct (write_file _ _ _ w') as [w''|] eqn:Hw; [| apply retags_print].
  etrans; [by eapply retags_tag_write | apply retags_print].
Qed.

Lemma retags_cleanup_tag w tag : retags w (cleanup_tag w tag).
Proof.
  unfold cleanup_tag. destruct (exists_file _ _ _); [| done].
  destruct (unlink_file _ _ w) as [w'|] eqn:Hu; [| apply retags_print].
  etrans; [by eapply retags_tag_unlink | apply retags_print].
Qed.

Lemma retags_cleanup_unused_tags tags_to_check w :
  retags w (_cleanup_unused_tags tags_to_check w).
Proof.
  unfold _cleanup_unused_tags. apply foldl_invariant; [done |].
  intros w' tag Hw'. etrans; [done | apply retags_cleanup_tag].
Qed.
End footprints.

(** ** Texts that contain a text *)

Section contains_facts.
Context {A : Type} `{EqDecision A}.
Implicit Types (s sub pre post sep : list A).

Lemma contains_app pre sub post : contains (pre ++ sub ++ post) sub.
Proof.
  assert (match_at (pre ++ sub ++ post) sub (length pre + 0)) as Hm.
  { apply match_at_app_r, match_at_0, startswith_prefix. by apply prefix_app_r. }
  unfold contains. destruct (find _ sub 0) as [i|] eqn:E; [done |].
  exfalso. apply (proj1 (find_None _ _ _) E (length pre + 0)); [lia | done].
Qed.


Lemma contains_split s sub : contains s sub → ∃ pre post, s = pre ++ sub ++ post.
Proof.
  intros [i (_ & [Hi [k Hk]] & _)%find_Some].
  exists (take i s), k. by rewrite <- Hk, take_drop.
Qed.


Lemma contains_app_l s post sub : contains s sub → contains (s ++ post) sub.
Proof.
  intros (p & q & ->)%contains_split. rewrite <- !(assoc_L (++)). apply contains_app.
Qed.

Lemma contains_app_r s pre sub : contains s sub → contains (pre ++ s) sub.
Proof.
  intros (p & q & ->)%contains_split. rewrite (assoc_L (++)). apply contains_app.
Qed.

End contains_facts.

(** ** Removing a writeup *)

Section removing.
Context `{Platform} `{Templates}.

Lemma dir_files_print d m w : dir_files d (print m w) = dir_files d w.
Proof. by destruct d. Qed.

(** A page rewrite touches its page only. *)
Lemma rewrite_region_other d page rg inner w d' name :
  (d', name) ≠ (d, page) →
  dir_files d' (rewrite_region d page rg inner w) !! name = dir_files d' w !! name.
Proof.
  intros Hne. unfold rewrite_region.
  destruct (read_file d page w) as [content|]; [| by rewrite dir_files_print].
  destruct (region_splice rg content inner); try by rewrite dir_files_print.
  unfold write_file. destruct (write_fails d page); rewrite dir_files_print; [done |].
  rewrite dir_files_set. case_decide; [subst d' | done].
  rewrite lookup_insert_ne; [done | congruence].
Qed.



Lemma remove_writeup_cases title w i wu :
  list_find (λ wu, wu_filename wu = writeup_filename title) (existing_writeups w)
  = Some (i, wu) →
  remove_writeup title w =
  if exists_file WriteupsDir (writeup_filename title) w
  then match unlink_file WriteupsDir (writeup_filename title) w with
       | Some w1 =>
           (true, remove_writeup_cascade title (writeup_filename title) wu
                    (print (DeletedWriteupFile (writeup_filename title)) w1))
       | None => (false, print ErrorDeletingWriteupFile w)
       end
  else (true, remove_writeup_cascade title (writeup_filename title) wu
                (print (WriteupFileMissing (writeup_filename title)) w)).
Proof.
  intros Hf. unfold remove_writeup. rewrite Hf.
  destruct (exists_file _ _ _); [| done].
  by destruct (unlink_file _ _ _).
Qed.

(** The cascade changes tag files, listing pages and the output; of the
    model it changes the writeup list only. *)
Lemma remove_writeup_cascade_retags title filename wu w :
  refreshes
    (set_existing_writeups (remove_first wu (existing_writeups w)) w)
    (remove_writeup_cascade title filename wu w).
Proof.
  unfold remove_writeup_cascade.
  etrans; [apply (refreshes_print (RemovedWriteup title)) |].
  etrans; [apply (refreshes_print RemovingBrokenLinks) |].
  etrans; [apply retags_remove_broken_links |].
  etrans; [apply (refreshes_print CleaningUpUnusedTags) |].
  etrans; [apply retags_cleanup_unused_tags |].
  etrans; [apply (refreshes_print UpdatingMainPages) |].
  apply refreshes_update_main_pages.
Qed.

(** The cleanup unlinks the document of every tag to check that no
    writeup carries, unless the unlinking raises. *)
Lemma cleanup_tags_unlinks (tags : list text) w t :
  t ∈ tags → unlink_fails TagsDir (tag_filename t) = false →
  tags_dir (foldl cleanup_tag w tags) !! tag_filename t = None.
Proof.
  intros Hin Hok. revert w. induction tags as [|x tags IH]; intros w.
  { by apply elem_of_nil in Hin. }
  simpl. destruct (decide (t ∈ tags)) as [Ht|Ht]; [by apply IH |].
  apply elem_of_cons in Hin as [<- | ?]; [| done].
  apply (foldl_invariant (λ w', tags_dir w' !! tag_filename t = None)).
  - unfold cleanup_tag. destruct (exists_file _ _ _) eqn:He.
    + unfold unlink_file. rewrite Hok, He. simpl. apply lookup_delete_eq.
    + by apply exists_file_false in He.
  - intros w' x Hw'.
    by apply (refreshes_absent w' _ TagsDir _ (proj1 (retags_cleanup_tag w' x))).
Qed.

Lemma tag_filename_inj a b : tag_filename a = tag_filename b → a = b.
Proof. unfold tag_filename. by intros ?%app_inv_head%app_inv_tail. Qed.

Lemma cleanup_tag_keeps w x t :
  unlink_fails TagsDir (tag_filename t) = true →
  tags_dir (cleanup_tag w x) !! tag_filename t = tags_dir w !! tag_filename t.
Proof.
  intros Hf. unfold cleanup_tag, unlink_file.
  destruct (exists_file _ _ _); [| done].
  destruct (unlink_fails TagsDir (tag_filename x)) eqn:Hx; simpl; [done |].
  apply lookup_delete_ne. intros ->%tag_filename_inj. congruence.
Qed.

(** An unlinking that raises in the cleanup is reported, and the
    document stays. *)
Lemma cleanup_tags_reports (tags : list text) w t :
  t ∈ tags → unlink_fails TagsDir (tag_filename t) = true →
  tags_dir w !! tag_filename t ≠ None →
  ∃ out, stdout (foldl cleanup_tag w tags) = stdout w ++ out
         ∧ ErrorDeletingTagFile (tag_filename t) ∈ out.
Proof.
  intros Hin Hf. revert w. induction tags as [|x tags IH]; intros w Hthere.
  { by apply elem_of_nil in Hin. }
  simpl. destruct (decide (t = x)) as [<- | Hne].
  - assert (cleanup_tag w t = print (ErrorDeletingTagFile (tag_filename t)) w) as ->.
    { unfold cleanup_tag, unlink_file. rewrite Hf. simpl.
      assert (exists_file TagsDir (tag_filename t) w = true) as ->; [| done].
      apply exists_file_true. simpl. by destruct (tags_dir w !! _). }
    set (w1 := print _ w).
    destruct (refreshes_stdout w1 (foldl cleanup_tag w1 tags)) as [out Hout].
    { apply (foldl_invariant (refreshes w1)); [done |].
      intros w' y Hw'. etrans; [done | apply retags_cleanup_tag]. }
    exists (ErrorDeletingTagFile (tag_filename t) :: out).
    rewrite Hout. simpl. rewrite <- (assoc_L (++)). split; [done | left].
  - apply elem_of_cons in Hin as [? | Hin]; [done |].
    destruct (IH Hin (cleanup_tag w x)) as (out & Hout & Hm).
    { by rewrite cleanup_tag_keeps. }
    destruct (refreshes_stdout w (cleanup_tag w x)) as [out0 Hout0];
      [apply retags_cleanup_tag |].
    exists (out0 ++ out). rewrite Hout, Hout0, <- (assoc_L (++)).
    split; [done |]. apply elem_of_app. by right.
Qed.

(** Removing cards rewrites tag documents; it neither makes nor drops
    one. *)
Lemma remove_broken_links_names filename w name :
  tags_dir (_remove_broken_links_from_tags filename w) !! name = None
  ↔ tags_dir w !! name = None.
Proof.
  unfold _remove_broken_links_from_tags. generalize (glob_tag_files w).
  intros names. revert w. induction names as [|n names IH]; intros w; [done |].
  simpl. rewrite IH. unfold remove_broken_links_in.
  destruct (read_file _ _ w) as [content|] eqn:Hr; [| done].
  apply read_file_Some in Hr. simpl in Hr.
  case_bool_decide; [| done]. unfold write_file.
  destruct (write_fails _ _); [done |]. simpl.
  destruct (decide (n = name)) as [-> | Hne].
  - rewrite lookup_insert_eq, Hr. done.
  - by rewrite lookup_insert_ne.
Qed.

Lemma update_main_pages_stdout w :
  ∃ out, stdout (update_main_pages w) = stdout w ++ out ++ [UpdatedAllMainPages].
Proof.
  unfold update_main_pages.
  set (w' := _update_all_tag_pages _).
  destruct (refreshes_stdout w w') as [out Hout].
  { unfold w'.
    etrans; [apply refreshes_update_writeups_page |].
    etrans; [apply refreshes_update_tags_page |].
    etrans; [apply refreshes_update_projects_page |].
    etrans; [apply refreshes_update_home_page |].
    apply retags_update_all_tag_pages. }
  exists out. simpl. by rewrite Hout, <- (assoc_L (++)).
Qed.

(** What the cascade does, whatever fails in it. *)
Lemma remove_writeup_cascade_spec title filename wu w :
  let rest := remove_first wu (existing_writeups w) in
  let w' := remove_writeup_cascade title filename wu w in
  existing_tags w' = existing_tags w
  ∧ existing_writeups w' = rest
  ∧ writeups_dir w' = writeups_dir w
  ∧ (∃ links_out cleanup_out refresh_out,
        stdout w' = stdout w ++ [RemovedWriteup title; RemovingBrokenLinks]
                    ++ links_out ++ [CleaningUpUnusedTags]
                    ++ cleanup_out ++ [UpdatingMainPages]
                    ++ refresh_out ++ [UpdatedAllMainPages]
        ∧ ∀ t, t ∈ wu_tags wu → t ∉ mjoin (wu_tags <$> rest) →
               unlink_fails TagsDir (tag_filename t) = true →
               tags_dir w !! tag_filename t ≠ None →
               ErrorDeletingTagFile (tag_filename t) ∈ cleanup_out)
  ∧ (∀ t, t ∈ wu_tags wu → t ∉ mjoin (wu_tags <$> rest) →
          unlink_fails TagsDir (tag_filename t) = false →
          tags_dir w' !! tag_filename t = None).
Proof.
  intros rest w'.
  pose proof (remove_writeup_cascade_retags title filename wu w)
    as (Ht & Hw & _ & Hd & _ & _).
  split; [done |]. split; [done |]. split; [done |].
  unfold w', remove_writeup_cascade. clear w' Ht Hw Hd.
  set (w3 := print RemovingBrokenLinks _).
  set (w4 := _remove_broken_links_from_tags filename w3).
  set (w5 := print CleaningUpUnusedTags w4).
  set (w6 := _cleanup_unused_tags (wu_tags wu) w5).
  set (w7 := print UpdatingMainPages w6).
  assert (stdout w3 = stdout w ++ [RemovedWriteup title; RemovingBrokenLinks]) as H3.
  { simpl. by rewrite <- (assoc_L (++)). }
  destruct (refreshes_stdout w3 w4) as [o1 H4]; [apply retags_remove_broken_links |].
  destruct (refreshes_stdout w5 w6) as [o2 H6]; [apply retags_cleanup_unused_tags |].
  destruct (update_main_pages_stdout w7) as [o3 H8].
  assert (existing_writeups w5 = rest) as Hrest.
  { pose proof (retags_remove_broken_links filename w3) as [(_ & Hw4 & _) _].
    change (existing_writeups w5) with (existing_writeups w4).
    unfold w4. by rewrite Hw4. }
  assert (∀ t, t ∈ wu_tags wu → t ∉ mjoin (wu_tags <$> rest) →
               t ∈ filter (λ tag, tag ∉ all_used_tags w5) (wu_tags wu)) as Hunused.
  { intros t Ht Hn. apply list_elem_of_filter. unfold all_used_tags.
    by rewrite Hrest. }
  split.
  - exists o1, o2, o3. split.
    + rewrite H8. unfold w7. simpl. rewrite H6. unfold w5. simpl. rewrite H4, H3.
      by rewrite <- !(assoc_L (++)).
    + intros t Ht Hn Hf Hthere.
      destruct (cleanup_tags_reports _ w5 t (Hunused t Ht Hn) Hf) as (out & Hout & Hm).
      { unfold w5. simpl. unfold w4. by rewrite remove_broken_links_names. }
      unfold w6, _cleanup_unused_tags in H6. rewrite H6 in Hout.
      by apply app_inv_head in Hout as ->.
  - intros t Ht Hn Hok.
    apply (refreshes_absent w6 _ TagsDir).
    { etrans; [apply (refreshes_print UpdatingMainPages) |].
      apply refreshes_update_main_pages. }
    by apply cleanup_tags_unlinks; [apply Hunused |].
Qed.

End removing.

Section cascade.
Context `{Platform} `{Templates}.

(** When the writeup is in the model and every probe answers,
    [remove_writeup] stops at an unlinking of the writeup document that
    raises: it reports the error, returns [False] and does nothing
    else.  In every other case, a writeup document that is missing
    included, it reports the step, returns [True] and runs the removal
    from the model, the removal of the cards, the cleanup of the unused
    tags and the refresh of the listings, whatever fails in these. *)
Lemma remove_writeup_outcome (title : text) (w : World) (i : nat) (wu : Writeup) :
  list_find (λ wu, wu_filename wu = writeup_filename title) (existing_writeups w)
  = Some (i, wu) →
  let filename := writeup_filename title in
  let rest := remove_first wu (existing_writeups w) in
  if exists_file WriteupsDir filename w && unlink_fails WriteupsDir filename
  then remove_writeup title w = (false, print ErrorDeletingWriteupFile w)
  else
    ∃ w' links_out cleanup_out refresh_out,
      remove_writeup title w = (true, w')
      ∧ stdout w' = stdout w
                    ++ [if exists_file WriteupsDir filename w
                        then DeletedWriteupFile filename
                        else WriteupFileMissing filename]
                    ++ [RemovedWriteup title; RemovingBrokenLinks]
                    ++ links_out ++ [CleaningUpUnusedTags]
                    ++ cleanup_out ++ [UpdatingMainPages]
                    ++ refresh_out ++ [UpdatedAllMainPages]
      ∧ existing_writeups w' = rest
      ∧ writeups_dir w' = delete filename (writeups_dir w)
      ∧ ∀ t, t ∈ wu_tags wu → t ∉ mjoin (wu_tags <$> rest) →
             if unlink_fails TagsDir (tag_filename t)
             then tags_dir w !! tag_filename t ≠ None →
                  ErrorDeletingTagFile (tag_filename t) ∈ cleanup_out
             else tags_dir w' !! tag_filename t = None.
Proof.
  intros Hfind filename rest. rewrite (remove_writeup_cases _ _ _ _ Hfind).
  fold filename. unfold unlink_file.
  destruct (exists_file WriteupsDir filename w) eqn:He;
    destruct (unlink_fails WriteupsDir filename) eqn:Hu; simpl; try done.
  - set (w1 := print _ (set_dir_files _ _ _)).
    destruct (remove_writeup_cascade_spec title filename wu w1)
      as (_ & Hws & Hd & (o1 & o2 & o3 & Hout & Hrep) & Hgone).
    exists (remove_writeup_cascade title filename wu w1), o1, o2, o3.
    split; [done |]. split; [by rewrite Hout; simpl; rewrite <- !(assoc_L (++)) |].
    split; [done |]. split; [done |].
    intros t Ht Hn. destruct (unlink_fails TagsDir (tag_filename t)) eqn:Hf.
    + by apply Hrep.
    + by apply Hgone.
  - set (w1 := print _ w).
    destruct (remove_writeup_cascade_spec title filename wu w1)
      as (_ & Hws & Hd & (o1 & o2 & o3 & Hout & Hrep) & Hgone).
    exists (remove_writeup_cascade title filename wu w1), o1, o2, o3.
    split; [done |]. split; [by rewrite Hout; simpl; rewrite <- !(assoc_L (++)) |].
    split; [done |].
    split.
    { rewrite Hd. simpl. symmetry. apply delete_id.
      by apply (proj1 (exists_file_false WriteupsDir filename w)). }
    intros t Ht Hn. destruct (unlink_fails TagsDir (tag_filename t)) eqn:Hf.
    + by apply Hrep.
    + by apply Hgone.
  - set (w1 := print _ w).
    destruct (remove_writeup_cascade_spec title filename wu w1)
      as (_ & Hws & Hd & (o1 & o2 & o3 & Hout & Hrep) & Hgone).
    exists (remove_writeup_cascade title filename wu w1), o1, o2, o3.
    split; [done |]. split; [by rewrite Hout; simpl; rewrite <- !(assoc_L (++)) |].
    split; [done |].
    split.
    { rewrite Hd. simpl. symmetry. apply delete_id.
      by apply (proj1 (exists_file_false WriteupsDir filename w)). }
    intros t Ht Hn. destruct (unlink_fails TagsDir (tag_filename t)) eqn:Hf.
    + by apply Hrep.
    + by apply Hgone.
Qed.
End cascade.

(** ** The in-memory tag set *)

#[global] Instance rewrites_writeups_preorder : PreOrder rewrites_writeups.
Proof.
  split.
  - intros w. by repeat split.
  - intros w1 w2 w3 (?&?&?&?&?) (?&?&?&?&?).
    repeat split; try congruence. by etrans.
Qed.

Lemma rewrites_writeups_print m w : rewrites_writeups w (print m w).
Proof. repeat split; simpl. by apply prefix_app_r. Qed.

Section tag_set.
Context `{Platform} `{Templates}.

Lemma rewrites_writeups_update_writeup_tags writeup_file tags w :
  rewrites_writeups w (_update_writeup_tags writeup_file tags w).
Proof.
  unfold _update_writeup_tags.
  destruct (read_file _ _ _) as [content|]; [| apply rewrites_writeups_print].
  destruct (region_splice _ _ _); try apply rewrites_writeups_print.
  unfold write_file. destruct (write_fails _ _); [apply rewrites_writeups_print |].
  by repeat split.
Qed.

Lemma rewrites_writeups_add_tag tag_name w title :
  rewrites_writeups w (add_tag_to_writeup tag_name w title).
Proof.
  unfold add_tag_to_writeup.
  destruct (writeup_by_title title w) as [[i wu]|]; [| apply rewrites_writeups_print].
  case_bool_decide; [apply rewrites_writeups_print |].
  set (w1 := set_existing_writeups _ w).
  assert (rewrites_writeups w w1) by by repeat split.
  destruct (exists_file _ _ _).
  - etrans; [done |].
    etrans; [apply rewrites_writeups_update_writeup_tags |].
    apply rewrites_writeups_print.
  - etrans; [done | apply rewrites_writeups_print].
Qed.

Lemma rewrites_writeups_remove_tag tag_name w title :
  rewrites_writeups w (remove_tag_from_writeup tag_name w title).
Proof.
  unfold remove_tag_from_writeup.
  destruct (writeup_by_title title w) as [[i wu]|]; [| apply rewrites_writeups_print].
  case_bool_decide; [| apply rewrites_writeups_print].
  set (w1 := set_existing_writeups _ w).
  assert (rewrites_writeups w w1) by by repeat split.
  destruct (exists_file _ _ _).
  - etrans; [done |].
    etrans; [apply rewrites_writeups_update_writeup_tags |].
    apply rewrites_writeups_print.
  - etrans; [done | apply rewrites_writeups_print].
Qed.

Lemma rewrites_writeups_add_tags tag_name titles w :
  rewrites_writeups w (_add_tag_to_writeups tag_name titles w).
Proof.
  unfold _add_tag_to_writeups. apply foldl_invariant; [done |].
  intros w' t Hw'. etrans; [done | apply rewrites_writeups_add_tag].
Qed.

Lemma rewrites_writeups_remove_tags tag_name titles w :
  rewrites_writeups w (_remove_tag_from_writeups tag_name titles w).
Proof.
  unfold _remove_tag_from_writeups. apply foldl_invariant; [done |].
  intros w' t Hw'. etrans; [done | apply rewrites_writeups_remove_tag].
Qed.





End tag_set.


Lemma elem_of_sorted (items : list text) (t : text) : t ∈ sorted items ↔ t ∈ items.
Proof. unfold sorted. by rewrite merge_sort_Permutation. Qed.

Section stale_tags.
Context `{Platform} `{Templates}.




End stale_tags.

(** ** The tags read back from a writeup page *)

Lemma elem_of_first_occurrences seen l x :
  x ∈ first_occurrences seen l ↔ x ∈ l ∧ x ∉ seen.
Proof.
  revert seen. induction l as [|y l IH]; intros seen; simpl.
  - rewrite !elem_of_nil. tauto.
  - case_decide as Hy.
    + rewrite IH, elem_of_cons. split; [tauto |].
      intros [[-> | ?] ?]; [done | tauto].
    + rewrite !elem_of_cons, IH, elem_of_cons. split.
      * intros [-> | [? ?]]; tauto.
      * intros [[-> | ?] ?]; [tauto |].
        destruct (decide (x = y)); tauto.
Qed.

Lemma NoDup_first_occurrences seen l : NoDup (first_occurrences seen l).
Proof.
  revert seen. induction l as [|y l IH]; intros seen; simpl; [constructor |].
  case_decide; [apply IH |]. constructor; [| apply IH].
  rewrite elem_of_first_occurrences, elem_of_cons. tauto.
Qed.

(** C9, as amended. The tag list recovered from a writeup page holds
    each tag name that the tag-link pattern matches in the page once; it
    is a rearrangement of the names in the order of their first
    occurrences, in the order in which the set iterates. *)
Theorem C9_extracted_tags_deduplicated `{Platform} (content : text) :
  NoDup (extract_tags content)
  ∧ (∀ t, t ∈ extract_tags content ↔ t ∈ findall_tag_links content)
  ∧ extract_tags content ≡ₚ in_document_order content.
Proof.
  unfold extract_tags, in_document_order.
  split; [apply set_order_NoDup |]. split; [apply set_order_elem |].
  apply NoDup_Permutation;
    [apply set_order_NoDup | apply NoDup_first_occurrences |].
  intros t. rewrite set_order_elem, elem_of_first_occurrences, elem_of_nil. tauto.
Qed.

(** C9, as stated, fails: on a platform whose sets iterate in the order
    of the last insertions, the tags of a page that links [linux], [smb]
    and [linux] again come back as [smb], [linux]. *)
Lemma C9_document_order_lost :
  findall_tag_links two_tag_page = [py "linux"; py "smb"; py "linux"]
  ∧ in_document_order two_tag_page = [py "linux"; py "smb"]
  ∧ @extract_tags plain_platform two_tag_page = [py "smb"; py "linux"]
  ∧ @extract_tags plain_platform two_tag_page ≠ in_document_order two_tag_page.
Proof. repeat split; by vm_compute. Qed.

(** ** Creating a writeup *)

Lemma replace_char_map {A} `{EqDecision A} (a b : A) (s : list A) :
  replace [a] [b] s = (λ c, if decide (c = a) then b else c) <$> s.
Proof.
  unfold replace. induction s as [|c s IH]; simpl; [done |].
  rewrite andb_true_r. case_bool_decide; case_decide; simplify_eq; by rewrite IH.
Qed.

Lemma replace_char_strip {A} `{EqDecision A} (a : A) (s : list A) :
  replace [a] [] s = filter (λ c, c ≠ a) s.
Proof.
  unfold replace. induction s as [|c s IH]; simpl; [done |].
  rewrite andb_true_r. case_bool_decide; simplify_eq.
  - by rewrite filter_cons_False by naive_solver.
  - by rewrite filter_cons_True, IH by naive_solver.
Qed.

#[global] Instance creates_tags_preorder : PreOrder creates_tags.
Proof.
  split.
  - intros w. by repeat split.
  - intros w1 w2 w3 (?&?&?&?&?&?) (?&?&?&?&?&?).
    repeat split; try congruence; by etrans.
Qed.

Lemma creates_tags_print m w : creates_tags w (print m w).
Proof. repeat split; simpl; [done | by apply prefix_app_r]. Qed.

Section creating.
Context `{Platform} `{Templates}.

Lemma slug_is_slug_spec title : slug title = slug_spec title.
Proof.
  unfold slug, slug_spec.
  change (py ".") with [46%N]. change (py ":") with [58%N].
  change (py " ") with [32%N]. change (py "-") with [45%N].
  rewrite !replace_char_strip, replace_char_map, list_filter_filter.
  apply list_filter_iff. tauto.
Qed.

Lemma creates_tags_ensure_tag w tag : creates_tags w (ensure_tag w tag).
Proof.
  unfold ensure_tag. case_bool_decide; [done |].
  etrans; [apply (creates_tags_print (TagMissingCreatingIt tag)) |].
  unfold create_tag. destruct (exists_file _ _ _); [apply creates_tags_print |].
  unfold write_file. destruct (write_fails _ _); [apply creates_tags_print |].
  repeat split; simpl; [apply union_subseteq_r | by apply prefix_app_r].
Qed.

Lemma creates_tags_ensure_tags tags w : creates_tags w (foldl ensure_tag w tags).
Proof.
  apply foldl_invariant; [done |].
  intros w' tag Hw'. etrans; [done | apply creates_tags_ensure_tag].
Qed.

(** A round for another tag leaves the tag [t] alone. *)
Lemma ensure_tag_other w x t :
  x ≠ t →
  tags_dir (ensure_tag w x) !! tag_filename t = tags_dir w !! tag_filename t
  ∧ (t ∈ existing_tags (ensure_tag w x) ↔ t ∈ existing_tags w).
Proof.
  intros Hne. unfold ensure_tag. case_bool_decide; [done |].
  unfold create_tag. destruct (exists_file _ _ _); [done |].
  unfold write_file. destruct (write_fails _ _); [done |]. simpl. split.
  - apply lookup_insert_ne. by intros ?%tag_filename_inj.
  - rewrite elem_of_union, elem_of_singleton. split; [| tauto].
    intros [-> | ?]; [done | done].
Qed.



End creating.

Section create_writeup_facts.
Context `{Platform} `{Templates}.


Lemma create_writeup_refuses title tags machine_photo created_date updated_date
  difficulty os_type ip_address w :
  exists_file WriteupsDir (writeup_filename title) w = true →
  create_writeup title tags machine_photo created_date updated_date
    difficulty os_type ip_address w
  = (false, print UseDifferentTitle
              (print (WriteupAlreadyExistsFile (writeup_filename title))
                 (print (WriteupAlreadyExists title) w))).
Proof. intros He. unfold create_writeup. by rewrite He. Qed.

(** A successful [create_writeup] found no document, leaves one and
    appends one writeup of that file name to the model. *)
Lemma create_writeup_true title tags machine_photo created_date updated_date
  difficulty os_type ip_address w w1 :
  create_writeup title tags machine_photo created_date updated_date
    difficulty os_type ip_address w = (true, w1) →
  exists_file WriteupsDir (writeup_filename title) w = false
  ∧ exists_file WriteupsDir (writeup_filename title) w1 = true
  ∧ ∃ new_writeup,
      wu_filename new_writeup = writeup_filename title
      ∧ existing_writeups w1 = existing_writeups w ++ [new_writeup].
Proof.
  unfold create_writeup.
  destruct (exists_file WriteupsDir (writeup_filename title) w) eqn:He; [done |].
  pose proof (creates_tags_ensure_tags tags w) as (Hws & _).
  unfold write_file.
  destruct (write_fails WriteupsDir (writeup_filename title)); [done |].
  intros [= <-]. split; [done |]. split.
  - apply exists_file_true. cbn. rewrite lookup_insert_eq. by eexists.
  - eexists. cbn [existing_writeups set_existing_writeups print set_dir_files].
    rewrite Hws. split; [| done]. done.
Qed.

End create_writeup_facts.

(** ** Tags and their documents *)

Section known_tags.
Context `{Platform} `{Templates}.

(** [create_writeup] takes a tag of the in-memory tag set for a tag with
    a document: for such a tag it creates nothing. *)
Lemma create_writeup_trusts_tag_set (title t machine_photo : text)
  (created_date updated_date : option text) (difficulty os_type ip_address : text)
  (w : World) :
  t ∈ existing_tags w →
  tags_dir w !! tag_filename t = None →
  exists_file WriteupsDir (writeup_filename title) w = false →
  write_fails WriteupsDir (writeup_filename title) = false →
  let r := create_writeup title [t] machine_photo created_date updated_date
             difficulty os_type ip_address w in
  r.1 = true
  ∧ tags_dir r.2 !! tag_filename t = None
  ∧ ∃ wu, wu ∈ existing_writeups r.2 ∧ t ∈ wu_tags wu.
Proof.
  intros Ht Hn He Hw r. unfold r, create_writeup, write_file.
  rewrite He, Hw. cbn [foldl]. unfold ensure_tag. rewrite bool_decide_true by done.
  cbn. split; [done |]. split; [done |].
  eexists. split; [apply elem_of_app; right; left |]. cbn. left.
Qed.
End known_tags.

(** C5 on the code: on a fresh site, creating the writeup [A] with the
    tag [x], removing [A] and creating the writeup [B] with the tag [x]
    all succeed; the invariant holds up to the removal, which unlinks
    the tag document and keeps the name in the tag set, and fails after
    the last step: [B] carries [x] and [x] has no document. *)
Theorem C5_tag_without_document :
  tags_have_documents site_world
  ∧ created_a.1 = true ∧ tags_have_documents created_a.2
  ∧ removed_a.1 = true ∧ tags_have_documents removed_a.2
  ∧ py "x" ∈ existing_tags removed_a.2
  ∧ tags_dir removed_a.2 !! tag_filename (py "x") = None
  ∧ created_b.1 = true
  ∧ (wu_title <$> existing_writeups created_b.2 = [py "B"]
     ∧ wu_tags <$> existing_writeups created_b.2 = [[py "x"]])
  ∧ tags_dir created_b.2 !! tag_filename (py "x") = None
  ∧ ¬ tags_have_documents created_b.2.
Proof.
  split; [apply (bool_decide_unpack _); by vm_compute |].
  split; [by vm_compute |]. split; [apply (bool_decide_unpack _); by vm_compute |].
  split; [by vm_compute |]. split; [apply (bool_decide_unpack _); by vm_compute |].
  split; [apply (bool_decide_unpack _); by vm_compute |].
  split; [by vm_compute |]. split; [by vm_compute |].
  split; [split; by vm_compute |]. split; [by vm_compute |].
  apply (proj1 (bool_decide_eq_false (tags_have_documents created_b.2))).
  by vm_compute.
Qed.

(** ** The model and the writeup documents *)

#[global] Instance keeps_documents_preorder : PreOrder keeps_documents.
Proof.
  split.
  - intros w. by split.
  - intros w1 w2 w3 [Hn1 Hd1] [Hn2 Hd2]. split; [congruence | auto].
Qed.

Lemma keeps_documents_model w w' :
  keeps_documents w w' → model_on_disk w → model_on_disk w'.
Proof.
  intros [Hn Hd] [Hdisk Hnd]. split; [| by rewrite Hn].
  intros wu' Hin. apply (list_elem_of_fmap_2 wu_filename) in Hin.
  rewrite Hn in Hin. apply list_elem_of_fmap in Hin as (wu & -> & Hwu).
  by apply Hd, Hdisk.
Qed.

Lemma keeps_documents_refreshes w w' : refreshes w w' → keeps_documents w w'.
Proof. intros (_ & Hw & _ & Hd & _). split; [by rewrite Hw | by rewrite Hd]. Qed.

Lemma keeps_documents_creates_tags w w' : creates_tags w w' → keeps_documents w w'.
Proof. intros (Hw & _ & Hd & _). split; [by rewrite Hw | by rewrite Hd]. Qed.

Lemma remove_first_elem_of {A} `{EqDecision A} (x y : A) (l : list A) :
  y ∈ remove_first x l → y ∈ l.
Proof.
  induction l as [|z l IH]; simpl; [done |].
  case_decide; rewrite !elem_of_cons; [tauto |]. intros [-> | ?]; tauto.
Qed.

(** Removing the first writeup of a file name from a model without shared
    file names leaves no writeup of that file name. *)
Lemma remove_first_filenames (wu : Writeup) (l : list Writeup) :
  NoDup (wu_filename <$> l) → wu ∈ l →
  NoDup (wu_filename <$> remove_first wu l)
  ∧ ∀ wu', wu' ∈ remove_first wu l → wu_filename wu' ≠ wu_filename wu.
Proof.
  induction l as [|z l IH]; simpl; [by intros _ ?%elem_of_nil |].
  rewrite NoDup_cons. intros [Hz Hnd] Hin. case_decide as Hd.
  - subst z. split; [done |]. intros wu' Hwu' Heq. apply Hz.
    rewrite <- Heq. by apply list_elem_of_fmap_2.
  - apply elem_of_cons in Hin as [? | Hin]; [done |].
    destruct (IH Hnd Hin) as [Hnd' Hne]. split.
    + simpl. apply NoDup_cons. split; [| done].
      intros (wu' & Heq & Hwu')%list_elem_of_fmap. apply Hz. rewrite Heq.
      by apply list_elem_of_fmap_2, (remove_first_elem_of wu).
    + intros wu' [-> | Hwu']%elem_of_cons; [| by apply Hne].
      intros Heq. apply Hz. rewrite Heq. by apply list_elem_of_fmap_2.
Qed.

Section documents.
Context `{Platform} `{Templates}.

Lemma keeps_documents_print m w : keeps_documents w (print m w).
Proof. by split. Qed.

Lemma keeps_documents_update_writeup_tags writeup_file tags w :
  keeps_documents w (_update_writeup_tags writeup_file tags w).
Proof.
  unfold _update_writeup_tags.
  destruct (read_file _ _ _) as [content|]; [| done].
  destruct (region_splice _ _ _); try done.
  unfold write_file. destruct (write_fails _ _); [done |].
  split; [done |]. intros name Hn. simpl. apply lookup_insert_is_Some'. by right.
Qed.

(** Giving a writeup of the model another tag list keeps the file names. *)
Lemma keeps_documents_set_tags i wu ts w :
  existing_writeups w !! i = Some wu →
  keeps_documents w (set_existing_writeups (<[i := set_tags ts wu]> (existing_writeups w)) w).
Proof.
  intros Hi. split; [| done]. simpl. rewrite list_fmap_insert. simpl.
  apply list_insert_id. by rewrite list_lookup_fmap, Hi.
Qed.

Lemma keeps_documents_add_tag tag_name w title :
  keeps_documents w (add_tag_to_writeup tag_name w title).
Proof.
  unfold add_tag_to_writeup, writeup_by_title.
  destruct (list_find _ _) as [[i wu]|] eqn:Hf; [| done].
  apply list_find_Some in Hf as (Hi & _).
  case_bool_decide; [done |].
  pose proof (keeps_documents_set_tags i wu (wu_tags wu ++ [tag_name]) w Hi) as Hk.
  destruct (exists_file _ _ _); [| by etrans].
  etrans; [done |]. etrans; [apply keeps_documents_update_writeup_tags | done].
Qed.

Lemma keeps_documents_remove_tag tag_name w title :
  keeps_documents w (remove_tag_from_writeup tag_name w title).
Proof.
  unfold remove_tag_from_writeup, writeup_by_title.
  destruct (list_find _ _) as [[i wu]|] eqn:Hf; [| done].
  apply list_find_Some in Hf as (Hi & _).
  case_bool_decide; [| done].
  pose proof (keeps_documents_set_tags i wu (remove_first tag_name (wu_tags wu)) w Hi)
    as Hk.
  destruct (exists_file _ _ _); [| by etrans].
  etrans; [done |]. etrans; [apply keeps_documents_update_writeup_tags | done].
Qed.

Lemma keeps_documents_create_tag tag_name description writeup_titles w :
  keeps_documents w (create_tag tag_name description writeup_titles w).2.
Proof.
  unfold create_tag. destruct (exists_file _ _ _); [done |].
  unfold write_file. destruct (write_fails _ _); [done |]. cbn [snd].
  set (w1 := set_existing_tags _ _).
  assert (keeps_documents w w1) as Hk by done.
  destruct writeup_titles as [[|t ts]|]; try done.
  etrans; [done |]. unfold _add_tag_to_writeups.
  apply foldl_invariant; [done |].
  intros w' x Hw'. etrans; [done | apply keeps_documents_add_tag].
Qed.

Lemma keeps_documents_remove_tags tag_name titles w :
  keeps_documents w (_remove_tag_from_writeups tag_name titles w).
Proof.
  unfold _remove_tag_from_writeups. apply foldl_invariant; [done |].
  intros w' x Hw'. etrans; [done | apply keeps_documents_remove_tag].
Qed.

Lemma keeps_documents_remove_tag_op tag_name from_writeups w :
  keeps_documents w (remove_tag tag_name from_writeups w).2.
Proof.
  unfold remove_tag. destruct (exists_file _ _ _); [| done].
  set (w1 := match from_writeups with Some (t :: ts) => _ | _ => _ end).
  assert (keeps_documents w w1) as Hk.
  { unfold w1. destruct from_writeups as [[|t ts]|];
      try apply keeps_documents_remove_tags;
      (destruct (filter _ _); [done | apply keeps_documents_remove_tags]). }
  destruct (filter _ (existing_writeups w1)); [| by etrans].
  unfold unlink_file. destruct (_ || _); [by etrans |].
  cbn [snd]. by etrans.
Qed.

(** The operations keep the model and the writeup documents in
    agreement. *)
Lemma model_on_disk_create_writeup title tags machine_photo created_date updated_date
  difficulty os_type ip_address w :
  model_on_disk w →
  model_on_disk (create_writeup title tags machine_photo created_date updated_date
                   difficulty os_type ip_address w).2.
Proof.
  intros Hm. unfold create_writeup.
  destruct (exists_file WriteupsDir (writeup_filename title) w) eqn:He; [done |].
  pose proof (creates_tags_ensure_tags tags w) as Hc.
  pose proof (keeps_documents_model _ _ (keeps_documents_creates_tags _ _ Hc) Hm)
    as [Hdisk Hnd].
  destruct Hc as (Hws & _ & Hd & _).
  unfold write_file. destruct (write_fails _ _); [done |]. cbn [snd]. split.
  - intros wu. cbn. rewrite elem_of_app, list_elem_of_singleton.
    intros [Hin | ->]; apply lookup_insert_is_Some'; [right; by apply Hdisk | by left].
  - cbn. rewrite fmap_app. apply NoDup_app. split; [done |]. split.
    + intros name (wu & -> & Hin)%list_elem_of_fmap. cbn.
      rewrite list_elem_of_singleton. intros Heq.
      apply Hdisk in Hin. rewrite Heq, Hd in Hin.
      apply (proj1 (exists_file_false WriteupsDir _ w)) in He. cbn in He.
      rewrite He in Hin. by destruct Hin.
    + apply NoDup_singleton.
Qed.

Lemma model_on_disk_remove_writeup title w :
  model_on_disk w → model_on_disk (remove_writeup title w).2.
Proof.
  intros [Hdisk Hnd].
  destruct (list_find (λ wu, wu_filename wu = writeup_filename title)
              (existing_writeups w)) as [[i wu]|] eqn:Hf;
    [| by unfold remove_writeup; rewrite Hf].
  rewrite (remove_writeup_cases _ _ _ _ Hf).
  apply list_find_Some in Hf as (Hi & Hname & _).
  assert (wu ∈ existing_writeups w) as Hin by by eapply list_elem_of_lookup_2.
  destruct (remove_first_filenames wu _ Hnd Hin) as [Hnd' Hne].
  assert (∀ w1, existing_writeups w1 = existing_writeups w →
                writeups_dir w1 = delete (writeup_filename title) (writeups_dir w) →
                model_on_disk
                  (remove_writeup_cascade title (writeup_filename title) wu w1)) as Hcascade.
  { intros w1 Hw1 Hd1.
    apply (keeps_documents_model
             (set_existing_writeups (remove_first wu (existing_writeups w1)) w1));
      [apply keeps_documents_refreshes, remove_writeup_cascade_retags |].
    split; cbn; rewrite Hw1; [| done].
    intros wu' Hwu'. cbn. rewrite Hd1. apply lookup_delete_is_Some. split.
    - rewrite <- Hname. intros Heq. by apply (Hne wu').
    - by apply Hdisk, (remove_first_elem_of wu). }
  destruct (exists_file _ _ _) eqn:He.
  - unfold unlink_file. rewrite He.
    destruct (unlink_fails _ _); cbn [orb negb snd]; [by split |].
    by apply Hcascade.
  - cbn [snd]. apply Hcascade; [done |]. cbn. symmetry. apply delete_id.
    by apply (proj1 (exists_file_false WriteupsDir _ w)).
Qed.

Lemma model_on_disk_preserved w :
  model_on_disk w →
  (∀ tag_name description writeup_titles,
      model_on_disk (create_tag tag_name description writeup_titles w).2)
  ∧ (∀ title tags machine_photo created_date updated_date difficulty os_type
       ip_address,
        model_on_disk (create_writeup title tags machine_photo created_date
                         updated_date difficulty os_type ip_address w).2)
  ∧ (∀ tag_name from_writeups, model_on_disk (remove_tag tag_name from_writeups w).2)
  ∧ (∀ title, model_on_disk (remove_writeup title w).2)
  ∧ model_on_disk (update_main_pages w).
Proof.
  intros Hm. split.
  { intros. by eapply keeps_documents_model; [apply keeps_documents_create_tag |]. }
  split; [intros; by apply model_on_disk_create_writeup |]. split.
  { intros. by eapply keeps_documents_model; [apply keeps_documents_remove_tag_op |]. }
  split; [intros; by apply model_on_disk_remove_writeup |].
  by eapply keeps_documents_model;
    [apply keeps_documents_refreshes, refreshes_update_main_pages |].
Qed.
End documents.

(** ** The statements at work on the sample site *)



(** ** The rest of the generator *)

Section refresh_footprint.
Context `{Platform} `{Templates}.

(** A page rewrite leaves every file other than its page as it was, and
    its page in place. *)
Lemma rewrite_region_names d page rg inner w d' name :
  is_Some (dir_files d' (rewrite_region d page rg inner w) !! name)
  ↔ is_Some (dir_files d' w !! name).
Proof.
  destruct (decide ((d', name) = (d, page))) as [[= -> ->] | Hne];
    [| by rewrite rewrite_region_other].
  unfold rewrite_region.
  destruct (read_file d page w) as [content|] eqn:Hr; [| by rewrite dir_files_print].
  apply read_file_Some in Hr.
  destruct (region_splice rg content inner); try by rewrite dir_files_print.
  unfold write_file. destruct (write_fails d page); rewrite dir_files_print; [done |].
  rewrite dir_files_set, decide_True by done. rewrite lookup_insert_eq, Hr.
  split; by eexists.
Qed.

Lemma update_single_tag_page_other tag_name w d name :
  (d, name) ≠ (TagsDir, tag_filename tag_name) →
  dir_files d (_update_single_tag_page tag_name w) !! name = dir_files d w !! name.
Proof.
  intros Hne. unfold _update_single_tag_page.
  destruct (exists_file _ _ _); [| by rewrite dir_files_print].
  by apply rewrite_region_other.
Qed.

Lemma update_single_tag_page_names tag_name w d name :
  is_Some (dir_files d (_update_single_tag_page tag_name w) !! name)
  ↔ is_Some (dir_files d w !! name).
Proof.
  unfold _update_single_tag_page.
  destruct (exists_file _ _ _); [| by rewrite dir_files_print].
  apply rewrite_region_names.
Qed.

Lemma update_tag_pages_other (tags : list text) w d name :
  (∀ t, t ∈ tags → (d, name) ≠ (TagsDir, tag_filename t)) →
  dir_files d (foldl (λ w tag, _update_single_tag_page tag w) w tags) !! name
  = dir_files d w !! name.
Proof.
  revert w. induction tags as [|t tags IH]; intros w Hne; [done |].
  simpl. rewrite IH.
  - apply update_single_tag_page_other, Hne. by left.
  - intros t' Ht'. apply Hne. by right.
Qed.

Lemma update_tag_pages_names (tags : list text) w d name :
  is_Some (dir_files d (foldl (λ w tag, _update_single_tag_page tag w) w tags) !! name)
  ↔ is_Some (dir_files d w !! name).
Proof.
  revert w. induction tags as [|t tags IH]; intros w; [done |].
  simpl. rewrite IH. apply update_single_tag_page_names.
Qed.

Lemma update_page_other (update : World → World) page rg (inner : World → text) :
  (∀ w, update w = if exists_file BaseDir page w
                   then rewrite_region BaseDir page rg (inner w) w
                   else print (PageNotFound page) w) →
  ∀ w d name,
    (is_Some (dir_files d (update w) !! name) ↔ is_Some (dir_files d w !! name))
    ∧ ((d, name) ≠ (BaseDir, page) →
       dir_files d (update w) !! name = dir_files d w !! name).
Proof.
  intros Hu w d name. rewrite Hu.
  destruct (exists_file _ _ _); [| by rewrite dir_files_print].
  split; [apply rewrite_region_names | apply rewrite_region_other].
Qed.

(** The files after a refresh. *)
Lemma update_main_pages_files (w : World) :
  (∀ d name, is_Some (dir_files d (update_main_pages w) !! name)
             ↔ is_Some (dir_files d w !! name))
  ∧ (∀ name, name ∉ [py "writeups.html"; py "tags.html"; py "projects.html";
                     py "index.html"] →
             base_dir (update_main_pages w) !! name = base_dir w !! name)
  ∧ (∀ name, (∀ t, t ∈ all_used_tags w → name ≠ tag_filename t) →
             tags_dir (update_main_pages w) !! name = tags_dir w !! name).
Proof.
  pose proof (update_page_other _update_writeups_page _ _ _ (λ w, eq_refl)) as H1.
  pose proof (update_page_other _update_tags_page _ _ _ (λ w, eq_refl)) as H2.
  pose proof (update_page_other _update_projects_page _ _ _ (λ w, eq_refl)) as H3.
  pose proof (update_page_other _update_home_page _ _ _ (λ w, eq_refl)) as H4.
  unfold update_main_pages.
  set (w1 := _update_writeups_page w). set (w2 := _update_tags_page w1).
  set (w3 := _update_projects_page w2). set (w4 := _update_home_page w3).
  assert (existing_writeups w4 = existing_writeups w) as Hw4.
  { unfold w4, w3, w2, w1.
    rewrite (proj1 (proj2 (refreshes_update_home_page _))).
    rewrite (proj1 (proj2 (refreshes_update_projects_page _))).
    rewrite (proj1 (proj2 (refreshes_update_tags_page _))).
    apply refreshes_update_writeups_page. }
  split; [| split].
  - intros d name. rewrite dir_files_print. unfold _update_all_tag_pages.
    rewrite update_tag_pages_names. unfold w4, w3, w2, w1.
    rewrite (proj1 (H4 _ d name)), (proj1 (H3 _ d name)), (proj1 (H2 _ d name)).
    apply H1.
  - intros name Hn. rewrite !elem_of_cons, elem_of_nil in Hn.
    change (base_dir ?x) with (dir_files BaseDir x).
    rewrite dir_files_print. unfold _update_all_tag_pages.
    rewrite update_tag_pages_other by done. unfold w4, w3, w2, w1.
    rewrite (proj2 (H4 _ BaseDir name)) by (intros [= ->]; tauto).
    rewrite (proj2 (H3 _ BaseDir name)) by (intros [= ->]; tauto).
    rewrite (proj2 (H2 _ BaseDir name)) by (intros [= ->]; tauto).
    apply H1. intros [= ->]; tauto.
  - intros name Hn.
    change (tags_dir ?x) with (dir_files TagsDir x).
    rewrite dir_files_print. unfold _update_all_tag_pages.
    rewrite update_tag_pages_other.
    + unfold w4, w3, w2, w1.
      rewrite (proj2 (H4 _ TagsDir name)), (proj2 (H3 _ TagsDir name)),
        (proj2 (H2 _ TagsDir name)) by done.
      by apply H1.
    + intros t Ht' [= ->]. apply (Hn t); [| done].
      apply (proj1 (set_order_elem _ _)) in Ht'. unfold all_used_tags in *.
      fold w1 w2 w3 w4 in Ht'. by rewrite Hw4 in Ht'.
Qed.

End refresh_footprint.

(** X1: [update_main_pages] rewrites at most [writeups.html],
    [tags.html], [projects.html] and [index.html] of the base directory
    and the tag documents of the tags that some writeup carries; it
    creates no file and deletes none, and it leaves the writeup documents
    and the model as they were. *)
Theorem X1_update_main_pages_footprint `{Platform} `{Templates} (w : World) :
  existing_tags (update_main_pages w) = existing_tags w
  ∧ existing_writeups (update_main_pages w) = existing_writeups w
  ∧ existing_projects (update_main_pages w) = existing_projects w
  ∧ writeups_dir (update_main_pages w) = writeups_dir w
  ∧ (∀ d name, is_Some (dir_files d (update_main_pages w) !! name)
               ↔ is_Some (dir_files d w !! name))
  ∧ (∀ name, name ∉ [py "writeups.html"; py "tags.html"; py "projects.html";
                     py "index.html"] →
             base_dir (update_main_pages w) !! name = base_dir w !! name)
  ∧ (∀ name, (∀ t, t ∈ all_used_tags w → name ≠ tag_filename t) →
             tags_dir (update_main_pages w) !! name = tags_dir w !! name).
Proof.
  destruct (refreshes_update_main_pages w) as (Ht & Hw & Hp & Hd & _).
  do 4 (split; [done |]). apply update_main_pages_files.
Qed.

Section removal_footprint.
Context `{Platform} `{Templates}.

Lemma cleanup_tag_other w tag name :
  name ≠ tag_filename tag →
  tags_dir (cleanup_tag w tag) !! name = tags_dir w !! name.
Proof.
  intros Hne. unfold cleanup_tag. destruct (exists_file _ _ _); [| done].
  unfold unlink_file. destruct (_ || _); [done |]. simpl.
  by rewrite lookup_delete_ne.
Qed.

Lemma cleanup_tags_other (tags : list text) w name :
  (∀ t, t ∈ tags → name ≠ tag_filename t) →
  tags_dir (foldl cleanup_tag w tags) !! name = tags_dir w !! name.
Proof.
  revert w. induction tags as [|t tags IH]; intros w Hne; [done |].
  simpl. rewrite IH by (intros t' ?; apply Hne; by right).
  apply cleanup_tag_other, Hne. by left.
Qed.

(** The tag files that the cascade leaves in place. *)
Lemma remove_writeup_cascade_tag_files title filename wu w name :
  is_Some (tags_dir w !! name) →
  (∀ t, name = tag_filename t →
        t ∈ all_used_tags (remove_writeup_cascade title filename wu w)) →
  is_Some (tags_dir (remove_writeup_cascade title filename wu w) !! name).
Proof.
  intros Hthere Hused.
  destruct (remove_writeup_cascade_spec title filename wu w) as (_ & Hrest & _).
  unfold all_used_tags in Hused. rewrite Hrest in Hused. clear Hrest.
  unfold remove_writeup_cascade.
  set (w3 := print RemovingBrokenLinks _).
  set (w4 := _remove_broken_links_from_tags filename w3).
  set (w5 := print CleaningUpUnusedTags w4).
  set (w6 := _cleanup_unused_tags (wu_tags wu) w5).
  set (w7 := print UpdatingMainPages w6).
  apply (proj1 (update_main_pages_files w7) TagsDir name).
  change (dir_files TagsDir w7) with (tags_dir w6).
  assert (existing_writeups w5 = remove_first wu (existing_writeups w)) as Hw5.
  { pose proof (retags_remove_broken_links filename w3) as [(_ & Hw4 & _) _].
    change (existing_writeups w5) with (existing_writeups w4).
    unfold w4. by rewrite Hw4. }
  unfold w6, _cleanup_unused_tags. rewrite cleanup_tags_other.
  - change (tags_dir w5) with (tags_dir w4). unfold w4.
    apply not_eq_None_Some. rewrite remove_broken_links_names.
    by apply not_eq_None_Some.
  - intros t [Ht _]%list_elem_of_filter ->. apply Ht.
    unfold all_used_tags. rewrite Hw5. by apply Hused.
Qed.

Lemma remove_writeup_cascade_base_names title filename wu w name :
  is_Some (base_dir (remove_writeup_cascade title filename wu w) !! name)
  ↔ is_Some (base_dir w !! name).
Proof.
  unfold remove_writeup_cascade.
  set (w3 := print RemovingBrokenLinks _).
  set (w4 := _remove_broken_links_from_tags filename w3).
  set (w5 := print CleaningUpUnusedTags w4).
  set (w6 := _cleanup_unused_tags (wu_tags wu) w5).
  set (w7 := print UpdatingMainPages w6).
  rewrite (proj1 (update_main_pages_files w7) BaseDir name).
  change (dir_files BaseDir w7) with (base_dir w6).
  unfold w6. rewrite (proj2 (retags_cleanup_unused_tags _ _)).
  change (base_dir w5) with (base_dir w4).
  unfold w4. by rewrite (proj2 (retags_remove_broken_links _ _)).
Qed.
End removal_footprint.

(** X2: whatever its outcome, [remove_writeup] leaves every writeup
    document but the one of the title in place and unchanged, deletes
    from [tags/] nothing but documents of tags that no writeup of the
    model carries afterwards, and neither creates nor deletes a file of
    the base directory. *)
Theorem X2_remove_writeup_keeps_documents `{Platform} `{Templates}
  (title : text) (w : World) :
  (∀ name, name ≠ writeup_filename title →
           writeups_dir (remove_writeup title w).2 !! name = writeups_dir w !! name)
  ∧ (∀ name, is_Some (tags_dir w !! name) →
             (∀ t, name = tag_filename t →
                   t ∈ all_used_tags (remove_writeup title w).2) →
             is_Some (tags_dir (remove_writeup title w).2 !! name))
  ∧ (∀ name, is_Some (base_dir (remove_writeup title w).2 !! name)
             ↔ is_Some (base_dir w !! name)).
Proof.
  destruct (list_find (λ wu, wu_filename wu = writeup_filename title)
              (existing_writeups w)) as [[i wu]|] eqn:Hf.
  2: { unfold remove_writeup. rewrite Hf. simpl. by repeat split. }
  rewrite (remove_writeup_cases _ _ _ _ Hf).
  assert (∀ w1, (∀ name, name ≠ writeup_filename title →
                         writeups_dir w1 !! name = writeups_dir w !! name) →
                tags_dir w1 = tags_dir w → base_dir w1 = base_dir w →
                let w' := remove_writeup_cascade title (writeup_filename title) wu w1 in
                (∀ name, name ≠ writeup_filename title →
                         writeups_dir w' !! name = writeups_dir w !! name)
                ∧ (∀ name, is_Some (tags_dir w !! name) →
                           (∀ t, name = tag_filename t → t ∈ all_used_tags w') →
                           is_Some (tags_dir w' !! name))
                ∧ (∀ name, is_Some (base_dir w' !! name) ↔ is_Some (base_dir w !! name)))
    as Hcascade.
  { intros w1 Hd1 Ht1 Hb1 w'. split; [| split].
    - intros name Hne. unfold w'.
      destruct (remove_writeup_cascade_spec title (writeup_filename title) wu w1)
        as (_ & _ & -> & _).
      by apply Hd1.
    - intros name Hthere Hused. apply remove_writeup_cascade_tag_files; [| done].
      by rewrite Ht1.
    - intros name. unfold w'. by rewrite remove_writeup_cascade_base_names, Hb1. }
  destruct (exists_file _ _ _).
  - unfold unlink_file.
    destruct (_ || _); [simpl; by repeat split |].
    cbn [snd]. apply Hcascade; [| done..].
    intros name Hne. simpl. by rewrite lookup_delete_ne.
  - cbn [snd]. by apply Hcascade.
Qed.

Lemma set_tags_id wu : set_tags (wu_tags wu) wu = wu.
Proof. by destruct wu. Qed.

Lemma filter_all {A} (P : A → Prop) `{∀ x, Decision (P x)} (l : list A) :
  Forall P l → filter P l = l.
Proof.
  induction 1 as [|x l Hx Hl IH]; [done |].
  by rewrite filter_cons_True, IH.
Qed.

Lemma remove_first_filter {A} `{EqDecision A} (x : A) (l : list A) :
  NoDup l → remove_first x l = filter (λ y, y ≠ x) l.
Proof.
  induction l as [|y l IH]; [done |]. intros [Hy Hl]%NoDup_cons. simpl.
  case_decide as Hd.
  - subst y. rewrite filter_cons_False by (intros ?; done).
    symmetry. apply filter_all, Forall_forall. by intros y Hin ->.
  - rewrite filter_cons_True by done. by rewrite IH.
Qed.

Section tagging_facts.
Context `{Platform} `{Templates}.

Lemma update_writeup_tags_model writeup_file tags w :
  existing_writeups (_update_writeup_tags writeup_file tags w) = existing_writeups w.
Proof.
  unfold _update_writeup_tags.
  destruct (read_file _ _ _); [| done].
  destruct (region_splice _ _ _); try done.
  unfold write_file. by destruct (write_fails _ _).
Qed.

Lemma named_in_singleton t wu : named_in [t] wu ↔ lower (wu_title wu) = lower t.
Proof. unfold named_in. simpl. apply list_elem_of_singleton. Qed.

Lemma named_in_cons t titles wu :
  named_in (t :: titles) wu ↔ lower (wu_title wu) = lower t ∨ named_in titles wu.
Proof. unfold named_in. simpl. apply elem_of_cons. Qed.

Lemma named_in_nil wu : ¬ named_in [] wu.
Proof. unfold named_in. simpl. apply not_elem_of_nil. Qed.

Lemma distinct_titles_lookup w i j x y :
  distinct_titles w →
  existing_writeups w !! i = Some x → existing_writeups w !! j = Some y →
  lower (wu_title x) = lower (wu_title y) → i = j.
Proof.
  intros Hnd Hi Hj Heq.
  apply (NoDup_lookup _ i j (lower (wu_title x)) Hnd); rewrite list_lookup_fmap.
  - by rewrite Hi.
  - by rewrite Hj, Heq.
Qed.

(** The writeup that a title names, when titles are distinct. *)
Lemma writeup_by_title_named w t i wu j x :
  distinct_titles w →
  writeup_by_title t w = Some (i, wu) →
  existing_writeups w !! j = Some x → named_in [t] x → j = i ∧ x = wu.
Proof.
  intros Hnd (Hi & HP & _)%list_find_Some Hj Hn%named_in_singleton.
  assert (j = i) as -> by (eapply distinct_titles_lookup; [done.. | congruence]).
  split; [done | congruence].
Qed.

Lemma insert_as_fmap (l : list Writeup) i wu wu' (f : Writeup → Writeup) :
  l !! i = Some wu → f wu = wu' →
  (∀ j x, l !! j = Some x → j ≠ i → f x = x) →
  <[i := wu']> l = f <$> l.
Proof.
  intros Hi Hf Hother. apply list_eq. intros j. rewrite list_lookup_fmap.
  destruct (decide (i = j)) as [<- | Hne].
  - rewrite list_lookup_insert_eq by by eapply lookup_lt_Some.
    by rewrite Hi, <- Hf.
  - rewrite list_lookup_insert_ne by done.
    destruct (l !! j) as [x|] eqn:Hj; [| done]. simpl. f_equal. symmetry.
    by apply (Hother j).
Qed.

Lemma id_as_fmap (l : list Writeup) (f : Writeup → Writeup) :
  (∀ j x, l !! j = Some x → f x = x) → l = f <$> l.
Proof.
  intros Hf. rewrite <- (list_fmap_id l) at 1. apply list_fmap_ext.
  intros j x Hj. symmetry. by apply (Hf j).
Qed.

(** *** Adding a tag *)

Lemma add_tag_to_writeup_model tag w t :
  distinct_titles w →
  existing_writeups (add_tag_to_writeup tag w t)
  = tagged tag [t] <$> existing_writeups w.
Proof.
  intros Hnd. unfold add_tag_to_writeup.
  destruct (writeup_by_title t w) as [[i wu]|] eqn:Hf.
  - pose proof Hf as (Hi & HP & _)%list_find_Some.
    case_bool_decide as Htag.
    + simpl. apply id_as_fmap. intros j x Hj. unfold tagged.
      case_decide as Hd; [| done]. destruct Hd as [Hn Hx].
      destruct (writeup_by_title_named w t i wu j x Hnd Hf Hj Hn) as [_ ->]. done.
    + match goal with
      | |- existing_writeups (if ?c then _ else _) = _ =>
          transitivity (<[i := set_tags (wu_tags wu ++ [tag]) wu]> (existing_writeups w));
          [destruct c; simpl; [by rewrite update_writeup_tags_model | done] |]
      end.
      apply (insert_as_fmap _ _ wu); [done | |].
      * unfold tagged. rewrite decide_True; [done |].
        split; [by apply named_in_singleton | done].
      * intros j x Hj Hne. unfold tagged. case_decide as Hd; [| done].
        destruct Hd as [Hn _].
        by destruct (writeup_by_title_named w t i wu j x Hnd Hf Hj Hn).
  - simpl. apply id_as_fmap. intros j x Hj. unfold tagged.
    case_decide as Hd; [| done]. destruct Hd as [Hn%named_in_singleton _].
    apply list_find_None in Hf. rewrite Forall_forall in Hf.
    exfalso. apply (Hf x); [by eapply list_elem_of_lookup_2 | done].
Qed.

Lemma tagged_title tag titles wu : wu_title (tagged tag titles wu) = wu_title wu.
Proof. unfold tagged. by case_decide. Qed.

Lemma tagged_nil tag wu : tagged tag [] wu = wu.
Proof. unfold tagged. case_decide as Hd; [| done]. by destruct Hd as [?%named_in_nil _]. Qed.

Lemma tagged_cons tag t titles wu :
  tagged tag titles (tagged tag [t] wu) = tagged tag (t :: titles) wu.
Proof.
  unfold tagged at 2 3.
  destruct (decide (named_in [t] wu ∧ tag ∉ wu_tags wu)) as [[Hn Ht] | Hno].
  - rewrite decide_True by (split; [apply named_in_cons; left; by apply named_in_singleton | done]).
    unfold tagged. rewrite decide_False; [done |]. simpl. intros [_ Hx].
    apply Hx, elem_of_app. right. by left.
  - unfold tagged.
    destruct (decide (named_in titles wu ∧ tag ∉ wu_tags wu)) as [[Hn Ht] | Hno'].
    + rewrite decide_True; [done |]. split; [apply named_in_cons; by right | done].
    + rewrite decide_False; [done |]. intros [[Heq | Hn]%named_in_cons Ht].
      * apply Hno. split; [by apply named_in_singleton | done].
      * by apply Hno'.
Qed.

Lemma distinct_titles_fmap (f : Writeup → Writeup) w w' :
  (∀ wu, wu_title (f wu) = wu_title wu) →
  existing_writeups w' = f <$> existing_writeups w →
  distinct_titles w → distinct_titles w'.
Proof.
  intros Hf Hw'. unfold distinct_titles. rewrite Hw'.
  assert ((λ wu, lower (wu_title wu)) <$> (f <$> existing_writeups w)
          = (λ wu, lower (wu_title wu)) <$> existing_writeups w) as ->; [| done].
  rewrite <- list_fmap_compose. apply list_fmap_ext.
  intros i x _. simpl. by rewrite Hf.
Qed.

Lemma add_tag_to_writeups_model tag titles w :
  distinct_titles w →
  existing_writeups (_add_tag_to_writeups tag titles w)
  = tagged tag titles <$> existing_writeups w.
Proof.
  unfold _add_tag_to_writeups. revert w.
  induction titles as [|t titles IH]; intros w Hnd.
  - simpl. apply id_as_fmap. intros. apply tagged_nil.
  - simpl. rewrite IH.
    + rewrite add_tag_to_writeup_model by done. rewrite <- list_fmap_compose.
      apply list_fmap_ext. intros. apply tagged_cons.
    + eapply distinct_titles_fmap; [| by apply add_tag_to_writeup_model | done].
      intros. apply tagged_title.
Qed.

(** *** Removing a tag *)

Lemma remove_tag_from_writeup_model tag w t :
  distinct_titles w → tags_once w →
  existing_writeups (remove_tag_from_writeup tag w t)
  = untagged tag [t] <$> existing_writeups w.
Proof.
  intros Hnd Honce. unfold remove_tag_from_writeup.
  destruct (writeup_by_title t w) as [[i wu]|] eqn:Hf.
  - pose proof Hf as (Hi & HP & _)%list_find_Some.
    assert (NoDup (wu_tags wu)) as Hwu.
    { unfold tags_once in Honce. rewrite Forall_forall in Honce.
      apply Honce. by eapply list_elem_of_lookup_2. }
    assert (∀ j x, existing_writeups w !! j = Some x → j ≠ i → untagged tag [t] x = x)
      as Hother.
    { intros j x Hj Hne. unfold untagged. case_decide as Hn; [| done].
      by destruct (writeup_by_title_named w t i wu j x Hnd Hf Hj Hn). }
    case_bool_decide as Htag.
    + match goal with
      | |- existing_writeups (if ?c then _ else _) = _ =>
          transitivity (<[i := set_tags (remove_first tag (wu_tags wu)) wu]>
                          (existing_writeups w));
          [destruct c; simpl; [by rewrite update_writeup_tags_model | done] |]
      end.
      apply (insert_as_fmap _ _ wu); [done | | done].
      unfold untagged. rewrite decide_True by by apply named_in_singleton.
      by rewrite remove_first_filter.
    + simpl. apply id_as_fmap. intros j x Hj.
      destruct (decide (j = i)) as [-> | Hne]; [| by apply (Hother j)].
      assert (x = wu) as -> by congruence.
      unfold untagged. case_decide; [| done].
      rewrite filter_all; [apply set_tags_id |].
      apply Forall_forall. by intros y Hy ->.
  - simpl. apply id_as_fmap. intros j x Hj. unfold untagged.
    case_decide as Hn; [| done]. apply named_in_singleton in Hn.
    apply list_find_None in Hf. rewrite Forall_forall in Hf.
    exfalso. apply (Hf x); [by eapply list_elem_of_lookup_2 | done].
Qed.

Lemma untagged_title tag titles wu : wu_title (untagged tag titles wu) = wu_title wu.
Proof. unfold untagged. by case_decide. Qed.

Lemma untagged_nil tag wu : untagged tag [] wu = wu.
Proof. unfold untagged. case_decide as Hd; [| done]. by apply named_in_nil in Hd. Qed.

Lemma filter_filter_same {A} (P : A → Prop) `{∀ x, Decision (P x)} (l : list A) :
  filter P (filter P l) = filter P l.
Proof. apply filter_all, Forall_forall. by intros x [? _]%list_elem_of_filter. Qed.

Lemma untagged_cons tag t titles wu :
  untagged tag titles (untagged tag [t] wu) = untagged tag (t :: titles) wu.
Proof.
  unfold untagged at 2 3.
  destruct (decide (named_in [t] wu)) as [Hn | Hno].
  - rewrite decide_True by (apply named_in_cons; left; by apply named_in_singleton).
    unfold untagged. case_decide; [| done]. simpl. by rewrite filter_filter_same.
  - unfold untagged. rewrite named_in_singleton in Hno.
    destruct (decide (named_in titles wu)) as [Hn | Hn'].
    + by rewrite decide_True by (apply named_in_cons; by right).
    + rewrite decide_False; [done |]. rewrite named_in_cons. tauto.
Qed.

Lemma tags_once_untagged tag titles w w' :
  existing_writeups w' = untagged tag titles <$> existing_writeups w →
  tags_once w → tags_once w'.
Proof.
  intros Hw'. unfold tags_once. rewrite Hw', Forall_fmap.
  intros Honce. eapply Forall_impl; [exact Honce |].
  intros wu Hwu. simpl. unfold untagged.
  case_decide; [| done]. simpl. by apply NoDup_filter.
Qed.

Lemma remove_tag_from_writeups_model tag titles w :
  distinct_titles w → tags_once w →
  existing_writeups (_remove_tag_from_writeups tag titles w)
  = untagged tag titles <$> existing_writeups w.
Proof.
  unfold _remove_tag_from_writeups. revert w.
  induction titles as [|t titles IH]; intros w Hnd Honce.
  - simpl. apply id_as_fmap. intros. apply untagged_nil.
  - simpl. rewrite IH.
    + rewrite remove_tag_from_writeup_model by done. rewrite <- list_fmap_compose.
      apply list_fmap_ext. intros. apply untagged_cons.
    + eapply distinct_titles_fmap; [| by apply remove_tag_from_writeup_model | done].
      intros. apply untagged_title.
    + eapply tags_once_untagged; [by apply remove_tag_from_writeup_model | done].
Qed.
End tagging_facts.

Section remove_tag_facts.
Context `{Platform} `{Templates}.

(** The titles that [remove_tag] hands to [_remove_tag_from_writeups]. *)
Lemma remove_tag_untags tag from_writeups w :
  exists_file TagsDir (tag_filename tag) w = true →
  let titles := match from_writeups with
                | Some (t :: ts) => t :: ts
                | _ => wu_title <$> filter (λ wu, tag ∈ wu_tags wu) (existing_writeups w)
                end in
  let w1 := _remove_tag_from_writeups tag titles w in
  remove_tag tag from_writeups w =
  match filter (λ wu, tag ∈ wu_tags wu) (existing_writeups w1) with
  | [] =>
      match unlink_file TagsDir (tag_filename tag) w1 with
      | Some w' =>
          (true, print (DeletedUnusedTag tag)
                   (set_existing_tags (existing_tags w' ∖ {[tag]}) w'))
      | None => (false, print ErrorDeletingTag w1)
      end
  | _ :: _ => (true, print (TagStillUsed tag) w1)
  end.
Proof.
  intros He. unfold remove_tag. rewrite He.
  destruct from_writeups as [[|t ts]|]; simpl; try done.
  - by destruct (filter _ (existing_writeups w)).
  - by destruct (filter _ (existing_writeups w)).
Qed.

Lemma untagged_all tag (l : list Writeup) :
  Forall (λ wu, tag ∉ wu_tags wu)
    (untagged tag (wu_title <$> filter (λ wu, tag ∈ wu_tags wu) l) <$> l).
Proof.
  rewrite Forall_fmap. apply Forall_forall. intros wu Hin. simpl.
  unfold untagged. case_decide as Hn.
  - simpl. intros [Hne _]%list_elem_of_filter. done.
  - intros Ht. apply Hn. unfold named_in. rewrite <- list_fmap_compose.
    apply (list_elem_of_fmap_2 (lower ∘ wu_title)).
    by apply list_elem_of_filter.
Qed.
End remove_tag_facts.

(** X6: in a model without shared titles and without repeated tags,
    adding a tag to writeups that lack it and removing it from the same
    titles gives back the writeups of the model as they were. *)
Theorem X6_add_then_remove_tag `{Platform} `{Templates}
  (tag : text) (titles : list text) (w : World) :
  distinct_titles w → tags_once w →
  (∀ wu, wu ∈ existing_writeups w → named_in titles wu → tag ∉ wu_tags wu) →
  existing_writeups
    (_remove_tag_from_writeups tag titles (_add_tag_to_writeups tag titles w))
  = existing_writeups w.
Proof.
  intros Hnd Honce Hlack.
  pose proof (add_tag_to_writeups_model tag titles w Hnd) as Ha.
  rewrite remove_tag_from_writeups_model.
  - rewrite Ha, <- list_fmap_compose. symmetry. apply id_as_fmap.
    intros j wu Hj. simpl. unfold tagged.
    destruct (decide (named_in titles wu)) as [Hn | Hn].
    + assert (tag ∉ wu_tags wu) as Ht
          by (apply Hlack; [by eapply list_elem_of_lookup_2 | done]).
      rewrite decide_True by done. unfold untagged.
      rewrite decide_True by done. simpl.
      rewrite filter_app, filter_cons_False, filter_nil, app_nil_r by (intros ?; done).
      rewrite filter_all; [by destruct wu |].
      apply Forall_forall. by intros y Hy ->.
    + rewrite decide_False by tauto. unfold untagged. by rewrite decide_False.
  - eapply distinct_titles_fmap; [| exact Ha | done]. intros. apply tagged_title.
  - unfold tags_once. rewrite Ha, Forall_fmap.
    unfold tags_once in Honce. rewrite Forall_forall in Honce.
    apply Forall_forall. intros wu Hin. simpl. unfold tagged.
    case_decide as Hd; [| by apply Honce]. simpl.
    apply NoDup_app. split; [by apply Honce |]. split; [| apply NoDup_singleton].
    intros x Hx ->%list_elem_of_singleton. by destruct Hd.
Qed.

Lemma X6_add_then_remove_tag_witness :
  @distinct_titles plain_platform created_a.2
  ∧ tags_once created_a.2
  ∧ existing_writeups
      (@_remove_tag_from_writeups plain_platform (py "y") [py "a"]
         (@_add_tag_to_writeups plain_platform (py "y") [py "a"] created_a.2))
    = existing_writeups created_a.2.
Proof.
  assert (@distinct_titles plain_platform created_a.2) as Hnd
      by (apply (bool_decide_unpack _); by vm_compute).
  assert (tags_once created_a.2) as Honce
      by (apply (bool_decide_unpack _); by vm_compute).
  split; [exact Hnd |]. split; [exact Honce |].
  apply (@X6_add_then_remove_tag plain_platform source_templates); [done.. |].
  intros wu Hin _. revert wu Hin. apply Forall_forall.
  apply (bool_decide_unpack _). by vm_compute.
Defined.

(** *** The order of the tag listings *)

#[global] Instance text_leb_total : Total (λ a b : text, text_leb a b).
Proof.
  intros a. induction a as [|x a IH]; intros [|y b]; simpl; auto.
  repeat case_decide; simpl; auto; lia.
Qed.

#[global] Instance text_leb_trans : Transitive (λ a b : text, text_leb a b).
Proof.
  intros a. induction a as [|x a IH]; intros [|y b] [|z c]; simpl; try done.
  repeat case_decide; simpl; try done; try lia.
  subst. apply IH.
Qed.

Lemma sorted_ascending (items : list text) :
  NoDup items →
  NoDup (sorted items) ∧ StronglySorted (λ a b : text, text_leb a b) (sorted items).
Proof.
  intros Hnd. split.
  - unfold sorted. by rewrite merge_sort_Permutation.
  - unfold sorted. apply (StronglySorted_merge_sort _); apply _.
Qed.

(** X8: the tags listing of [tags.html] and the tag lines of
    [list_content] name every tag of the tag set once, in ascending
    order of their code points; the count that [list_content] prints
    before them is their number. *)
Theorem X8_tag_listings_sorted `{Platform} `{Templates} `{Runtime} (w : World) :
  ∃ names,
    _generate_tags_grid w = join nl (tag_card <$> names)
    ∧ take (2 + length names) (list_content w)
      = [ContentHeading; TagsHeading (length names)] ++ (TagLine <$> names)
    ∧ (∀ t, t ∈ names ↔ t ∈ existing_tags w)
    ∧ NoDup names
    ∧ StronglySorted (λ a b : text, text_leb a b) names.
Proof.
  exists (sorted (elements (existing_tags w))).
  destruct (sorted_ascending (elements (existing_tags w))) as [Hnd Hs];
    [apply NoDup_elements |].
  split; [done |]. split.
  - unfold list_content.
    assert (size (existing_tags w) = length (sorted (elements (existing_tags w)))) as ->.
    { unfold sorted. by rewrite merge_sort_Permutation. }
    generalize (sorted (elements (existing_tags w))). intros names. simpl.
    do 2 f_equal. rewrite take_app_length'; [done |]. by rewrite length_fmap.
  - split; [| done]. intros t. by rewrite elem_of_sorted, elem_of_elements.
Qed.

Section create_tag_facts.
Context `{Platform} `{Templates}.

Lemma create_tag_true tag description titles w w1 :
  create_tag tag description titles w = (true, w1) →
  exists_file TagsDir (tag_filename tag) w = false
  ∧ write_fails TagsDir (tag_filename tag) = false
  ∧ tags_dir w1 = <[tag_filename tag := _generate_tag_html tag description]> (tags_dir w)
  ∧ existing_tags w1 = {[tag]} ∪ existing_tags w
  ∧ base_dir w1 = base_dir w.
Proof.
  unfold create_tag. destruct (exists_file _ _ _); [done |].
  unfold write_file. destruct (write_fails _ _); [done |].
  intros [= <-]. do 2 (split; [done |]).
  destruct titles as [[|t ts]|]; try done.
  match goal with
  | |- context [_add_tag_to_writeups tag ts (add_tag_to_writeup tag ?w0 t)] =>
      destruct (rewrites_writeups_add_tags tag (t :: ts) w0) as (Ht & _ & Hb & Hd & _);
      change (_add_tag_to_writeups tag (t :: ts) w0)
        with (_add_tag_to_writeups tag ts (add_tag_to_writeup tag w0 t)) in *
  end.
  by rewrite Ht, Hb, Hd.
Qed.
End create_tag_facts.

(** X7: [create_tag] on a name whose document exists returns [False],
    prints one line and changes nothing else; the writeups named in the
    call do not get the tag.  After a successful [create_tag] the
    document holds the page of the first description, the name is in
    the tag set, and a second [create_tag] of the name is such a
    refusal. *)
Theorem X7_create_tag_refuses_existing `{Platform} `{Templates}
  (tag description : text) (titles : option (list text)) (w : World) :
  (exists_file TagsDir (tag_filename tag) w = true →
   create_tag tag description titles w = (false, print (TagAlreadyExists tag) w))
  ∧ (∀ w1 description2 titles2,
        create_tag tag description titles w = (true, w1) →
        tags_dir w1 !! tag_filename tag = Some (_generate_tag_html tag description)
        ∧ tag ∈ existing_tags w1
        ∧ create_tag tag description2 titles2 w1
          = (false, print (TagAlreadyExists tag) w1)).
Proof.
  split.
  - intros He. unfold create_tag. by rewrite He.
  - intros w1 description2 titles2 (_ & _ & Hd & Ht & _)%create_tag_true.
    assert (tags_dir w1 !! tag_filename tag = Some (_generate_tag_html tag description))
      as Hfile by (rewrite Hd; apply lookup_insert_eq).
    split; [done |]. split; [rewrite Ht; apply elem_of_union_l, elem_of_singleton; done |].
    unfold create_tag.
    assert (exists_file TagsDir (tag_filename tag) w1 = true) as ->; [| done].
    apply exists_file_true. simpl. by rewrite Hfile.
Qed.

(** *** What a match holds *)

Lemma contains_cons {A} `{EqDecision A} (c : A) (s sub : list A) :
  contains s sub → contains (c :: s) sub.
Proof. apply (contains_app_r s [c]). Qed.

Lemma contains_drop {A} `{EqDecision A} n (s sub : list A) :
  contains (drop n s) sub → contains s sub.
Proof. intros Hc. rewrite <- (take_drop n s). by apply contains_app_r. Qed.

Lemma star_greedy_Some p k s rest :
  star_greedy p k s = Some rest → ∃ n, k (drop n s) = Some rest.
Proof.
  induction s as [|c s IH]; simpl.
  - intros Hk. by exists 0.
  - destruct (p c); [| intros Hk; by exists 0].
    destruct (star_greedy p k s) as [r|] eqn:Hs.
    + intros [= ->]. destruct (IH eq_refl) as [n Hn]. by exists (S n).
    + intros Hk. by exists 0.
Qed.

Lemma star_lazy_Some p k s rest :
  star_lazy p k s = Some rest → ∃ n, k (drop n s) = Some rest.
Proof.
  induction s as [|c s IH]; simpl.
  - destruct (k []) eqn:Hk; [| done]. intros [= ->]. by exists 0.
  - destruct (k (c :: s)) eqn:Hk; [intros [= ->]; by exists 0 |].
    destruct (p c); [| done]. intros [n Hn]%IH. by exists (S n).
Qed.

(** A text that a pattern matches holds every literal of the pattern. *)
Lemma re_match_contains r s rest l :
  re_match r s = Some rest → Lit l ∈ r → contains s l.
Proof.
  revert s. induction r as [|a r IH]; intros s Hm Hin; [by apply elem_of_nil in Hin |].
  assert (∀ n, re_match r (drop n s) = Some rest → Lit l ∈ r → contains s l) as Hrest.
  { intros n Hn Hl. eapply contains_drop, IH; done. }
  destruct a as [l0 | p | p | p]; simpl in Hm.
  - destruct (startswith l0 s) eqn:Hs; [| done].
    apply elem_of_cons in Hin as [[= ->] | Hin]; [| by eapply Hrest].
    apply startswith_prefix in Hs as [k ->]. apply (contains_app [] l0 k).
  - destruct s as [|c s]; [done |]. destruct (p c); [| done].
    apply elem_of_cons in Hin as [[=] | Hin]. by apply (Hrest 1).
  - apply star_greedy_Some in Hm as [n Hn].
    apply elem_of_cons in Hin as [[=] | Hin]. by apply (Hrest n).
  - apply star_lazy_Some in Hm as [n Hn].
    apply elem_of_cons in Hin as [[=] | Hin]. by apply (Hrest n).
Qed.

Lemma re_sub_scan_no_match r s :
  (∀ n, re_match r (drop n s) = None) → re_sub_scan r 0 s = s.
Proof.
  induction s as [|c s IH]; intros Hn; [done |]. simpl.
  pose proof (Hn 0) as H0. simpl in H0. rewrite H0.
  f_equal. apply IH. intros n. apply (Hn (S n)).
Qed.

(** [re.sub] of the card pattern leaves a text without the file name
    as it is. *)
Lemma re_sub_delete_card filename content :
  ¬ contains content filename →
  re_sub_delete (card_pattern filename) content = content.
Proof.
  intros Hno. apply re_sub_scan_no_match. intros n.
  destruct (re_match _ _) as [rest|] eqn:Hm; [| done].
  exfalso. apply Hno, (contains_drop n).
  apply (re_match_contains _ _ _ _ Hm). unfold card_pattern.
  rewrite !elem_of_cons. auto 10.
Qed.

(** X9: [_remove_broken_links_from_tags] leaves a document of [tags/]
    in which the file name of the writeup does not occur as it is. *)
Theorem X9_remove_broken_links_untouched `{Platform} `{Templates}
  (filename : text) (w : World) (name content : text) :
  tags_dir w !! name = Some content →
  ¬ contains content filename →
  tags_dir (_remove_broken_links_from_tags filename w) !! name = Some content.
Proof.
  intros Hc Hno. unfold _remove_broken_links_from_tags.
  generalize (glob_tag_files w). intros names. revert w Hc.
  induction names as [|n names IH]; intros w Hc; [done |].
  simpl. apply IH. unfold remove_broken_links_in.
  destruct (read_file _ _ w) as [content'|] eqn:Hr; [| done].
  apply read_file_Some in Hr. simpl in Hr.
  case_bool_decide as Hd; [| done].
  unfold write_file. destruct (write_fails _ _); [done |]. simpl.
  rewrite lookup_insert_ne; [done |]. intros ->.
  apply Hd. rewrite Hc in Hr. injection Hr as <-. by apply re_sub_delete_card.
Qed.

Section slug_facts.
Context `{Platform} `{Templates}.

Lemma slug_characters title c : c ∈ slug title → c ≠ 32%N ∧ c ≠ 58%N ∧ c ≠ 46%N.
Proof.
  rewrite slug_is_slug_spec. unfold slug_spec.
  intros [[H58 H46] Hin]%list_elem_of_filter.
  split; [| done]. apply list_elem_of_fmap in Hin as (x & -> & _).
  by case_decide.
Qed.
End slug_facts.

(** X10: the slug of a title holds no blank, no colon and no period;
    two titles with the same slug name the same document, so that
    after a successful [create_writeup] under one of them a
    [create_writeup] under the other is refused, with the files and the
    model left as they were. *)
Theorem X10_slug_collisions `{Platform} `{Templates}
  (title title2 : text) (tags tags2 : list text) (machine_photo machine_photo2 : text)
  (created_date updated_date created_date2 updated_date2 : option text)
  (difficulty os_type ip_address difficulty2 os_type2 ip_address2 : text)
  (w w1 : World) :
  slug title2 = slug title →
  create_writeup title tags machine_photo created_date updated_date
    difficulty os_type ip_address w = (true, w1) →
  (∀ c, c ∈ slug title → c ≠ 32%N ∧ c ≠ 58%N ∧ c ≠ 46%N)
  ∧ writeup_filename title2 = writeup_filename title
  ∧ create_writeup title2 tags2 machine_photo2 created_date2 updated_date2
      difficulty2 os_type2 ip_address2 w1
    = (false, print UseDifferentTitle
                (print (WriteupAlreadyExistsFile (writeup_filename title))
                   (print (WriteupAlreadyExists title2) w1))).
Proof.
  intros Hs (_ & He & _)%create_writeup_true.
  split; [intros c; apply slug_characters |].
  assert (writeup_filename title2 = writeup_filename title) as Hf
      by (unfold writeup_filename; by rewrite Hs).
  split; [done |]. rewrite <- Hf in He |- *. by apply create_writeup_refuses.
Qed.

(** X11: a model in which every writeup has its document and no two
    writeups share a file name stays so under every operation of the
    generator. *)
Theorem X11_model_on_disk_invariant `{Platform} `{Templates} (w : World) :
  model_on_disk w →
  (∀ tag_name description writeup_titles,
      model_on_disk (create_tag tag_name description writeup_titles w).2)
  ∧ (∀ title tags machine_photo created_date updated_date difficulty os_type
       ip_address,
        model_on_disk (create_writeup title tags machine_photo created_date
                         updated_date difficulty os_type ip_address w).2)
  ∧ (∀ tag_name from_writeups, model_on_disk (remove_tag tag_name from_writeups w).2)
  ∧ (∀ title, model_on_disk (remove_writeup title w).2)
  ∧ (∀ title description project_url date,
        model_on_disk (create_project title description project_url date w).2)
  ∧ model_on_disk (update_main_pages w).
Proof.
  intros Hm.
  destruct (model_on_disk_preserved w Hm) as (H1 & H2 & H3 & H4 & H5).
  do 4 (split; [done |]). split; [| done]. intros. exact Hm.
Qed.

(** ** Names read back *)

Lemma rfind_char_None c s : c ∉ s → rfind_char c s = None.
Proof.
  induction s as [|x s IH]; [done |]. rewrite not_elem_of_cons. intros [Hne Hs].
  simpl. rewrite IH by done. by rewrite decide_False.
Qed.

Lemma rfind_char_last c s t : c ∉ t → rfind_char c (s ++ c :: t) = Some (length s).
Proof.
  intros Ht. induction s as [|x s IH]; simpl.
  - rewrite rfind_char_None by done. by rewrite decide_True.
  - by rewrite IH.
Qed.

(** The stem of a name that ends in [.html]. *)
Lemma stem_html s : s ≠ [] → stem (s ++ py ".html") = s.
Proof.
  intros Hs. unfold stem. change (py ".html") with (46%N :: py "html").
  rewrite rfind_char_last by (apply (bool_decide_unpack _); by vm_compute).
  rewrite length_app. change (length (46%N :: py "html")) with 5.
  assert (0 < length s) by (destruct s; [done | simpl; lia]).
  rewrite decide_True by lia. by rewrite take_app_length.
Qed.

Lemma contains_match_at {A} `{EqDecision A} (s sub : list A) :
  contains s sub ↔ ∃ i, match_at s sub i.
Proof.
  unfold contains. split.
  - intros [i (_ & Hm & _)%find_Some]. by exists i.
  - intros [i Hm]. destruct (find s sub 0) as [j|] eqn:Hf; [done |].
    exfalso. apply (proj1 (find_None _ _ _) Hf i); [lia | done].
Qed.

Lemma contains_startswith {A} `{EqDecision A} (s sub : list A) :
  contains s sub ↔ ∃ n, n ≤ length s ∧ startswith sub (drop n s) = true.
Proof.
  rewrite contains_match_at. unfold match_at.
  by setoid_rewrite startswith_prefix.
Qed.

Lemma not_contains_cons {A} `{EqDecision A} (c : A) (s sub : list A) :
  ¬ contains (c :: s) sub → startswith sub (c :: s) = false ∧ ¬ contains s sub.
Proof.
  intros Hno. split.
  - destruct (startswith sub (c :: s)) eqn:Hs; [| done]. exfalso. apply Hno.
    apply contains_startswith. exists 0. split; [simpl; lia | done].
  - intros Hc. by apply Hno, contains_cons.
Qed.

Section replace_facts.
Context {A : Type} `{EqDecision A}.
Implicit Types (old new s : list A).

Lemma replace_scan_skip old new k s :
  replace_scan old new k s = replace_scan old new 0 (drop k s).
Proof.
  revert k. induction s as [|c s IH]; intros [|k]; simpl; done.
Qed.

Lemma replace_scan_absent old new s :
  ¬ contains s old → replace_scan old new 0 s = s.
Proof.
  induction s as [|c s IH]; [done |]. intros [Hs Hno]%not_contains_cons.
  simpl. rewrite Hs. f_equal. by apply IH.
Qed.

Lemma replace_scan_length old k s :
  length (replace_scan old [] k s) ≤ length s.
Proof.
  revert k. induction s as [|c s IH]; intros k; simpl; [lia |].
  destruct k as [|k]; [| specialize (IH k); lia].
  destruct (startswith old (c :: s)); simpl.
  - specialize (IH (length old - 1)). lia.
  - specialize (IH 0). lia.
Qed.

Lemma replace_scan_shorter old s :
  old ≠ [] → contains s old → length (replace_scan old [] 0 s) < length s.
Proof.
  intros Hold. induction s as [|c s IH].
  - intros (n & Hn & Hs)%contains_startswith. simpl in Hn.
    assert (n = 0) as -> by lia. simpl in Hs. by destruct old.
  - intros Hc. simpl. destruct (startswith old (c :: s)) eqn:Hs; simpl.
    + pose proof (replace_scan_length old (length old - 1) s). lia.
    + apply contains_startswith in Hc as (n & Hn & Hm).
      destruct n as [|n]; [simpl in Hm; congruence |].
      assert (contains s old) as Hc'.
      { apply contains_startswith. exists n. simpl in Hn. split; [lia | done]. }
      specialize (IH Hc'). lia.
Qed.

(** [s.replace(old, '')] is [s] exactly when [old] does not occur in
    [s]. *)
Lemma replace_delete_id old s :
  old ≠ [] → replace old [] s = s ↔ ¬ contains s old.
Proof.
  intros Hold. destruct old as [|o old]; [done |]. unfold replace. split.
  - intros Heq Hc. pose proof (replace_scan_shorter (o :: old) s Hold Hc) as Hlt.
    rewrite Heq in Hlt. lia.
  - apply replace_scan_absent.
Qed.

Lemma replace_prefix old new s :
  old ≠ [] → replace old new (old ++ s) = new ++ replace old new s.
Proof.
  intros Hold. destruct old as [|o old]; [done |]. unfold replace.
  assert (startswith (o :: old) ((o :: old) ++ s) = true) as Hs
      by (apply startswith_prefix; by apply prefix_app_r).
  change ((o :: old) ++ s) with (o :: (old ++ s)) in *.
  cbn [replace_scan]. rewrite Hs. f_equal. rewrite replace_scan_skip. f_equal.
  replace (length (o :: old) - 1) with (length old) by (simpl; lia).
  by rewrite drop_app_length.
Qed.
End replace_facts.

Lemma elem_of_glob_tag_files w tag :
  tag_filename tag ∈ glob_tag_files w ↔ is_Some (tags_dir w !! tag_filename tag).
Proof.
  unfold glob_tag_files. rewrite list_elem_of_filter, list_elem_of_fmap.
  split.
  - intros (_ & [name content] & -> & Hin). apply elem_of_map_to_list in Hin.
    simpl. by rewrite Hin.
  - intros [content Hc]. split.
    + split; [by vm_compute |]. unfold tag_filename.
      exists (py "tag-" ++ tag). by rewrite <- (assoc_L (++)).
    + exists (tag_filename tag, content). split; [done |].
      by apply elem_of_map_to_list.
Qed.

(** X12: the loader reads the tag [NAME] whose document is
    [tag-NAME.html] back as [NAME] with every [tag-] taken out: the
    name itself exactly when [tag-] does not occur in it. *)
Theorem X12_tag_names_read_back `{Platform} `{Runtime} (tag : text) :
  replace (py "tag-") [] (stem (tag_filename tag)) = replace (py "tag-") [] tag
  ∧ (replace (py "tag-") [] tag = tag ↔ ¬ contains tag (py "tag-"))
  ∧ (∀ w, is_Some (tags_dir w !! tag_filename tag) →
          replace (py "tag-") [] tag ∈ _load_existing_tags w).
Proof.
  assert (replace (py "tag-") [] (stem (tag_filename tag))
          = replace (py "tag-") [] tag) as Hstem.
  { unfold tag_filename. rewrite (assoc_L (++)), stem_html by done.
    by rewrite replace_prefix. }
  split; [done |]. split; [by apply replace_delete_id |].
  intros w Hthere. unfold _load_existing_tags.
  apply elem_of_list_to_set, list_elem_of_fmap.
  exists (tag_filename tag). split; [done |]. by apply elem_of_glob_tag_files.
Qed.

(** ** The writeups that the loader finds *)

Section loading_facts.
Context `{Platform} `{Runtime}.

Lemma insert_by_ctime_perm name files : insert_by_ctime name files ≡ₚ name :: files.
Proof.
  induction files as [|x files IH]; [done |]. simpl.
  case_decide; [| done]. rewrite IH. apply Permutation_swap.
Qed.

Lemma sort_by_ctime_perm files : sort_by_ctime files ≡ₚ files.
Proof.
  unfold sort_by_ctime.
  assert (∀ acc, foldl (λ sorted name, insert_by_ctime name sorted) acc files
                 ≡ₚ acc ++ files) as Hacc; [| apply (Hacc [])].
  induction files as [|x files IH]; intros acc; simpl; [by rewrite app_nil_r |].
  rewrite IH, insert_by_ctime_perm. simpl. apply Permutation_middle.
Qed.

Lemma insert_by_ctime_sorted name files :
  StronglySorted (λ a b, st_ctime a ≤ st_ctime b) files →
  StronglySorted (λ a b, st_ctime a ≤ st_ctime b) (insert_by_ctime name files).
Proof.
  induction 1 as [|x files Hs IH Hx]; simpl.
  - repeat constructor.
  - case_decide as Hd.
    + constructor; [done |]. rewrite insert_by_ctime_perm. by constructor.
    + constructor; [by constructor |]. constructor; [lia |].
      eapply Forall_impl; [exact Hx |]. simpl. intros y ?. lia.
Qed.

Lemma sort_by_ctime_sorted files :
  StronglySorted (λ a b, st_ctime a ≤ st_ctime b) (sort_by_ctime files).
Proof.
  unfold sort_by_ctime. apply foldl_invariant; [constructor |].
  intros acc name. apply insert_by_ctime_sorted.
Qed.

Lemma StronglySorted_filter {A} (R : relation A) (P : A → Prop)
  `{∀ x, Decision (P x)} (l : list A) :
  StronglySorted R l → StronglySorted R (filter P l).
Proof.
  induction 1 as [|x l Hs IH Hx]; [constructor |].
  destruct (decide (P x)).
  - rewrite filter_cons_True by done. constructor; [done |].
    apply Forall_forall. intros y [_ Hy]%list_elem_of_filter.
    rewrite Forall_forall in Hx. by apply Hx.
  - by rewrite filter_cons_False.
Qed.

Lemma load_fold (files : list text) w (acc : list Writeup * list LoadMsg) :
  foldl (λ acc writeup_file,
           let r := _extract_writeup_metadata writeup_file w in
           (acc.1 ++ option_list r.1, acc.2 ++ r.2)) acc files
  = (acc.1 ++ omap (λ f, (_extract_writeup_metadata f w).1) files,
     acc.2 ++ (files ≫= λ f, (_extract_writeup_metadata f w).2)).
Proof.
  revert acc. induction files as [|f files IH]; intros [a b]; simpl.
  - by rewrite !app_nil_r.
  - rewrite IH. simpl. rewrite <- !(assoc_L (++)).
    by destruct (_extract_writeup_metadata f w) as [[wu|] msgs].
Qed.

Lemma elem_of_glob_writeup_files w name :
  name ∈ glob_writeup_files w →
  is_Some (writeups_dir w !! name).
Proof.
  unfold glob_writeup_files. rewrite list_elem_of_filter, list_elem_of_fmap.
  intros (_ & [n content] & -> & Hin). apply elem_of_map_to_list in Hin.
  simpl. by rewrite Hin.
Qed.

Lemma glob_writeup_files_NoDup w : NoDup (glob_writeup_files w).
Proof. unfold glob_writeup_files. apply NoDup_filter, NoDup_fst_map_to_list. Qed.

Lemma loaded_filenames (files : list text) w :
  wu_filename <$> omap (λ f, (_extract_writeup_metadata f w).1) files
  = filter (λ f, is_Some (read_file WriteupsDir f w)) files.
Proof.
  induction files as [|f files IH]; [done |].
  assert ((_extract_writeup_metadata f w).1
          = metadata_of f <$> read_file WriteupsDir f w) as Hf.
  { unfold _extract_writeup_metadata. by destruct (read_file _ _ _). }
  change (omap ?g (f :: files))
    with (match g f with Some y => y :: omap g files | None => omap g files end).
  cbv beta. rewrite Hf.
  destruct (read_file WriteupsDir f w) as [content|] eqn:Hr; simpl.
  - rewrite filter_cons_True by (by rewrite Hr). f_equal. apply IH.
  - rewrite filter_cons_False by (rewrite Hr; by intros [? ?]). apply IH.
Qed.
End loading_facts.

(** X13: [_load_existing_writeups] yields one writeup for every
    document [writeup-*.html] that can be read, under the name of its
    file and with the metadata of its text, the documents ordered by
    ascending [st_ctime]; for each of the others it prints one line. *)
Theorem X13_writeups_loaded_oldest_first `{Platform} `{Runtime} (w : World) :
  StronglySorted (λ a b, st_ctime a ≤ st_ctime b)
    (wu_filename <$> (_load_existing_writeups w).1)
  ∧ NoDup (wu_filename <$> (_load_existing_writeups w).1)
  ∧ (∀ name, name ∈ wu_filename <$> (_load_existing_writeups w).1
             ↔ name ∈ glob_writeup_files w ∧ read_fails WriteupsDir name = false)
  ∧ (∀ name, ErrorExtractingMetadata name ∈ (_load_existing_writeups w).2
             ↔ name ∈ glob_writeup_files w ∧ read_fails WriteupsDir name = true)
  ∧ (∀ wu, wu ∈ (_load_existing_writeups w).1 →
           ∃ content, writeups_dir w !! wu_filename wu = Some content
                      ∧ wu = metadata_of (wu_filename wu) content).
Proof.
  unfold _load_existing_writeups. rewrite load_fold. cbn [fst snd app].
  rewrite loaded_filenames.
  assert (∀ name, name ∈ sort_by_ctime (glob_writeup_files w)
                  ↔ name ∈ glob_writeup_files w) as Hsort
      by (intros; by rewrite sort_by_ctime_perm).
  assert (∀ name, name ∈ glob_writeup_files w →
                  is_Some (read_file WriteupsDir name w)
                  ↔ read_fails WriteupsDir name = false) as Hread.
  { intros name Hin%elem_of_glob_writeup_files. unfold read_file.
    destruct (read_fails _ _); [| done]. split; [by intros [? ?] | done]. }
  split; [apply StronglySorted_filter, sort_by_ctime_sorted |].
  split.
  { apply NoDup_filter. rewrite sort_by_ctime_perm. apply glob_writeup_files_NoDup. }
  split.
  { intros name. rewrite list_elem_of_filter, Hsort. split.
    - intros [Hr Hin]. split; [done |]. by apply Hread.
    - intros [Hin Hr]. split; [| done]. by apply Hread. }
  split.
  { intros name. rewrite list_elem_of_bind. split.
    - intros (f & Hm & Hin). apply Hsort in Hin.
      unfold _extract_writeup_metadata in Hm.
      destruct (read_file WriteupsDir f w) eqn:Hr; [by apply elem_of_nil in Hm |].
      apply list_elem_of_singleton in Hm as [= ->]. split; [done |].
      destruct (read_fails WriteupsDir f) eqn:Hf; [done |].
      apply Hread in Hf; [| done]. rewrite Hr in Hf. by destruct Hf.
    - intros [Hin Hf]. exists name. split; [| by apply Hsort].
      unfold _extract_writeup_metadata, read_file. rewrite Hf. by left. }
  intros wu (f & Hin & Hwu)%list_elem_of_omap.
  unfold _extract_writeup_metadata in Hwu.
  destruct (read_file WriteupsDir f w) as [content|] eqn:Hr; simpl in Hwu; [| done].
  injection Hwu as <-. exists content. split; [| done].
  simpl. by apply read_file_Some in Hr.
Qed.

(** ** Matches of a pattern in a text made of parts *)

Section regex_facts.
Implicit Types (r : list Item) (s pre rest l : text) (p : N → bool).

Lemma startswith_incompatible l s rest :
  compatible s l = false → startswith l (s ++ rest) = false.
Proof.
  intros Hc. destruct (startswith l (s ++ rest)) eqn:Hs; [| done].
  apply startswith_prefix in Hs. apply compatible_prefix in Hs. congruence.
Qed.

Lemma startswith_app l s rest :
  startswith l s = true → startswith l (s ++ rest) = true.
Proof.
  rewrite !startswith_prefix. intros [k ->]. rewrite <- (assoc_L (++)).
  by apply prefix_app_r.
Qed.

Lemma startswith_length l s : startswith l s = true → length l ≤ length s.
Proof. intros [k ->]%startswith_prefix. rewrite length_app. lia. Qed.

Lemma greedy_fails_sound {R} p (kb : text → bool) (k : text → text → option R) s :
  (∀ s' rest, kb s' = true → k rest (s' ++ rest) = None) →
  greedy_fails p kb s = true → ∀ rest, run_greedy p (k rest) (s ++ rest) = None.
Proof.
  intros Hk. induction s as [|c s IH]; [done |]. simpl.
  destruct (p c).
  - intros [Hs Hc]%andb_true_iff rest. rewrite (IH Hs). by apply (Hk (c :: s)).
  - intros Hc rest. by apply (Hk (c :: s)).
Qed.

Lemma lazy_fails_sound {R} p (kb : text → bool) (k : text → text → option R) s :
  (∀ s' rest, kb s' = true → k rest (s' ++ rest) = None) →
  lazy_fails p kb s = true → ∀ rest, run_lazy p (k rest) (s ++ rest) = None.
Proof.
  intros Hk. induction s as [|c s IH]; [done |]. simpl.
  intros [Hc Hs]%andb_true_iff rest. rewrite (Hk (c :: s)) by done.
  destruct (p c); [by apply IH | done].
Qed.

Lemma fails_sound r s :
  fails r s = true → ∀ rest marks, re_run r marks (s ++ rest) = None.
Proof.
  revert s. induction r as [|[[l | p | p | p]|] r IH]; intros s; simpl; try done.
  - destruct (startswith l s) eqn:Hs.
    + intros Hf rest marks. rewrite (startswith_app _ _ _ Hs).
      rewrite drop_app_le by by apply startswith_length. by apply IH.
    + intros Hc%negb_true_iff rest marks.
      by rewrite startswith_incompatible.
  - destruct s as [|c s]; [done |]. simpl. destruct (p c); [| done].
    intros Hf rest marks. by apply IH.
  - intros Hf rest marks.
    apply (greedy_fails_sound p (fails r) (λ rest, re_run r marks)); [| done].
    intros s' rest' Hs'. by apply IH.
  - intros Hf rest marks.
    apply (lazy_fails_sound p (fails r) (λ rest, re_run r marks)); [| done].
    intros s' rest' Hs'. by apply IH.
  - intros Hf rest marks. by apply IH.
Qed.

Lemma dead_silent r (c : text) rest : dead r c = true → silent r c rest.
Proof.
  induction c as [|x c IH]; [intros _ i Hi; simpl in Hi; lia |].
  simpl. intros [Hf Hd]%andb_true_iff [|i] Hi marks.
  - by apply (fails_sound r (x :: c)).
  - apply IH; [done | simpl in Hi; lia].
Qed.

Lemma absent_silent l r pre rest : absent l pre rest → silent (At (Lit l) :: r) pre rest.
Proof. intros Ha i Hi marks. simpl. by rewrite Ha. Qed.

Lemma absent_char x l s rest : x ∉ s → absent (x :: l) s rest.
Proof.
  intros Hx i Hi. destruct (drop i s) as [|y s'] eqn:Hd.
  { apply (f_equal length) in Hd. rewrite length_drop in Hd. simpl in Hd. lia. }
  simpl. rewrite bool_decide_eq_false_2; [done |]. intros ->.
  apply Hx. rewrite <- (take_drop i s), Hd. apply elem_of_app. right. by left.
Qed.

Lemma border_clear_spec l (c : text) rest m :
  border_clear l c = true → 0 < m < length l →
  startswith (drop m l) (c ++ rest) = false.
Proof.
  unfold border_clear. rewrite forallb_forall. intros Hb Hm.
  apply startswith_incompatible, negb_true_iff, Hb, in_seq. lia.
Qed.

(** A text without [l], followed by a text that no ending of [l]
    begins, lets no occurrence of [l] begin in it. *)
Lemma absent_free l s (c : text) rest :
  ¬ contains s l → border_clear l c = true → absent l s (c ++ rest).
Proof.
  intros Hno Hb i Hi.
  destruct (startswith l (drop i s ++ c ++ rest)) eqn:Hs; [| done]. exfalso.
  apply startswith_prefix in Hs as [k Hk].
  destruct (decide (length l ≤ length (drop i s))) as [Hle | Hgt].
  - apply Hno, contains_startswith. exists i. split; [lia |].
    apply startswith_prefix. exists (drop (length l) (drop i s)).
    apply (f_equal (take (length l))) in Hk.
    rewrite take_app_le in Hk by done. rewrite take_app_length in Hk.
    transitivity (take (length l) (drop i s) ++ drop (length l) (drop i s));
      [by rewrite take_drop | by rewrite Hk].
  - assert (0 < length (drop i s) < length l) as Hm
        by (rewrite length_drop in *; lia).
    pose proof (border_clear_spec l c rest _ Hb Hm) as Hf.
    apply not_true_iff_false in Hf. apply Hf, startswith_prefix. exists k.
    apply (f_equal (drop (length (drop i s)))) in Hk.
    rewrite drop_app_length in Hk. rewrite drop_app_le in Hk by lia. done.
Qed.

(** *** [re.search] past a part *)

Lemma re_search_silent r pre rest :
  silent r pre rest → re_search r (pre ++ rest) = re_search r rest.
Proof.
  induction pre as [|c pre IH]; [done |]. intros Hs.
  change ((c :: pre) ++ rest) with (c :: (pre ++ rest)).
  cbn [re_search]. rewrite (Hs 0) by (simpl; lia).
  apply IH. intros i Hi marks. apply (Hs (S i)). simpl. lia.
Qed.

Lemma re_search_dead r (c : text) rest :
  dead r c = true → re_search r (c ++ rest) = re_search r rest.
Proof. intros Hd. by apply re_search_silent, dead_silent. Qed.

Lemma re_search_char x l r s rest :
  x ∉ s →
  re_search (At (Lit (x :: l)) :: r) (s ++ rest) = re_search (At (Lit (x :: l)) :: r) rest.
Proof. intros Hx. by apply re_search_silent, absent_silent, absent_char. Qed.

Lemma re_search_free l r s (c : text) rest :
  ¬ contains s l → border_clear l c = true →
  re_search (At (Lit l) :: r) (s ++ c ++ rest) = re_search (At (Lit l) :: r) (c ++ rest).
Proof. intros Hno Hb. by apply re_search_silent, absent_silent, absent_free. Qed.

Lemma re_search_here r s marks rest :
  re_run r [] s = Some (marks, rest) → re_search r s = Some (groups marks).
Proof. intros Hr. destruct s; simpl; by rewrite Hr. Qed.

Lemma re_search_nil l r : l ≠ [] → re_search (At (Lit l) :: r) [] = None.
Proof. intros Hl. simpl. by destruct l. Qed.

(** *** Runs of a starred class *)

Lemma run_greedy_through {R} p (k : text → option R) s rest x :
  Forall (λ c, p c = true) s →
  run_greedy p k rest = Some x → run_greedy p k (s ++ rest) = Some x.
Proof.
  intros Hs Hr. induction Hs as [|c s Hc Hs IH]; [done |].
  simpl. by rewrite Hc, IH.
Qed.

Lemma run_greedy_stop {R} p (k : text → option R) c rest :
  p c = false → run_greedy p k (c :: rest) = k (c :: rest).
Proof. intros Hc. simpl. by rewrite Hc. Qed.

Lemma run_greedy_None {R} p (k : text → option R) s :
  (∀ m, m ≤ length s → Forall (λ y, p y = true) (take m s) → k (drop m s) = None) →
  run_greedy p k s = None.
Proof.
  induction s as [|y s IH]; intros Hk.
  - apply (Hk 0); [done | constructor].
  - simpl. destruct (p y) eqn:Hy.
    + rewrite IH; [apply (Hk 0); [simpl; lia | constructor] |].
      intros m Hm Hf. apply (Hk (S m)); [simpl; lia |]. simpl. by constructor.
    + apply (Hk 0); [simpl; lia | constructor].
Qed.

(** The run gives back what it took, down to the first text at which
    the rest of the pattern matches. *)
Lemma run_greedy_back {R} p (k : text → option R) s x n :
  Forall (λ y, p y = true) (take n s) →
  k (drop n s) = Some x →
  (∀ m, n < m ≤ length s → Forall (λ y, p y = true) (take m s) →
        k (drop m s) = None) →
  run_greedy p k s = Some x.
Proof.
  revert n. induction s as [|y s IH]; intros n Hp Hk Hlater.
  - by rewrite drop_nil in Hk.
  - destruct n as [|n].
    + simpl in Hk. simpl. destruct (p y) eqn:Hy; [| done].
      rewrite run_greedy_None; [done |].
      intros m Hm Hf. apply (Hlater (S m)); [simpl; lia |]. simpl. by constructor.
    + simpl in Hp, Hk. apply Forall_cons in Hp as [Hy Hp]. simpl. rewrite Hy.
      rewrite (IH n); [done.. |].
      intros m Hm Hf. apply (Hlater (S m)); [simpl; lia |]. simpl. by constructor.
Qed.

(** The lazy run takes as little as lets the rest of the pattern
    match. *)
Lemma run_lazy_first {R} p (k : text → option R) s x n :
  Forall (λ y, p y = true) (take n s) →
  k (drop n s) = Some x →
  (∀ m, m < n → k (drop m s) = None) →
  run_lazy p k s = Some x.
Proof.
  revert n. induction s as [|y s IH]; intros n Hp Hk Hearlier.
  - rewrite drop_nil in Hk. simpl. by rewrite Hk.
  - destruct n as [|n].
    + simpl in Hk. simpl. by rewrite Hk.
    + simpl in Hp, Hk. apply Forall_cons in Hp as [Hy Hp].
      pose proof (Hearlier 0 ltac:(lia)) as H0. simpl in H0.
      simpl. rewrite H0, Hy. apply (IH n); [done.. |].
      intros m Hm. apply (Hearlier (S m)). lia.
Qed.
End regex_facts.

Section scan_facts.
Implicit Types (r : list Item) (a : list Atom) (s pre rest l : text) (p : N → bool).

(** The matcher of the operations is the matcher with groups, its
    marks left aside. *)
Lemma star_greedy_run {R} p (k : text → option text) (k' : text → option (R * text)) s :
  (∀ s, k s = snd <$> k' s) → star_greedy p k s = snd <$> run_greedy p k' s.
Proof.
  intros Hk. induction s as [|c s IH]; simpl; [apply Hk |].
  destruct (p c); [| apply Hk]. rewrite IH.
  destruct (run_greedy p k' s); [done | apply Hk].
Qed.

Lemma star_lazy_run {R} p (k : text → option text) (k' : text → option (R * text)) s :
  (∀ s, k s = snd <$> k' s) → star_lazy p k s = snd <$> run_lazy p k' s.
Proof.
  intros Hk. induction s as [|c s IH]; simpl; rewrite Hk.
  - by destruct (k' []).
  - destruct (k' (c :: s)); [done |]. simpl. by destruct (p c).
Qed.

Lemma re_match_run a s marks : re_match a s = snd <$> re_run (At <$> a) marks s.
Proof.
  revert s. induction a as [|[l | p | p | p] a IH]; intros s; simpl; try done.
  - by destruct (startswith l s).
  - destruct s as [|c s]; [done |]. by destruct (p c).
  - by apply star_greedy_run.
  - by apply star_lazy_run.
Qed.

Lemma re_match_silent a pre rest i :
  silent (At <$> a) pre rest → i < length pre → re_match a (drop i pre ++ rest) = None.
Proof. intros Hs Hi. by rewrite (re_match_run _ _ []), Hs. Qed.

Lemma re_findall_scan_silent a before after pre rest :
  silent (At <$> a) pre rest →
  re_findall_scan a before after 0 (pre ++ rest) = re_findall_scan a before after 0 rest.
Proof.
  induction pre as [|c pre IH]; [done |]. intros Hs.
  change ((c :: pre) ++ rest) with (c :: (pre ++ rest)). cbn [re_findall_scan].
  pose proof (re_match_silent a (c :: pre) rest 0 Hs ltac:(simpl; lia)) as H0.
  simpl in H0. rewrite H0. apply IH.
  intros i Hi marks. apply (Hs (S i)). simpl. lia.
Qed.

Lemma re_findall_scan_skip a before after k s :
  re_findall_scan a before after k s = re_findall_scan a before after 0 (drop k s).
Proof. revert k. induction s as [|c s IH]; intros [|k]; simpl; done. Qed.

Lemma re_findall_scan_nil a before after k : re_findall_scan a before after k [] = [].
Proof. done. Qed.

(** A match at the head of the text: its group, then the matches
    behind it. *)
Lemma re_findall_scan_here a before after s rest :
  re_match a s = Some rest → length rest < length s →
  re_findall_scan a before after 0 s
  = take (length s - length rest - before - after) (drop before s)
    :: re_findall_scan a before after 0 (drop (length s - length rest) s).
Proof.
  intros Hm Hlt. destruct s as [|c s]; [simpl in Hlt; lia |].
  cbn [re_findall_scan]. rewrite Hm. cbv zeta. f_equal.
  rewrite re_findall_scan_skip. f_equal.
  remember (length (c :: s) - length rest) as n eqn:Hn.
  destruct n as [|n]; [simpl in *; lia |]. simpl. by rewrite Nat.sub_0_r.
Qed.

Lemma re_findall_silent r pre rest :
  silent r pre rest → re_findall r 0 (pre ++ rest) = re_findall r 0 rest.
Proof.
  induction pre as [|c pre IH]; [done |]. intros Hs.
  change ((c :: pre) ++ rest) with (c :: (pre ++ rest)). cbn [re_findall].
  pose proof (Hs 0 ltac:(simpl; lia) []) as H0. simpl in H0. rewrite H0.
  apply IH. intros i Hi marks. apply (Hs (S i)). simpl. lia.
Qed.

Lemma re_findall_skip r k s : re_findall r k s = re_findall r 0 (drop k s).
Proof. revert k. induction s as [|c s IH]; intros [|k]; simpl; done. Qed.

Lemma re_findall_here r s marks rest :
  re_run r [] s = Some (marks, rest) → length rest < length s →
  re_findall r 0 s = groups marks :: re_findall r 0 (drop (length s - length rest) s).
Proof.
  intros Hm Hlt. destruct s as [|c s]; [simpl in Hlt; lia |].
  cbn [re_findall]. rewrite Hm. f_equal. rewrite re_findall_skip. f_equal.
  remember (length (c :: s) - length rest) as n eqn:Hn.
  destruct n as [|n]; [simpl in *; lia |]. simpl. by rewrite Nat.sub_0_r.
Qed.

(** A text without the first literal of a pattern has no match. *)
Lemma absent_all l s : ¬ contains s l → absent l s [].
Proof.
  intros Hno i Hi. rewrite app_nil_r.
  destruct (startswith l (drop i s)) eqn:Hs; [| done].
  exfalso. apply Hno, contains_startswith. exists i. split; [lia | done].
Qed.

Lemma re_search_absent l r s :
  l ≠ [] → ¬ contains s l → re_search (At (Lit l) :: r) s = None.
Proof.
  intros Hl Hno. rewrite <- (app_nil_r s).
  rewrite re_search_silent by by apply absent_silent, absent_all.
  by apply re_search_nil.
Qed.

Lemma re_findall_scan_absent l a before after s :
  ¬ contains s l → re_findall_scan (Lit l :: a) before after 0 s = [].
Proof.
  intros Hno. rewrite <- (app_nil_r s).
  rewrite re_findall_scan_silent; [done |].
  change (At <$> Lit l :: a) with (At (Lit l) :: (At <$> a)).
  by apply absent_silent, absent_all.
Qed.
End scan_facts.

Lemma set_order_nil `{Platform} : set_order [] = [].
Proof.
  destruct (set_order []) as [|x l] eqn:Hs; [done |].
  assert (x ∈ set_order []) as Hx by (rewrite Hs; left).
  apply (proj1 (set_order_elem _ _)) in Hx. by apply elem_of_nil in Hx.
Qed.

(** X14: the metadata of a text carry the name of the file; a text
    without [<h1] gets its title from the file name, the stem without
    [writeup-], its hyphens turned into blanks, in title case; a text
    without one of the labels, without [<img] or without [tag-] gets
    the empty date, machine field, photo or tag list. *)
Theorem X14_metadata_defaults `{Platform} `{Runtime} (writeup_file content : text) :
  wu_filename (metadata_of writeup_file content) = writeup_file
  ∧ (¬ contains content (py "<h1") →
     wu_title (metadata_of writeup_file content)
     = str_title (replace (py "-") (py " ")
                    (replace (py "writeup-") [] (stem writeup_file))))
  ∧ (¬ contains content (py "Created:") →
     wu_created_date (metadata_of writeup_file content) = [])
  ∧ (¬ contains content (py "Updated:") →
     wu_updated_date (metadata_of writeup_file content) = [])
  ∧ (¬ contains content (py "<img") →
     wu_machine_photo (metadata_of writeup_file content) = [])
  ∧ (¬ contains content (py "tag-") → wu_tags (metadata_of writeup_file content) = [])
  ∧ (¬ contains content (py "Difficulty:") →
     wu_difficulty (metadata_of writeup_file content) = [])
  ∧ (¬ contains content (py "OS:") → wu_os_type (metadata_of writeup_file content) = [])
  ∧ (¬ contains content (py "IP:") →
     wu_ip_address (metadata_of writeup_file content) = []).
Proof.
  split; [done |].
  repeat split; intros Hno; cbn [metadata_of wu_title wu_created_date wu_updated_date
    wu_machine_photo wu_tags wu_difficulty wu_os_type wu_ip_address];
    try (unfold h1_pattern, line_pattern, field_pattern, machine_photo_pattern;
         by rewrite re_search_absent).
  unfold extract_tags, findall_tag_links, tag_link_pattern.
  rewrite re_findall_scan_absent by done. apply set_order_nil.
Qed.

(** ** Runs over the parts of a text *)

Section part_facts.
Implicit Types (r : list Item) (s pre rest l : text) (p : N → bool).

Lemma silent_nil r rest : silent r [] rest.
Proof. intros i Hi. simpl in Hi. lia. Qed.

Lemma silent_app r a b rest :
  silent r a (b ++ rest) → silent r b rest → silent r (a ++ b) rest.
Proof.
  intros Ha Hb i Hi marks. destruct (decide (i < length a)) as [Hlt | Hge].
  - rewrite drop_app_le by lia. rewrite <- (assoc_L (++)). by apply Ha.
  - rewrite drop_app_ge by lia. apply Hb. rewrite length_app in Hi. lia.
Qed.

Lemma absent_head l x s rest : head l = Some x → x ∉ s → absent l s rest.
Proof. destruct l as [|y l]; [done |]. intros [= ->]. apply absent_char. Qed.

Lemma silent_head l r x s rest :
  head l = Some x → x ∉ s → silent (At (Lit l) :: r) s rest.
Proof. intros Hl Hx. by eapply absent_silent, absent_head. Qed.

Lemma silent_free l r s (c : text) rest :
  ¬ contains s l → border_clear l c = true → silent (At (Lit l) :: r) s (c ++ rest).
Proof. intros Hno Hb. by apply absent_silent, absent_free. Qed.

Lemma re_run_lit l r marks s : re_run (At (Lit l) :: r) marks (l ++ s) = re_run r marks s.
Proof.
  simpl. assert (startswith l (l ++ s) = true) as ->
      by (apply startswith_prefix; by apply prefix_app_r).
  by rewrite drop_app_length.
Qed.

Lemma re_run_mark r marks s : re_run (Mark :: r) marks s = re_run r (marks ++ [s]) s.
Proof. done. Qed.

Lemma re_run_nil marks s : re_run [] marks s = Some (marks, s).
Proof. done. Qed.

Lemma run_greedy_stops {R} p (k : text → option R) rest :
  stops p rest = true → run_greedy p k rest = k rest.
Proof.
  destruct rest as [|y rest]; [done |]. simpl.
  intros Hy%negb_true_iff. by rewrite Hy.
Qed.

(** A starred class takes a whole field when the text behind the field
    stops it and the rest of the pattern matches there. *)
Lemma re_run_star_field p r marks s rest x :
  Forall (λ y, p y = true) s → stops p rest = true →
  re_run r marks rest = Some x →
  re_run (At (Star p) :: r) marks (s ++ rest) = Some x.
Proof.
  intros Hs Hstop Hr. simpl. apply run_greedy_through; [done |].
  by rewrite run_greedy_stops.
Qed.

Lemma re_run_plus_field p r marks s rest x :
  s ≠ [] → Forall (λ y, p y = true) s → stops p rest = true →
  re_run r marks rest = Some x →
  re_run (At (One p) :: At (Star p) :: r) marks (s ++ rest) = Some x.
Proof.
  intros Hne Hs Hstop Hr. destruct s as [|y s]; [done |].
  apply Forall_cons in Hs as [Hy Hs].
  change ((y :: s) ++ rest) with (y :: (s ++ rest)).
  cbn [re_run]. rewrite Hy. by apply re_run_star_field.
Qed.

Lemma take_app_suffix {A} (s t : list A) : take (length (s ++ t) - length t) (s ++ t) = s.
Proof.
  rewrite length_app. replace (length s + length t - length t) with (length s) by lia.
  by rewrite take_app_length.
Qed.

Lemma not_char_Forall (x s : text) :
  (∀ y, y ∈ x → y ∉ s) → Forall (λ y, not_char x y = true) s.
Proof.
  intros Hx. apply Forall_forall. intros y Hy. unfold not_char.
  apply bool_decide_eq_true_2. intros Hin. by apply (Hx y).
Qed.

(** *** Trimmed fields *)

Lemma lstrip_length s : length (lstrip s) ≤ length s.
Proof.
  induction s as [|y s IH]; [done |]. simpl.
  destruct (whitespace y); simpl; lia.
Qed.

Lemma trimmed_head y s : trimmed (y :: s) → whitespace y = false.
Proof.
  unfold trimmed, strip. intros Heq.
  destruct (whitespace y) eqn:Hy; [| done]. exfalso.
  assert (lstrip (y :: s) = lstrip s) as Hl by (simpl; by rewrite Hy).
  rewrite Hl in Heq. apply (f_equal length) in Heq. rewrite length_reverse in Heq.
  pose proof (lstrip_length (reverse (lstrip s))) as H1. rewrite length_reverse in H1.
  pose proof (lstrip_length s). simpl in Heq. lia.
Qed.

Lemma stops_whitespace s rest :
  trimmed s → s ≠ [] → stops whitespace (s ++ rest) = true.
Proof.
  destruct s as [|y s]; [done |]. intros Ht%trimmed_head _. simpl. by rewrite Ht.
Qed.
End part_facts.

(** ** The parts of the writeup page *)

Lemma writeup_page_parts title tags photo created updated d o i :
  Source._generate_writeup_html title tags photo created updated d o i
  = wp_head ++ title ++ wp_crumb ++ title ++ wp_heading
    ++ py "<h1" ++ h1_attributes ++ py ">" ++ title ++ py "</h1>"
    ++ wp_dates ++ py "Created:" ++ py " " ++ created
    ++ wp_updated ++ py "Updated:" ++ py " " ++ updated
    ++ wp_tags ++ tag_links tags
    ++ wp_machine ++ Source.machine_info_html d o i
    ++ wp_photo ++ Source.photo_block photo ++ wp_tail.
Proof. reflexivity. Qed.

Lemma plain_label s l : plain s → l ∈ field_labels → ¬ contains s l.
Proof. intros [_ Hl]. rewrite Forall_forall in Hl. apply Hl. Qed.

(** A plain field is silent for a pattern that begins with a good
    label. *)
Lemma plain_silent l r s (c : text) rest :
  plain s → good_label l c = true → silent (At (Lit l) :: r) s (c ++ rest).
Proof.
  intros Hs [Hlt%bool_decide_eq_true | [Hl%bool_decide_eq_true Hb]%andb_true_iff]%orb_true_iff.
  - apply (silent_head _ _ 60%N); [done | apply Hs].
  - apply silent_free; [by apply plain_label | done].
Qed.

Ltac settle_silent :=
  first [ apply dead_silent; vm_compute; reflexivity
        | apply plain_silent; [assumption | vm_compute; reflexivity] ].
Ltac skip := rewrite re_search_silent by settle_silent.

Section round_trip.
Context `{Platform} `{Runtime}.
Variables (title photo created updated difficulty os_type ip_address : text).
Variable (tags : list text).
Variable (writeup_file : text).

Abbreviation page :=
  (Source._generate_writeup_html title tags photo created updated
     difficulty os_type ip_address).

Lemma generated_title :
  plain title → title ≠ [] →
  wu_title (metadata_of writeup_file page) = title.
Proof.
  intros Hplain Hne. pose proof (proj1 Hplain) as Hlt. cbn [metadata_of wu_title]. rewrite writeup_page_parts.
  unfold h1_pattern. do 5 skip.
  erewrite re_search_here; cycle 1.
  { rewrite re_run_lit.
    apply re_run_star_field;
      [apply (bool_decide_unpack _); by vm_compute | reflexivity |].
    rewrite re_run_lit, re_run_mark.
    apply re_run_plus_field; [done | | reflexivity |].
    { apply not_char_Forall. by intros y ->%list_elem_of_singleton. }
    rewrite re_run_mark, re_run_lit. apply re_run_nil. }
  cbn [group1 groups app]. apply take_app_suffix.
Qed.

(** A date behind its label, up to the end of its line. *)
Lemma re_run_line label (field rest : text) :
  field ≠ [] → trimmed field → 60%N ∉ field → 10%N ∉ field →
  stops (not_char (py "<" ++ nl)) rest = true →
  re_run (line_pattern label) [] (label ++ py " " ++ field ++ rest)
  = Some ([field ++ rest; rest], rest).
Proof.
  intros Hne Htrim Hlt Hnl Hstop. unfold line_pattern. rewrite re_run_lit.
  apply re_run_star_field;
    [apply (bool_decide_unpack _); by vm_compute | by apply stops_whitespace |].
  rewrite re_run_mark. apply re_run_plus_field; [done | | done |].
  { apply not_char_Forall. intros y [-> | ->%list_elem_of_singleton]%elem_of_cons; done. }
  rewrite re_run_mark. apply re_run_nil.
Qed.

Lemma generated_created :
  plain title →
  created ≠ [] → trimmed created → plain created → 10%N ∉ created →
  wu_created_date (metadata_of writeup_file page) = created.
Proof.
  intros Htitle Hne Htrim Hplain Hnl. pose proof (proj1 Hplain) as Hlt. cbn [metadata_of wu_created_date].
  rewrite writeup_page_parts. unfold line_pattern. repeat skip.
  fold (line_pattern (py "Created:")).
  erewrite re_search_here; [| by apply re_run_line].
  cbn [group1 groups]. by rewrite take_app_suffix.
Qed.

Lemma generated_updated :
  plain title → plain created →
  updated ≠ [] → trimmed updated → plain updated → 10%N ∉ updated →
  wu_updated_date (metadata_of writeup_file page) = updated.
Proof.
  intros Htitle Hcreated Hne Htrim Hplain Hnl. pose proof (proj1 Hplain) as Hlt. cbn [metadata_of wu_updated_date].
  rewrite writeup_page_parts. unfold line_pattern. repeat skip.
  fold (line_pattern (py "Updated:")).
  erewrite re_search_here; [| by apply re_run_line].
  cbn [group1 groups]. by rewrite take_app_suffix.
Qed.
End round_trip.

(** *** The parts of a page that hold fields *)

Lemma machine_info_html_parts d o i :
  Source.machine_info_html d o i
  = (match d ++ o ++ i with [] => [] | _ => info_open end)
    ++ badge difficulty_open (py "Difficulty:") d
    ++ badge os_open (py "OS:") o
    ++ badge ip_open (py "IP:") i
    ++ (match d ++ o ++ i with [] => [] | _ => info_close end).
Proof.
  unfold Source.machine_info_html, Source.machine_info_parts, badge.
  destruct d, o, i; try reflexivity;
    cbn [mjoin list_join app]; rewrite ?app_nil_r, <- ?(assoc_L (++)); reflexivity.
Qed.

Lemma photo_block_parts photo :
  Source.photo_block photo
  = match photo with
    | [] => []
    | _ => photo_open ++ py "<img" ++ src_open ++ photo ++ photo_close
    end.
Proof. destruct photo; reflexivity. Qed.

Lemma machine_info_html_some d o i :
  d ++ o ++ i ≠ [] →
  Source.machine_info_html d o i
  = info_open
    ++ badge difficulty_open (py "Difficulty:") d
    ++ badge os_open (py "OS:") o
    ++ badge ip_open (py "IP:") i
    ++ info_close.
Proof. intros Hne. rewrite machine_info_html_parts. by destruct (d ++ o ++ i). Qed.

Lemma badge_some opening label field :
  field ≠ [] →
  badge opening label field = opening ++ label ++ py " " ++ field ++ py "</span>".
Proof. by destruct field. Qed.

Lemma photo_block_some photo :
  photo ≠ [] →
  Source.photo_block photo = photo_open ++ py "<img" ++ src_open ++ photo ++ photo_close.
Proof. intros Hne. rewrite photo_block_parts. by destruct photo. Qed.

Lemma tag_links_cons tag tags :
  tag_links (tag :: tags)
  = tag_link tag ++ match tags with [] => [] | _ => nl ++ tag_links tags end.
Proof. destruct tags; [by rewrite app_nil_r |]. reflexivity. Qed.

Ltac in_pieces :=
  repeat first [apply list_elem_of_here | apply list_elem_of_further].

Section block_facts.
Implicit Types (r : list Item) (s pre rest l : text) (p : N → bool).

Lemma dead_piece r (pieces : list text) (c : text) rest :
  forallb (dead r) pieces = true → c ∈ pieces → silent r c rest.
Proof.
  intros Hd Hc. apply dead_silent.
  rewrite forallb_forall in Hd. apply Hd. by apply list_elem_of_In.
Qed.

(** A pattern that begins with a good label finds nothing in the links
    of plain tags. *)
Lemma silent_tag_link l r tag rest :
  forallb (dead (At (Lit l) :: r)) link_pieces = true →
  good_label l (py ".html") = true → good_label l (py "</a>") = true →
  plain tag → silent (At (Lit l) :: r) (tag_link tag) rest.
Proof.
  intros Hd Hhtml Ha Htag. unfold tag_link.
  assert (∀ c rest', c ∈ link_pieces → silent (At (Lit l) :: r) c rest') as Hp
    by (intros c rest' Hc; exact (dead_piece _ _ _ _ Hd Hc)).
  apply silent_app; [apply Hp; in_pieces |].
  apply silent_app; [apply Hp; in_pieces |].
  apply silent_app; [rewrite <- (assoc_L (++)); by apply plain_silent |].
  apply silent_app; [apply Hp; in_pieces |].
  apply silent_app; [apply Hp; in_pieces |].
  apply silent_app; [by apply plain_silent |].
  apply Hp; in_pieces.
Qed.

Lemma silent_tag_links l r tags rest :
  forallb (dead (At (Lit l) :: r)) link_pieces = true →
  good_label l (py ".html") = true → good_label l (py "</a>") = true →
  Forall plain tags → silent (At (Lit l) :: r) (tag_links tags) rest.
Proof.
  intros Hd Hhtml Ha Htags. revert rest.
  induction Htags as [|tag tags Htag Htags IH]; intros rest; [apply silent_nil |].
  rewrite tag_links_cons. apply silent_app; [by apply silent_tag_link |].
  destruct tags as [|tag' tags]; [apply silent_nil |].
  apply silent_app; [eapply dead_piece; [exact Hd | in_pieces] | apply IH].
Qed.

Lemma silent_badge l r opening label field rest :
  dead (At (Lit l) :: r) opening = true → dead (At (Lit l) :: r) label = true →
  dead (At (Lit l) :: r) (py " ") = true → dead (At (Lit l) :: r) (py "</span>") = true →
  good_label l (py "</span>") = true → plain field →
  silent (At (Lit l) :: r) (badge opening label field) rest.
Proof.
  intros Ho Hl Hs Hc Hg Hf. unfold badge.
  destruct field as [|y field]; [apply silent_nil |].
  repeat (apply silent_app; [first [by apply dead_silent | by apply plain_silent] |]).
  by apply dead_silent.
Qed.

Lemma silent_machine_info r d o i rest :
  dead r info_open = true → dead r info_close = true →
  (∀ rest', silent r (badge difficulty_open (py "Difficulty:") d) rest') →
  (∀ rest', silent r (badge os_open (py "OS:") o) rest') →
  (∀ rest', silent r (badge ip_open (py "IP:") i) rest') →
  silent r (Source.machine_info_html d o i) rest.
Proof.
  intros Ho Hc Hd Hos Hi. rewrite machine_info_html_parts.
  apply silent_app; [destruct (d ++ o ++ i); [apply silent_nil | by apply dead_silent] |].
  do 3 (apply silent_app; [done |]).
  destruct (d ++ o ++ i); [apply silent_nil | by apply dead_silent].
Qed.

Lemma silent_photo_block l r photo rest :
  forallb (dead (At (Lit l) :: r)) photo_pieces = true →
  good_label l photo_close = true → plain photo →
  silent (At (Lit l) :: r) (Source.photo_block photo) rest.
Proof.
  intros Hd Hg Hphoto. rewrite photo_block_parts.
  destruct photo as [|y photo]; [apply silent_nil |].
  assert (∀ c rest', c ∈ photo_pieces → silent (At (Lit l) :: r) c rest') as Hp
    by (intros c rest' Hc; exact (dead_piece _ _ _ _ Hd Hc)).
  apply silent_app; [apply Hp; in_pieces |].
  apply silent_app; [apply Hp; in_pieces |].
  apply silent_app; [apply Hp; in_pieces |].
  apply silent_app; [by apply plain_silent |].
  apply Hp; in_pieces.
Qed.

(** A pattern that finds nothing in the text and does not match the
    empty text. *)
Lemma re_search_dead_end r (c : text) :
  dead r c = true → re_run r [] [] = None → re_search r c = None.
Proof.
  intros Hd Hnil. rewrite <- (app_nil_r c), re_search_silent by by apply dead_silent.
  simpl. by rewrite Hnil.
Qed.

(** The run of a starred class over a field and a text behind it that
    the class takes as well: it gives back that text when the rest of
    the pattern matches only there. *)
Lemma run_greedy_tail {R} p (k : text → option R) s1 s2 rest x :
  Forall (λ y, p y = true) s1 → stops p rest = true →
  k (s2 ++ rest) = Some x →
  (∀ j, 0 < j ≤ length s2 → k (drop j s2 ++ rest) = None) →
  run_greedy p k (s1 ++ s2 ++ rest) = Some x.
Proof.
  intros Hs1 Hstop Hk Hlater. apply run_greedy_through; [done |].
  apply (run_greedy_back _ _ _ _ 0); [constructor | done |].
  intros m [Hm Hlen] Hf. destruct (decide (m ≤ length s2)) as [Hle | Hgt].
  - rewrite drop_app_le by done. apply Hlater. lia.
  - exfalso. rewrite take_app_ge in Hf by lia.
    apply Forall_app in Hf as [_ Hf].
    destruct rest as [|y rest]; [rewrite length_app in Hlen; simpl in Hlen; lia |].
    destruct (m - length s2) as [|n] eqn:Hn; [lia |].
    simpl in Hf, Hstop. apply Forall_cons in Hf as [Hy _].
    by rewrite Hy in Hstop.
Qed.
End block_facts.

(** *** The links of the tags, read back *)

Section link_facts.
Implicit Types (r : list Item) (s pre rest l tag : text) (p : N → bool).

Lemma re_run_one p r marks y s :
  p y = true → re_run (At (One p) :: r) marks (y :: s) = re_run r marks s.
Proof. intros Hy. cbn [re_run]. by rewrite Hy. Qed.

Lemma re_run_star p r marks s :
  re_run (At (Star p) :: r) marks s = run_greedy p (re_run r marks) s.
Proof. done. Qed.

Lemma not_quote_Forall s : 34%N ∉ s → Forall (λ y, not_char dq y = true) s.
Proof.
  intros Hq. apply not_char_Forall. by intros y ->%list_elem_of_singleton.
Qed.

(** The pattern of the links matches a link at its [tag-], up to the
    [.html] before the closing quote. *)
Lemma re_match_tag_link tag rest :
  tag ≠ [] → 34%N ∉ tag →
  re_match tag_link_pattern (py "tag-" ++ tag ++ py ".html" ++ link_class ++ rest)
  = Some (link_class ++ rest).
Proof.
  intros Hne Hq. rewrite (re_match_run _ _ []).
  change (At <$> tag_link_pattern) with tag_link_items. unfold tag_link_items.
  rewrite re_run_lit. destruct tag as [|y tag]; [done |].
  apply not_elem_of_cons in Hq as [Hy Hq].
  change ((y :: tag) ++ ?x) with (y :: (tag ++ x)).
  rewrite re_run_one
    by (apply bool_decide_eq_true_2; by intros ->%list_elem_of_singleton).
  rewrite re_run_star.
  erewrite run_greedy_tail; cycle 1.
  { by apply not_quote_Forall. }
  { reflexivity. }
  { rewrite re_run_lit. apply re_run_nil. }
  { intros j Hj. rewrite (assoc_L (++)). apply fails_sound.
    do 6 (destruct j as [|j]; [first [by vm_compute | simpl in Hj; lia] |]).
    simpl in Hj. lia. }
  done.
Qed.

Lemma scan_frame (a b c rest : text) :
  take (length (a ++ b ++ c ++ rest) - length rest - length a - length c)
       (drop (length a) (a ++ b ++ c ++ rest)) = b
  ∧ drop (length (a ++ b ++ c ++ rest) - length rest) (a ++ b ++ c ++ rest) = rest.
Proof.
  split.
  - rewrite drop_app_length, !length_app.
    replace (_ - _ - _ - _) with (length b) by lia. by rewrite take_app_length.
  - rewrite !(assoc_L (++)), length_app.
    replace (_ + _ - _) with (length ((a ++ b) ++ c)) by lia.
    by rewrite drop_app_length.
Qed.

Lemma findall_silent pre rest :
  silent tag_link_items pre rest →
  findall_tag_links (pre ++ rest) = findall_tag_links rest.
Proof. apply (re_findall_scan_silent tag_link_pattern). Qed.

Lemma findall_dead_end (c : text) :
  dead tag_link_items c = true → findall_tag_links c = [].
Proof.
  intros Hd. rewrite <- (app_nil_r c), findall_silent by by apply dead_silent.
  done.
Qed.

Lemma findall_tag_link tag rest :
  tag ≠ [] → 34%N ∉ tag → plain tag →
  findall_tag_links (tag_link tag ++ rest) = tag :: findall_tag_links rest.
Proof.
  intros Hne Hq Hplain. unfold tag_link. rewrite <- !(assoc_L (++)).
  rewrite findall_silent by (apply dead_silent; by vm_compute).
  unfold findall_tag_links at 1.
  erewrite re_findall_scan_here; [| by apply re_match_tag_link |].
  - destruct (scan_frame (py "tag-") tag (py ".html")
                (link_class ++ tag ++ py "</a>" ++ rest)) as [Hgroup Hrest].
    change (length (py "tag-")) with 4 in Hgroup.
    change (length (py ".html")) with 5 in Hgroup.
    rewrite Hgroup, Hrest. f_equal. fold (findall_tag_links (link_class ++ tag ++ py "</a>" ++ rest)).
    rewrite findall_silent by (apply dead_silent; by vm_compute).
    rewrite findall_silent by (apply plain_silent; [done | by vm_compute]).
    rewrite findall_silent by (apply dead_silent; by vm_compute).
    done.
  - rewrite !length_app. simpl. lia.
Qed.

(** The links of a page give its tags back, in the order of the
    page. *)
Lemma findall_tag_links_links tags rest :
  Forall readable_tag tags →
  findall_tag_links (tag_links tags ++ rest) = tags ++ findall_tag_links rest.
Proof.
  intros Htags. revert rest.
  induction Htags as [|tag tags (Hne & Hq & Hplain) Htags IH]; intros rest; [done |].
  rewrite tag_links_cons, <- (assoc_L (++)), findall_tag_link by done.
  cbn [app]. f_equal. destruct tags as [|tag' tags]; [done |].
  rewrite <- (assoc_L (++)), findall_silent by (apply dead_silent; by vm_compute).
  apply IH.
Qed.
End link_facts.

Ltac settle_badge :=
  intros;
  first [ apply silent_nil
        | apply silent_badge; [vm_compute; reflexivity .. | assumption] ].
Ltac settle_block :=
  first [ settle_silent
        | apply silent_tag_links; [vm_compute; reflexivity .. | assumption]
        | apply silent_machine_info;
          [vm_compute; reflexivity | vm_compute; reflexivity | settle_badge ..]
        | apply silent_photo_block; [vm_compute; reflexivity .. | assumption]
        | settle_badge ].
Ltac skip_block := rewrite re_search_silent by settle_block.
Ltac skip_links :=
  rewrite findall_silent by (unfold tag_link_items; settle_block).

(** A literal that ends with a quote, in a field without quotes that a
    quote follows: it can only end at that quote. *)
Lemma first_occurrence {A} (q : A) (a b c d : list A) :
  a ++ q :: b = c ++ q :: d → q ∉ a → q ∉ c → a = c ∧ b = d.
Proof.
  revert c. induction a as [|x a IH]; intros [|y c] Heq Ha Hc;
    simpl in Heq; [by injection Heq as Ht | injection Heq as Hx Ht ..].
  - exfalso. apply Hc. rewrite Hx. apply list_elem_of_here.
  - exfalso. apply Ha. rewrite Hx. apply list_elem_of_here.
  - apply not_elem_of_cons in Ha as [_ Ha]. apply not_elem_of_cons in Hc as [_ Hc].
    destruct (IH c Ht Ha Hc) as [Hac Hbd]. by rewrite Hx, Hac, Hbd.
Qed.

Lemma silent_quoted (l0 : text) q r (s tail rest : text) :
  q ∉ s → q ∉ l0 → fails r tail = true →
  silent (At (Lit (l0 ++ [q])) :: r) s (q :: tail ++ rest).
Proof.
  intros Hs Hl0 Hf i Hi marks. cbn [re_run].
  destruct (startswith _ _) eqn:Hsw; [| done].
  apply startswith_prefix in Hsw as [k Hk].
  rewrite <- (assoc_L (++)) in Hk. cbn [app] in Hk. symmetry in Hk.
  apply first_occurrence in Hk as [Hu Hk]; [| done |].
  - rewrite <- Hu. change (q :: tail ++ rest) with ([q] ++ tail ++ rest).
    rewrite (assoc_L (++) l0 [q]), drop_app_length. by apply fails_sound.
  - intros Hin. apply Hs. eapply subseteq_drop, Hin.
Qed.

Lemma re_run_marks r marks s :
  re_run r marks s = (λ x, (marks ++ x.1, x.2)) <$> re_run r [] s.
Proof.
  assert (∀ {R} p (k : text → option R) (f : R → R) k' s',
            (∀ t, k t = f <$> k' t) →
            run_greedy p k s' = f <$> run_greedy p k' s') as Hgreedy.
  { intros R p k f k' s' Hk. induction s' as [|c s' IH]; simpl; [apply Hk |].
    destruct (p c); [| apply Hk]. rewrite IH.
    destruct (run_greedy p k' s'); [done | apply Hk]. }
  assert (∀ {R} p (k : text → option R) (f : R → R) k' s',
            (∀ t, k t = f <$> k' t) →
            run_lazy p k s' = f <$> run_lazy p k' s') as Hlazy.
  { intros R p k f k' s' Hk. induction s' as [|c s' IH]; simpl; rewrite Hk.
    - by destruct (k' []).
    - destruct (k' (c :: s')); [done |]. by destruct (p c). }
  revert marks s. induction r as [|[[l | p | p | p]|] r IH]; intros marks s.
  - simpl. by rewrite app_nil_r.
  - cbn [re_run]. destruct (startswith l s); [apply IH | done].
  - cbn [re_run]. destruct s as [|c s]; [done |]. destruct (p c); [apply IH | done].
  - cbn [re_run]. apply Hgreedy. intros t. apply IH.
  - cbn [re_run]. apply Hlazy. intros t. apply IH.
  - cbn [re_run]. rewrite IH, (IH ([] ++ [s])).
    destruct (re_run r [] s) as [[m t]|]; [| done]. simpl.
    by rewrite <- (assoc_L (++)).
Qed.

(** A machine field behind its label, up to the end of its badge. *)
Lemma re_run_field label (field rest : text) :
  field ≠ [] → trimmed field → 60%N ∉ field →
  stops (not_char (py "<")) rest = true →
  re_run (field_pattern label) [] (label ++ py " " ++ field ++ rest)
  = Some ([field ++ rest; rest], rest).
Proof.
  intros Hne Htrim Hlt Hstop. unfold field_pattern. rewrite re_run_lit.
  apply re_run_star_field;
    [apply (bool_decide_unpack _); by vm_compute | by apply stops_whitespace |].
  rewrite re_run_mark. apply re_run_plus_field; [done | | done |].
  { apply not_char_Forall. by intros y ->%list_elem_of_singleton. }
  rewrite re_run_mark. apply re_run_nil.
Qed.

Section fields.
Context `{Platform} `{Runtime}.
Variables (title photo created updated difficulty os_type ip_address : text).
Variable (tags : list text).
Variable (writeup_file : text).
Hypothesis (Htitle : plain title) (Hcreated : plain created) (Hupdated : plain updated).
Hypothesis (Htags : Forall plain tags).
Hypothesis (Hdifficulty : plain difficulty) (Hos : plain os_type) (Hip : plain ip_address).
Hypothesis (Hphoto : plain photo).

Abbreviation page :=
  (Source._generate_writeup_html title tags photo created updated
     difficulty os_type ip_address).

Lemma generated_difficulty :
  trimmed difficulty →
  wu_difficulty (metadata_of writeup_file page) = difficulty.
Proof.
  intros Htrim. pose proof (proj1 Hdifficulty) as Hlt.
  cbn [metadata_of wu_difficulty]. rewrite writeup_page_parts. unfold field_pattern.
  destruct (decide (difficulty = [])) as [Hnil | Hne].
  - rewrite Hnil in *. repeat skip_block.
    by rewrite re_search_dead_end by (vm_compute; reflexivity).
  - rewrite machine_info_html_some by (by destruct difficulty).
    rewrite (badge_some difficulty_open) by done. rewrite <- !(assoc_L (++)).
    repeat skip_block. fold (field_pattern (py "Difficulty:")).
    erewrite re_search_here; [| by apply re_run_field].
    cbn [group1 groups]. by rewrite take_app_suffix.
Qed.

Lemma generated_os_type :
  trimmed os_type →
  wu_os_type (metadata_of writeup_file page) = os_type.
Proof.
  intros Htrim. pose proof (proj1 Hos) as Hlt.
  cbn [metadata_of wu_os_type]. rewrite writeup_page_parts. unfold field_pattern.
  destruct (decide (os_type = [])) as [Hnil | Hne].
  - rewrite Hnil in *. repeat skip_block.
    by rewrite re_search_dead_end by (vm_compute; reflexivity).
  - rewrite machine_info_html_some
      by (intros [_ [? _]%app_eq_nil]%app_eq_nil; done).
    rewrite (badge_some os_open) by done. rewrite <- !(assoc_L (++)).
    repeat skip_block. fold (field_pattern (py "OS:")).
    erewrite re_search_here; [| by apply re_run_field].
    cbn [group1 groups]. by rewrite take_app_suffix.
Qed.

Lemma generated_ip_address :
  trimmed ip_address →
  wu_ip_address (metadata_of writeup_file page) = ip_address.
Proof.
  intros Htrim. pose proof (proj1 Hip) as Hlt.
  cbn [metadata_of wu_ip_address]. rewrite writeup_page_parts. unfold field_pattern.
  destruct (decide (ip_address = [])) as [Hnil | Hne].
  - rewrite Hnil in *. repeat skip_block.
    by rewrite re_search_dead_end by (vm_compute; reflexivity).
  - rewrite machine_info_html_some
      by (intros [_ [_ ?]%app_eq_nil]%app_eq_nil; done).
    rewrite (badge_some ip_open) by done. rewrite <- !(assoc_L (++)).
    repeat skip_block. fold (field_pattern (py "IP:")).
    erewrite re_search_here; [| by apply re_run_field].
    cbn [group1 groups]. by rewrite take_app_suffix.
Qed.
End fields.

Lemma src_open_eq : src_open = 32%N :: 115%N :: (py "rc=" ++ dq).
Proof. reflexivity. Qed.

Lemma photo_close_eq : photo_close = 34%N :: photo_close_tail.
Proof. reflexivity. Qed.

(** The pattern of the photo from its [src=] on finds the photo and
    nothing behind it. *)
Lemma re_run_src (photo : text) :
  34%N ∉ photo →
  re_run (At (Lit (py "src=" ++ dq)) :: Mark :: At (Star (not_char dq)) :: Mark
          :: photo_pattern_tail) []
         ((py "src=" ++ dq) ++ photo ++ photo_close ++ wp_tail)
  = Some ([photo ++ photo_close ++ wp_tail; photo_close ++ wp_tail],
          drop 21 (photo_close ++ wp_tail)).
Proof.
  intros Hq. rewrite re_run_lit, re_run_mark.
  apply re_run_star_field; [by apply not_quote_Forall | reflexivity |].
  rewrite re_run_mark, re_run_marks.
  assert (re_run photo_pattern_tail [] (photo_close ++ wp_tail)
          = Some ([], drop 21 (photo_close ++ wp_tail))) as ->
    by (vm_compute; reflexivity).
  cbn [fmap option_fmap option_map fst snd]. by rewrite app_nil_r.
Qed.

Lemma silent_src (photo : text) :
  34%N ∉ photo →
  silent (At (Lit (py "src=" ++ dq)) :: Mark :: At (Star (not_char dq)) :: Mark
          :: photo_pattern_tail)
         ((py "rc=" ++ dq) ++ photo ++ photo_close ++ wp_tail) [].
Proof.
  intros Hq.
  apply silent_app; [apply dead_silent; vm_compute; reflexivity |].
  apply silent_app.
  { rewrite photo_close_eq.
    change ((34%N :: photo_close_tail) ++ wp_tail ++ [])
      with (34%N :: photo_close_tail ++ wp_tail ++ []).
    apply (silent_quoted (py "src=") 34%N); [done | | by vm_compute].
    apply (bool_decide_unpack _). by vm_compute. }
  apply silent_app; apply dead_silent; vm_compute; reflexivity.
Qed.

Section links_photo.
Context `{Platform} `{Runtime}.
Variables (title photo created updated difficulty os_type ip_address : text).
Variable (tags : list text).
Variable (writeup_file : text).
Hypothesis (Htitle : plain title) (Hcreated : plain created) (Hupdated : plain updated).
Hypothesis (Hdifficulty : plain difficulty) (Hos : plain os_type) (Hip : plain ip_address).
Hypothesis (Hphoto : plain photo).

Abbreviation page :=
  (Source._generate_writeup_html title tags photo created updated
     difficulty os_type ip_address).

Lemma generated_tags :
  Forall readable_tag tags →
  wu_tags (metadata_of writeup_file page) = set_order tags.
Proof.
  intros Hlinks. cbn [metadata_of wu_tags]. unfold extract_tags. f_equal.
  rewrite writeup_page_parts. repeat skip_links.
  rewrite findall_tag_links_links by done. repeat skip_links.
  rewrite findall_dead_end by (vm_compute; reflexivity). by rewrite app_nil_r.
Qed.

Lemma generated_photo :
  Forall plain tags → 34%N ∉ photo →
  wu_machine_photo (metadata_of writeup_file page) = photo.
Proof.
  intros Htags Hq. cbn [metadata_of wu_machine_photo].
  rewrite writeup_page_parts. unfold machine_photo_pattern.
  destruct (decide (photo = [])) as [Hnil | Hne].
  - rewrite Hnil in *. repeat skip_block.
    by rewrite re_search_dead_end by (vm_compute; reflexivity).
  - rewrite photo_block_some by done. rewrite <- !(assoc_L (++)).
    repeat skip_block.
    erewrite re_search_here; cycle 1.
    { rewrite re_run_lit, re_run_star, src_open_eq.
      apply (run_greedy_back _ _ _ _ 1).
      - by constructor.
      - apply (re_run_src photo Hq).
      - intros m [Hm _] _. destruct m as [|[|m]]; [lia.. |].
        change (drop (S (S m)) ?t)
          with (drop m ((py "rc=" ++ dq) ++ photo ++ photo_close ++ wp_tail)).
        destruct (decide (m < length ((py "rc=" ++ dq) ++ photo ++ photo_close ++ wp_tail)))
          as [Hlt | Hge].
        + pose proof (silent_src photo Hq m Hlt []) as Hs.
          by rewrite app_nil_r in Hs.
        + by rewrite drop_ge by lia. }
    cbn [group1 groups]. by rewrite take_app_suffix.
Qed.
End links_photo.

Lemma readable_tags_plain tags : Forall readable_tag tags → Forall plain tags.
Proof. intros Htags. eapply Forall_impl; [exact Htags |]. by intros tag (_ & _ & ?). Qed.

Lemma writeup_eq (a b : Writeup) :
  wu_title a = wu_title b → wu_filename a = wu_filename b →
  wu_created_date a = wu_created_date b → wu_updated_date a = wu_updated_date b →
  wu_machine_photo a = wu_machine_photo b → wu_tags a = wu_tags b →
  wu_difficulty a = wu_difficulty b → wu_os_type a = wu_os_type b →
  wu_ip_address a = wu_ip_address b → a = b.
Proof. destruct a, b. simpl. by intros -> -> -> -> -> -> -> -> ->. Qed.

(** The fields of the page of a readable writeup, read back. *)
Lemma metadata_of_writeup_page `{Platform} `{Runtime} (writeup_file : text) (wu : Writeup) :
  readable wu →
  metadata_of writeup_file (writeup_page wu)
  = {| wu_title := wu_title wu; wu_filename := writeup_file;
       wu_created_date := wu_created_date wu; wu_updated_date := wu_updated_date wu;
       wu_machine_photo := wu_machine_photo wu; wu_tags := set_order (wu_tags wu);
       wu_difficulty := wu_difficulty wu; wu_os_type := wu_os_type wu;
       wu_ip_address := wu_ip_address wu |}.
Proof.
  intros (Hne & Htitle & Htags & Hphoto & Hq & (Hc0 & Hc1 & Hc2 & Hc3)
          & (Hu0 & Hu1 & Hu2 & Hu3) & [Hd1 Hd2] & [Ho1 Ho2] & [Hi1 Hi2]).
  pose proof (readable_tags_plain _ Htags) as Hplain.
  unfold writeup_page. apply writeup_eq; cbn [wu_title wu_filename wu_created_date
    wu_updated_date wu_machine_photo wu_tags wu_difficulty wu_os_type wu_ip_address].
  - by apply generated_title.
  - done.
  - by apply generated_created.
  - by apply generated_updated.
  - by apply generated_photo.
  - by apply generated_tags.
  - by apply generated_difficulty.
  - by apply generated_os_type.
  - by apply generated_ip_address.
Qed.

(** X15: the page that the template of the source makes of a readable
    writeup gives the writeup back to [_extract_writeup_metadata]:
    every field as it was, the tags as the set of the tags of the page
    iterates them. *)
Theorem X15_metadata_round_trip `{Platform} `{Runtime} (wu : Writeup) :
  readable wu →
  metadata_of (wu_filename wu) (writeup_page wu)
  = set_tags (set_order (wu_tags wu)) wu.
Proof. intros Hwu. by rewrite metadata_of_writeup_page. Qed.

Lemma X15_metadata_round_trip_witness :
  readable full_writeup
  ∧ @metadata_of plain_platform sample_runtime
      (py "writeup-machine-one.html") (writeup_page full_writeup)
    = set_tags [py "smb"; py "linux"] full_writeup.
Proof.
  assert (readable full_writeup) as Hwu
      by (apply (bool_decide_unpack _); vm_compute; reflexivity).
  split; [exact Hwu |].
  exact (@X15_metadata_round_trip plain_platform sample_runtime full_writeup Hwu).
Defined.

(** The document and the writeup of a successful [create_writeup]. *)
Lemma create_writeup_document `{Platform}
  title tags machine_photo created_date updated_date difficulty os_type ip_address w w1 :
  let created := or_default created_date today in
  let new_writeup :=
    {| wu_title := title; wu_filename := writeup_filename title;
       wu_created_date := created;
       wu_updated_date := or_default updated_date created;
       wu_machine_photo := machine_photo; wu_tags := tags;
       wu_difficulty := difficulty; wu_os_type := os_type;
       wu_ip_address := ip_address |} in
  @create_writeup _ source_templates title tags machine_photo created_date updated_date
    difficulty os_type ip_address w = (true, w1) →
  writeups_dir w1 !! writeup_filename title = Some (writeup_page new_writeup)
  ∧ existing_writeups w1 = existing_writeups w ++ [new_writeup].
Proof.
  intros created new_writeup. unfold create_writeup.
  destruct (exists_file WriteupsDir (writeup_filename title) w) eqn:He; [done |].
  pose proof (@creates_tags_ensure_tags _ source_templates tags w) as (Hws & _).
  unfold write_file.
  destruct (write_fails WriteupsDir (writeup_filename title)); [done |].
  intros [= <-]. split.
  - cbn [dir_files writeups_dir set_existing_writeups print set_dir_files].
    by rewrite lookup_insert_eq.
  - cbn [existing_writeups set_existing_writeups print set_dir_files]. by rewrite Hws.
Qed.

Lemma elem_of_glob_writeup_filename `{Platform} `{Runtime} w title :
  is_Some (writeups_dir w !! writeup_filename title) →
  writeup_filename title ∈ glob_writeup_files w.
Proof.
  intros [content Hc]. unfold glob_writeup_files.
  rewrite list_elem_of_filter, list_elem_of_fmap. split.
  - split; [by vm_compute |]. unfold writeup_filename.
    exists (py "writeup-" ++ slug title). by rewrite <- (assoc_L (++)).
  - exists (writeup_filename title, content). split; [done |].
    by apply elem_of_map_to_list.
Qed.

Lemma extract_same_documents `{Platform} `{Runtime} writeup_file a b :
  writeups_dir a = writeups_dir b →
  _extract_writeup_metadata writeup_file a = _extract_writeup_metadata writeup_file b.
Proof.
  intros Hd. unfold _extract_writeup_metadata, read_file. cbn [dir_files].
  by rewrite Hd.
Qed.

Lemma X9_remove_broken_links_untouched_witness :
  tags_dir created_a.2 !! py "tag-x.html"
  = Some (@_generate_tag_html source_templates (py "x") [])
  ∧ ¬ contains (@_generate_tag_html source_templates (py "x") []) (py "writeup-b.html")
  ∧ tags_dir (@_remove_broken_links_from_tags plain_platform (py "writeup-b.html")
                created_a.2) !! py "tag-x.html"
    = Some (@_generate_tag_html source_templates (py "x") []).
Proof.
  assert (tags_dir created_a.2 !! py "tag-x.html"
          = Some (@_generate_tag_html source_templates (py "x") [])) as Hdoc
      by (vm_compute; reflexivity).
  assert (¬ contains (@_generate_tag_html source_templates (py "x") [])
              (py "writeup-b.html")) as Hfree
      by (apply (bool_decide_unpack _); vm_compute; reflexivity).
  split; [exact Hdoc |]. split; [exact Hfree |].
  exact (@X9_remove_broken_links_untouched plain_platform source_templates
           (py "writeup-b.html") created_a.2 (py "tag-x.html") _ Hdoc Hfree).
Defined.

Lemma X10_slug_collisions_witness :
  @slug plain_platform (py "a.") = @slug plain_platform (py "A")
  ∧ (@create_writeup plain_platform source_templates (py "a.") [] [] None None
       [] [] [] created_a.2).1 = false.
Proof.
  assert (@slug plain_platform (py "a.") = @slug plain_platform (py "A")) as Hslug
      by (vm_compute; reflexivity).
  assert (created_a = (true, created_a.2)) as Hrun
      by (rewrite (surjective_pairing created_a); by f_equal).
  split; [exact Hslug |].
  destruct (@X10_slug_collisions plain_platform source_templates
              (py "A") (py "a.") [py "x"] [] [] [] None None None None
              [] [] [] [] [] [] site_world created_a.2 Hslug Hrun) as (_ & _ & Hr).
  by rewrite Hr.
Defined.

Lemma X11_model_on_disk_invariant_witness :
  model_on_disk created_a.2
  ∧ model_on_disk (@update_main_pages plain_platform source_templates created_a.2).
Proof.
  assert (model_on_disk created_a.2) as Hm.
  { split.
    - unfold on_disk. apply (proj1 (Forall_forall _ _)).
      apply (bool_decide_unpack _). vm_compute. reflexivity.
    - apply (bool_decide_unpack _). vm_compute. reflexivity. }
  split; [exact Hm |].
  destruct (@X11_model_on_disk_invariant plain_platform source_templates
              created_a.2 Hm) as (_ & _ & _ & _ & _ & Hu).
  exact Hu.
Defined.

(** *** The projects of a projects page, read back *)

Lemma project_card_parts project :
  Source.project_card project
  = pc_lead ++ card_heading (pr_url project) (pr_title project)
    ++ pc_desc ++ project_text project ++ pc_date ++ pr_date project ++ pc_end.
Proof. unfold card_heading. rewrite <- !(assoc_L (++)). reflexivity. Qed.

Section project_facts.
Implicit Types (r : list Item) (s pre rest l : text) (p : N → bool).

Lemma re_run_lazy p r marks s :
  re_run (At (LazyStar p) :: r) marks s = run_lazy p (re_run r marks) s.
Proof. done. Qed.

Lemma lstrip_fixed s :
  length (lstrip s) = length s →
  match s with y :: _ => whitespace y = false | [] => True end.
Proof.
  destruct s as [|y s]; [done |]. simpl.
  destruct (whitespace y); [| done].
  pose proof (lstrip_length s). lia.
Qed.

Lemma trimmed_last s :
  trimmed s → s ≠ [] → ∃ y, last s = Some y ∧ whitespace y = false.
Proof.
  unfold trimmed, strip. intros Heq Hne.
  pose proof (f_equal length Heq) as Hlen. rewrite length_reverse in Hlen.
  pose proof (lstrip_length (reverse (lstrip s))) as H1. rewrite length_reverse in H1.
  pose proof (lstrip_length s) as H2.
  assert (lstrip s = s) as Hs.
  { destruct s as [|y s]; [done |]. simpl in *.
    destruct (whitespace y); [| done]. pose proof (lstrip_length s). lia. }
  rewrite Hs in Hlen.
  pose proof (lstrip_fixed (reverse s)) as Hr. rewrite length_reverse in Hr.
  specialize (Hr Hlen). rewrite <- head_reverse.
  destruct (reverse s) as [|y t] eqn:Et.
  - apply (f_equal length) in Et. rewrite length_reverse in Et.
    destruct s; [done | simpl in Et; lia].
  - by exists y.
Qed.

Lemma last_drop_lt {A} (s : list A) m : m < length s → last (drop m s) = last s.
Proof.
  intros Hm. rewrite <- (take_drop m s) at 2. rewrite last_app.
  destruct (last (drop m s)) eqn:El; [done |].
  apply last_None in El. apply (f_equal length) in El.
  rewrite length_drop in El. simpl in El. lia.
Qed.

(** White space and then a tag do not match in a text without [<]
    that does not end with white space. *)
Lemma ws_then_tag_fails l r marks s rest :
  head l = Some 60%N → 60%N ∉ s →
  (∃ y, last s = Some y ∧ whitespace y = false) →
  re_run (At (Star whitespace) :: At (Lit l) :: r) marks (s ++ rest) = None.
Proof.
  intros Hl Hlt (y & Hlast & Hy). rewrite re_run_star. apply run_greedy_None.
  intros m Hm Hf.
  assert (m < length s) as Hms.
  { destruct (decide (m < length s)) as [| Hge]; [done |]. exfalso.
    rewrite take_app_ge in Hf by lia. apply Forall_app in Hf as [Hf _].
    rewrite Forall_forall in Hf. specialize (Hf y).
    rewrite Hf in Hy; [done |]. apply last_Some_elem_of. by rewrite Hlast. }
  rewrite drop_app_le by lia.
  destruct (drop m s) as [|z t] eqn:Ed.
  { apply (f_equal length) in Ed. rewrite length_drop in Ed. simpl in Ed. lia. }
  assert (z ∈ s) as Hz.
  { eapply subseteq_drop. rewrite Ed. apply list_elem_of_here. }
  cbn [re_run]. destruct l as [|x l]; [done |]. injection Hl as ->.
  simpl. rewrite bool_decide_false; [done |]. by intros <-.
Qed.

(** A literal that ends with a quote, in a field without quotes that
    does not end with the literal up to its quote. *)
Lemma absent_quoted (l0 : text) q (s tail : text) :
  q ∉ s → q ∉ l0 → ¬ (l0 `suffix_of` s) → absent (l0 ++ [q]) s (q :: tail).
Proof.
  intros Hs Hl0 Hsuf i Hi.
  destruct (startswith _ _) eqn:Hsw; [| done]. exfalso.
  apply startswith_prefix in Hsw as [k Hk].
  rewrite <- (assoc_L (++)) in Hk. cbn [app] in Hk. symmetry in Hk.
  apply first_occurrence in Hk as [Hu _]; [| done |].
  - apply Hsuf. exists (take i s). by rewrite Hu, take_drop.
  - intros Hin. apply Hs. by eapply subseteq_drop.
Qed.

(** What the rest of a pattern does behind the first character of a
    text, when it finds nothing in the text behind that character. *)
Lemma later_silent r marks s rest :
  silent r (drop 1 s) rest → (∀ marks', re_run r marks' rest = None) →
  ∀ j, 0 < j ≤ length s → re_run r marks (drop j s ++ rest) = None.
Proof.
  intros Hs Hrest [|j] Hj; [lia |].
  replace (drop (S j) s) with (drop j (drop 1 s)) by (rewrite drop_drop; f_equal; lia).
  destruct (decide (j < length (drop 1 s))) as [Hlt | Hge].
  - by apply Hs.
  - rewrite drop_ge by lia. apply Hrest.
Qed.

(** The pattern of the project cards matches the heading of a card,
    and reads its link and its title. *)
Lemma re_run_card_heading (url title rest : text) :
  title ≠ [] → trimmed title → 60%N ∉ title →
  34%N ∉ url → ¬ (py "href=" `suffix_of` url) →
  re_run project_pattern [] (card_heading url title ++ rest)
  = Some ([url ++ a_attributes ++ py ">" ++ pc_gap2 ++ title ++ pc_gap3 ++ py "</a>" ++ rest;
           a_attributes ++ py ">" ++ pc_gap2 ++ title ++ pc_gap3 ++ py "</a>" ++ rest;
           title ++ pc_gap3 ++ py "</a>" ++ rest;
           pc_gap3 ++ py "</a>" ++ rest], rest).
Proof.
  intros Hne Htrim Hlt Hq Hsuf. unfold card_heading, project_pattern.
  rewrite <- !(assoc_L (++)).
  rewrite re_run_lit.
  apply re_run_star_field;
    [apply (bool_decide_unpack _); by vm_compute | reflexivity |].
  rewrite re_run_lit.
  apply re_run_star_field;
    [apply (bool_decide_unpack _); by vm_compute | reflexivity |].
  rewrite re_run_lit, re_run_star.
  change (py "href=" ++ dq ++ ?x) with ((py "href=" ++ dq) ++ x).
  rewrite (assoc_L (++) (py "href=" ++ dq) url), (assoc_L (++) _ a_attributes).
  apply run_greedy_tail; [by repeat constructor | reflexivity | |].
  - rewrite <- !(assoc_L (++)).
    change (py "href=" ++ dq ++ ?x) with ((py "href=" ++ dq) ++ x).
    rewrite re_run_lit, re_run_mark.
    apply re_run_star_field; [by apply not_quote_Forall | reflexivity |].
    rewrite re_run_mark.
    match goal with
    | |- re_run ?r ?m (a_attributes ++ ?x) = _ =>
        change (re_run r m (a_attributes ++ x))
          with (re_run r m (dq ++ a_attributes_tail ++ x))
    end.
    rewrite re_run_lit.
    apply re_run_star_field;
      [apply (bool_decide_unpack _); by vm_compute | reflexivity |].
    rewrite re_run_lit.
    apply re_run_star_field;
      [apply (bool_decide_unpack _); by vm_compute | by apply stops_whitespace |].
    rewrite re_run_mark.
    destruct (trimmed_last title Htrim Hne) as (z & Hlast & Hz).
    destruct title as [|y title]; [done |].
    apply not_elem_of_cons in Hlt as [Hy Hlt].
    change ((y :: title) ++ ?x) with (y :: (title ++ x)).
    rewrite re_run_one
      by (apply bool_decide_eq_true_2; by intros ->%list_elem_of_singleton).
    rewrite re_run_lazy.
    apply (run_lazy_first _ _ _ _ (length title)).
    + rewrite take_app_length. apply not_char_Forall.
      by intros c ->%list_elem_of_singleton.
    + rewrite drop_app_length, re_run_mark.
      apply re_run_star_field;
        [apply (bool_decide_unpack _); by vm_compute | reflexivity |].
      rewrite re_run_lit. reflexivity.
    + intros m Hm. rewrite drop_app_le by lia. rewrite re_run_mark.
      apply ws_then_tag_fails; [done | |].
      * intros Hin. apply Hlt. by eapply subseteq_drop.
      * exists z. split; [| done]. rewrite last_drop_lt by done.
        destruct title; [simpl in Hm; lia | done].
  - apply later_silent.
    + change (drop 1 (((py "href=" ++ dq) ++ url) ++ a_attributes))
        with ((py "ref=" ++ dq) ++ url ++ a_attributes).
      apply silent_app; [apply dead_silent; vm_compute; reflexivity |].
      apply silent_app; [| apply dead_silent; vm_compute; reflexivity].
      apply absent_silent. unfold a_attributes. rewrite <- (assoc_L (++)).
      apply (absent_quoted (py "href=") 34%N); [done | | done].
      apply (bool_decide_unpack _). by vm_compute.
    + intros marks'. apply (fails_sound _ (py ">")). by vm_compute.
Qed.
End project_facts.

Lemma re_findall_here_app r (a : text) marks rest :
  a ≠ [] → re_run r [] (a ++ rest) = Some (marks, rest) →
  re_findall r 0 (a ++ rest) = groups marks :: re_findall r 0 rest.
Proof.
  intros Hne Hrun. erewrite re_findall_here; [| done |].
  - by rewrite length_app, Nat.add_sub, drop_app_length.
  - rewrite length_app. destruct a; [done | simpl; lia].
Qed.

Lemma re_findall_absent l r s :
  ¬ contains s l → re_findall (At (Lit l) :: r) 0 s = [].
Proof.
  intros Hno. rewrite <- (app_nil_r s).
  by rewrite re_findall_silent by by apply absent_silent, absent_all.
Qed.

Lemma join_cons (c : text) (cs : list text) :
  join nl (c :: cs) = c ++ match cs with [] => [] | _ => nl ++ join nl cs end.
Proof. destruct cs; [by rewrite app_nil_r | done]. Qed.

(** The pattern finds one match in a card: its heading. *)
Lemma findall_project_card project rest :
  readable_project project →
  re_findall project_pattern 0 (Source.project_card project ++ rest)
  = [pr_url project; pr_title project] :: re_findall project_pattern 0 rest.
Proof.
  intros (Hne & Htrim & Hlt & Hq & Hsuf & Htext & Hdate).
  rewrite project_card_parts, <- !(assoc_L (++)).
  rewrite re_findall_silent by (apply dead_silent; vm_compute; reflexivity).
  erewrite re_findall_here_app; [| done | by apply re_run_card_heading].
  cbn [groups]. rewrite !take_app_suffix. f_equal. unfold project_pattern.
  rewrite re_findall_silent by (apply dead_silent; vm_compute; reflexivity).
  rewrite re_findall_silent by (by apply (silent_head _ _ 60%N)).
  rewrite re_findall_silent by (apply dead_silent; vm_compute; reflexivity).
  rewrite re_findall_silent by (by apply (silent_head _ _ 60%N)).
  by rewrite re_findall_silent by (apply dead_silent; vm_compute; reflexivity).
Qed.

Lemma findall_projects_grid projects rest :
  Forall readable_project projects →
  re_findall project_pattern 0 (join nl (Source.project_card <$> projects) ++ rest)
  = ((λ project, [pr_url project; pr_title project]) <$> projects)
    ++ re_findall project_pattern 0 rest.
Proof.
  intros Hp. revert rest.
  induction Hp as [|project projects Hproject Hp IH]; intros rest; [done |].
  rewrite fmap_cons, join_cons, <- (assoc_L (++)), findall_project_card by done.
  cbn [fmap list_fmap app]. f_equal.
  destruct projects as [|project' projects]; [done |].
  rewrite fmap_cons, <- (assoc_L (++)).
  rewrite re_findall_silent by (apply dead_silent; vm_compute; reflexivity).
  apply IH.
Qed.

(** X19: a projects page whose only [h5] headings are those of the
    cards that [_generate_projects_grid] made gives the projects back
    to [_extract_projects_from_html] in their order, each readable
    project with its title and its link, without its description and
    with an empty date. *)
Theorem X19_projects_read_back (w : World) (pre post : text) :
  Forall readable_project (existing_projects w) →
  ¬ contains (pre ++ post) (py "<h5") →
  projects_of (pre ++ @_generate_projects_grid source_templates w ++ post)
  = read_back <$> existing_projects w.
Proof.
  intros Hp Hno. unfold projects_of, _generate_projects_grid.
  change (@project_card source_templates) with Source.project_card.
  assert (¬ contains pre (py "<h5")) as Hpre
      by (intros Hc; by apply Hno, contains_app_l).
  assert (¬ contains post (py "<h5")) as Hpost
      by (intros Hc; by apply Hno, contains_app_r).
  assert (re_findall project_pattern 0
            (pre ++ join nl (Source.project_card <$> existing_projects w) ++ post)
          = (λ project, [pr_url project; pr_title project]) <$> existing_projects w)
    as ->.
  { destruct (existing_projects w) as [|project projects] eqn:Ep.
    - cbn [fmap list_fmap join app]. unfold project_pattern.
      by apply re_findall_absent.
    - rewrite re_findall_silent.
      + rewrite findall_projects_grid by done.
        unfold project_pattern.
        by rewrite (re_findall_absent _ _ post), app_nil_r.
      + rewrite fmap_cons, join_cons, project_card_parts, <- !(assoc_L (++)).
        unfold project_pattern. by apply silent_free. }
  rewrite <- list_fmap_compose. apply Forall_fmap_ext.
  eapply Forall_impl; [exact Hp |]. intros project (_ & Htrim & _).
  unfold read_back, compose.
  change (strip (default [] ([pr_url project; pr_title project] !! 1)))
    with (strip (pr_title project)).
  by rewrite Htrim.
Qed.

Lemma X19_projects_read_back_witness :
  projects_of
    (py "<html>"
     ++ @_generate_projects_grid source_templates
          (@create_project plain_platform (py "Port Scanner") (py "Scans ports.")
             (py "https://example.org/scanner") (Some (py "May 01, 2025"))
             site_world).2
     ++ py "</html>")
  = [{| pr_title := py "Port Scanner"; pr_description := None;
        pr_url := py "https://example.org/scanner"; pr_date := [] |}].
Proof.
  apply (X19_projects_read_back
           (@create_project plain_platform (py "Port Scanner") (py "Scans ports.")
              (py "https://example.org/scanner") (Some (py "May 01, 2025"))
              site_world).2 (py "<html>") (py "</html>")).
  - apply (bool_decide_unpack _). vm_compute. reflexivity.
  - apply (bool_decide_unpack _). vm_compute. reflexivity.
Defined.

(** ** The operations when a probe raises *)

(** ** The operations when a probe raises *)

Section raising_create.
Context `{Platform} `{Templates} `{Probe}.

Lemma create_tag_run tag_name description w :
  Raising.create_tag tag_name description w
  = if exists_fails TagsDir (tag_filename tag_name) then Raises w
    else Returns (create_tag tag_name description None w).1
                 (create_tag tag_name description None w).2.
Proof.
  unfold Raising.create_tag, Raising.exists_file, bind, step, ret, create_tag.
  destruct (exists_fails _ _); [done |].
  destruct (exists_file _ _ _); [done |].
  by destruct (write_file _ _ _ _).
Qed.

Lemma ensure_tag_run tag w :
  Raising.ensure_tag tag w
  = if bool_decide (tag ∈ existing_tags w) then Returns () w
    else if exists_fails TagsDir (tag_filename tag)
         then Raises (print (TagMissingCreatingIt tag) w)
         else Returns () (ensure_tag w tag).
Proof.
  unfold Raising.ensure_tag, ensure_tag. case_bool_decide; [done |].
  unfold bind, step, ret. rewrite create_tag_run.
  by destruct (exists_fails _ _).
Qed.

(** The tag loop of [create_writeup] ends with the error of the first
    probe that raises: the probe of the first tag of the list that is
    not known at the call and whose document cannot be probed. *)
Lemma ensure_tags_run tags w :
  let unreachable :=
    filter (λ t, (t ∉ existing_tags w) ∧ exists_fails TagsDir (tag_filename t) = true)
           tags in
  match for_each Raising.ensure_tag tags w with
  | Returns _ w' => unreachable = [] ∧ w' = foldl ensure_tag w tags
  | Raises w' =>
      ∃ t before, head unreachable = Some t ∧ before `prefix_of` tags
                  ∧ w' = print (TagMissingCreatingIt t) (foldl ensure_tag w before)
  end.
Proof.
  revert w. induction tags as [|x tags IH]; intros w; [done |].
  cbn [for_each]. unfold bind. rewrite ensure_tag_run.
  case_bool_decide as Hx.
  - rewrite filter_cons_False by (intros [? _]; done).
    specialize (IH w). cbn zeta in IH.
    assert (ensure_tag w x = w) as Hk
        by (unfold ensure_tag; by rewrite bool_decide_true).
    cbn [foldl]. rewrite Hk.
    destruct (for_each Raising.ensure_tag tags w) as [[] w' | w']; [done |].
    destruct IH as (t & before & Ht & Hb & ->).
    exists t, (x :: before). split; [done |]. split; [by apply prefix_cons |].
    cbn [foldl]. by rewrite Hk.
  - destruct (exists_fails TagsDir (tag_filename x)) eqn:Hf.
    + rewrite filter_cons_True by done.
      exists x, []. split; [done |]. split; [apply prefix_nil | done].
    + rewrite filter_cons_False by (intros [_ ?]; congruence).
      specialize (IH (ensure_tag w x)). cbn zeta in IH.
      assert (filter (λ t, (t ∉ existing_tags (ensure_tag w x))
                           ∧ exists_fails TagsDir (tag_filename t) = true) tags
              = filter (λ t, (t ∉ existing_tags w)
                             ∧ exists_fails TagsDir (tag_filename t) = true) tags)
        as Hsame.
      { apply list_filter_iff. intros t.
        destruct (decide (x = t)) as [<- | Hne].
        - split; intros [_ ?]; congruence.
        - destruct (ensure_tag_other w x t Hne) as [_ Hknown]. by rewrite Hknown. }
      rewrite Hsame in IH.
      destruct (for_each Raising.ensure_tag tags (ensure_tag w x)) as [[] w' | w'];
        [done |].
      destruct IH as (t & before & Ht & Hb & ->).
      exists t, (x :: before). split; [done |]. split; [by apply prefix_cons | done].
Qed.

(** When [create_writeup] returns, it returns what it returns when no
    probe raises. *)
Lemma create_writeup_returns title tags machine_photo created_date updated_date
  difficulty os_type ip_address w result w1 :
  Raising.create_writeup title tags machine_photo created_date updated_date
    difficulty os_type ip_address w = Returns result w1 →
  create_writeup title tags machine_photo created_date updated_date
    difficulty os_type ip_address w = (result, w1).
Proof.
  unfold Raising.create_writeup, Raising.exists_file, bind, step, ret, create_writeup.
  destruct (exists_fails _ _); [done |].
  destruct (exists_file _ _ _); [by intros [= <- <-] |].
  pose proof (ensure_tags_run tags w) as Hloop. cbn zeta in Hloop.
  destruct (for_each Raising.ensure_tag tags w) as [[] w0 | w0]; [| done].
  destruct Hloop as [_ ->].
  destruct (write_file _ _ _ _); by intros [= <- <-].
Qed.
End raising_create.

Section raising_create_writeup.
Context `{Platform} `{Templates} `{Probe}.

Lemma create_writeup_run title tags machine_photo created_date updated_date
  difficulty os_type ip_address w :
  Raising.create_writeup title tags machine_photo created_date updated_date
    difficulty os_type ip_address w
  = if exists_fails WriteupsDir (writeup_filename title) then Raises w
    else if exists_file WriteupsDir (writeup_filename title) w
         then Returns false
                (create_writeup title tags machine_photo created_date updated_date
                   difficulty os_type ip_address w).2
         else match for_each Raising.ensure_tag tags w with
              | Raises w' => Raises w'
              | Returns _ _ =>
                  Returns
                    (create_writeup title tags machine_photo created_date
                       updated_date difficulty os_type ip_address w).1
                    (create_writeup title tags machine_photo created_date
                       updated_date difficulty os_type ip_address w).2
              end.
Proof.
  unfold Raising.create_writeup, Raising.exists_file, bind, step, ret, create_writeup.
  destruct (exists_fails _ _); [done |].
  destruct (exists_file _ _ _); [done |].
  pose proof (ensure_tags_run tags w) as Hloop. cbn zeta in Hloop.
  destruct (for_each Raising.ensure_tag tags w) as [[] w0 | w0]; [| done].
  destruct Hloop as [_ ->]. by destruct (write_file _ _ _ _).
Qed.

End raising_create_writeup.



(** ** What the steps of the cascade report and leave *)

Section step_outcomes.
Context `{Platform} `{Templates}.





End step_outcomes.

Section refresh_outcome.
Context `{Platform} `{Templates}.



End refresh_outcome.

Section links_cleanup.
Context `{Platform} `{Templates}.












End links_cleanup.

Section cascade_outcome.
Context `{Platform} `{Templates}.

End cascade_outcome.

Section cascade_runs.
Context `{Platform} `{Templates} `{Probe}.

(** A loop whose rounds probe one file each, outside every [try]: it
    ends when every probe answers, and stops at the first that
    raises. *)
Lemma for_each_run {A} (body : A → M unit) (f : World → A → World)
  (probe : A → Dir * text) (l : list A) (w : World) :
  (∀ x w, body x w = if exists_fails (probe x).1 (probe x).2 then Raises w
                     else Returns () (f w x)) →
  match for_each body l w with
  | Returns _ w' =>
      (∀ x, x ∈ l → exists_fails (probe x).1 (probe x).2 = false)
      ∧ w' = foldl f w l
  | Raises w' =>
      ∃ before x after,
        l = before ++ x :: after
        ∧ exists_fails (probe x).1 (probe x).2 = true
        ∧ w' = foldl f w before
  end.
Proof.
  intros Hbody. revert w. induction l as [|x l IH]; intros w.
  { cbn. split; [by intros x ?%elem_of_nil | done]. }
  cbn [for_each]. unfold bind. rewrite Hbody.
  destruct (exists_fails (probe x).1 (probe x).2) eqn:Hx.
  { by exists [], x, l. }
  specialize (IH (f w x)). destruct (for_each body l (f w x)) as [[] w'|w'].
  - destruct IH as [Hall ->]. split; [| done].
    intros y [-> | Hy]%elem_of_cons; [done | by apply Hall].
  - destruct IH as (before & y & after & -> & Hy & ->).
    by exists (x :: before), y, after.
Qed.

Lemma cleanup_tag_run tag w :
  Raising.cleanup_tag tag w
  = if exists_fails TagsDir (tag_filename tag) then Raises w
    else Returns () (cleanup_tag w tag).
Proof.
  unfold Raising.cleanup_tag, bind, Raising.exists_file, cleanup_tag.
  destruct (exists_fails _ _); [done |].
  by destruct (exists_file _ _ _).
Qed.

Lemma update_single_tag_page_run tag w :
  Raising._update_single_tag_page tag w
  = if exists_fails TagsDir (tag_filename tag) then Raises w
    else Returns () (_update_single_tag_page tag w).
Proof.
  unfold Raising._update_single_tag_page, bind, Raising.exists_file,
    _update_single_tag_page.
  destruct (exists_fails _ _); [done |].
  by destruct (exists_file _ _ _).
Qed.

Lemma update_writeups_page_run w :
  Raising._update_writeups_page w
  = if exists_fails BaseDir (py "writeups.html") then Raises w
    else Returns () (_update_writeups_page w).
Proof.
  unfold Raising._update_writeups_page, bind, Raising.exists_file,
    _update_writeups_page.
  destruct (exists_fails _ _); [done |].
  by destruct (exists_file _ _ _).
Qed.

Lemma update_tags_page_run w :
  Raising._update_tags_page w
  = if exists_fails BaseDir (py "tags.html") then Raises w
    else Returns () (_update_tags_page w).
Proof.
  unfold Raising._update_tags_page, bind, Raising.exists_file, _update_tags_page.
  destruct (exists_fails _ _); [done |].
  by destruct (exists_file _ _ _).
Qed.

Lemma update_projects_page_run w :
  Raising._update_projects_page w
  = if exists_fails BaseDir (py "projects.html") then Raises w
    else Returns () (_update_projects_page w).
Proof.
  unfold Raising._update_projects_page, bind, Raising.exists_file,
    _update_projects_page.
  destruct (exists_fails _ _); [done |].
  by destruct (exists_file _ _ _).
Qed.

Lemma update_home_page_run w :
  Raising._update_home_page w
  = if exists_fails BaseDir (py "index.html") then Raises w
    else Returns () (_update_home_page w).
Proof.
  unfold Raising._update_home_page, bind, Raising.exists_file, _update_home_page.
  destruct (exists_fails _ _); [done |].
  by destruct (exists_file _ _ _).
Qed.

Lemma refreshes_cleanup_tags (tags : list text) w :
  refreshes w (foldl cleanup_tag w tags).
Proof.
  apply foldl_invariant; [done |].
  intros w' tag Hw'. etrans; [done | apply retags_cleanup_tag].
Qed.

Lemma refreshes_tag_pages (tags : list text) w :
  refreshes w (foldl (λ w tag, _update_single_tag_page tag w) w tags).
Proof.
  apply foldl_invariant; [done |].
  intros w' tag Hw'. etrans; [done | apply retags_update_single_tag_page].
Qed.

(** The cleanup of the unused tags with the probes that raise. *)
Lemma cleanup_unused_tags_run tags_to_check w :
  let unused := filter (λ tag, tag ∉ all_used_tags w) tags_to_check in
  match Raising._cleanup_unused_tags tags_to_check w with
  | Returns _ w' =>
      (∀ t, t ∈ unused → exists_fails TagsDir (tag_filename t) = false)
      ∧ w' = _cleanup_unused_tags tags_to_check w
  | Raises w' =>
      (∃ t, t ∈ unused ∧ exists_fails TagsDir (tag_filename t) = true)
      ∧ refreshes w w'
  end.
Proof.
  intros unused. unfold Raising._cleanup_unused_tags. fold unused.
  pose proof (for_each_run Raising.cleanup_tag cleanup_tag
                (λ tag, (TagsDir, tag_filename tag)) unused w cleanup_tag_run) as Hrun.
  destruct (for_each Raising.cleanup_tag unused w) as [[] w'|w'].
  - destruct Hrun as [Hall ->]. split; [exact Hall | done].
  - destruct Hrun as (before & t & after & Hl & Ht & ->). split.
    + exists t. split; [| done]. rewrite Hl. apply elem_of_app. right. by left.
    + apply refreshes_cleanup_tags.
Qed.

(** The refresh of the listings with the probes that raise. *)
Lemma update_main_pages_run w :
  match Raising.update_main_pages w with
  | Returns _ w' =>
      (∀ l, l ∈ listings → exists_fails BaseDir l.1.1 = false)
      ∧ (∀ t, t ∈ all_used_tags w → exists_fails TagsDir (tag_filename t) = false)
      ∧ w' = update_main_pages w
  | Raises w' =>
      ((∃ l, l ∈ listings ∧ exists_fails BaseDir l.1.1 = true)
       ∨ (∃ t, t ∈ all_used_tags w ∧ exists_fails TagsDir (tag_filename t) = true))
      ∧ refreshes w w'
  end.
Proof.
  unfold Raising.update_main_pages, bind.
  rewrite update_writeups_page_run.
  destruct (exists_fails BaseDir (py "writeups.html")) eqn:Hp1.
  { split; [| done]. left. eexists. split; [apply list_elem_of_here | done]. }
  pose proof (refreshes_update_writeups_page w) as R1.
  set (w1 := _update_writeups_page w) in *.
  rewrite update_tags_page_run.
  destruct (exists_fails BaseDir (py "tags.html")) eqn:Hp2.
  { split; [| done]. left. eexists.
    split; [apply list_elem_of_further, list_elem_of_here | done]. }
  pose proof (refreshes_update_tags_page w1) as R2.
  set (w2 := _update_tags_page w1) in *.
  rewrite update_projects_page_run.
  destruct (exists_fails BaseDir (py "projects.html")) eqn:Hp3.
  { split; [| by etrans]. left. eexists.
    split; [apply list_elem_of_further, list_elem_of_further, list_elem_of_here | done]. }
  pose proof (refreshes_update_projects_page w2) as R3.
  set (w3 := _update_projects_page w2) in *.
  rewrite update_home_page_run.
  destruct (exists_fails BaseDir (py "index.html")) eqn:Hp4.
  { split; [| by etrans; [| etrans]]. left. eexists.
    split; [apply list_elem_of_further, list_elem_of_further,
             list_elem_of_further, list_elem_of_here | done]. }
  pose proof (refreshes_update_home_page w3) as R4.
  set (w4 := _update_home_page w3) in *.
  assert (refreshes w w4) as R by (etrans; [| etrans; [| etrans]]; eassumption).
  assert (all_used_tags w4 = all_used_tags w) as Hused.
  { unfold all_used_tags. by destruct R as (_ & -> & _). }
  unfold Raising._update_all_tag_pages.
  pose proof (for_each_run Raising._update_single_tag_page
                (λ w tag, _update_single_tag_page tag w)
                (λ tag, (TagsDir, tag_filename tag)) (set_order (all_used_tags w4)) w4
                update_single_tag_page_run) as Hrun.
  destruct (for_each _ _ w4) as [[] w'|w'].
  - destruct Hrun as [Hall ->]. cbn. split; [| split].
    + intros l Hl. unfold listings in Hl.
      repeat (apply elem_of_cons in Hl as [-> | Hl]; [done |]).
      by apply elem_of_nil in Hl.
    + intros t Ht. apply (Hall t). apply set_order_elem. by rewrite Hused.
    + done.
  - destruct Hrun as (before & t & after & Hl & Ht & ->). split.
    + right. exists t. split; [| done]. rewrite <- Hused.
      apply (set_order_elem _ t). rewrite Hl. apply elem_of_app. right. by left.
    + etrans; [exact R |]. apply refreshes_tag_pages.
Qed.
End cascade_runs.

Section removal_runs.
Context `{Platform} `{Templates} `{Probe}.

(** The steps of [remove_writeup] behind the unlinking, with the probes
    that raise: they end as [remove_writeup_cascade] when every probe
    answers, and stop at the first probe that raises otherwise, the
    writeup removed from the model already. *)
Lemma remove_writeup_cascade_run title filename wu w :
  let rest := remove_first wu (existing_writeups w) in
  match (step (set_existing_writeups rest) ;;;
         step (print (RemovedWriteup title)) ;;;
         step (print RemovingBrokenLinks) ;;;
         step (_remove_broken_links_from_tags filename) ;;;
         step (print CleaningUpUnusedTags) ;;;
         Raising._cleanup_unused_tags (wu_tags wu) ;;;
         step (print UpdatingMainPages) ;;;
         Raising.update_main_pages ;;;
         ret true) w with
  | Returns result w' =>
      result = true
      ∧ Forall (λ p, exists_fails p.1 p.2 = false) (cascade_probes wu rest)
      ∧ w' = remove_writeup_cascade title filename wu w
  | Raises w' =>
      Exists (λ p, exists_fails p.1 p.2 = true) (cascade_probes wu rest)
      ∧ refreshes (set_existing_writeups rest w) w'
      ∧ ∃ out, stdout w' = stdout w ++ [RemovedWriteup title; RemovingBrokenLinks] ++ out
  end.
Proof.
  intros rest. unfold bind at 1 2 3 4 5. unfold step at 1 2 3 4 5.
  set (w2 := print RemovingBrokenLinks
               (print (RemovedWriteup title) (set_existing_writeups rest w))).
  set (w3 := _remove_broken_links_from_tags filename w2).
  set (w4 := print CleaningUpUnusedTags w3).
  assert (refreshes (set_existing_writeups rest w) w4) as R4.
  { etrans; [apply (refreshes_print (RemovedWriteup title)) |].
    etrans; [apply (refreshes_print RemovingBrokenLinks) |].
    etrans; [apply retags_remove_broken_links |]. apply refreshes_print. }
  assert (all_used_tags w4 = mjoin (wu_tags <$> rest)) as Hused4.
  { unfold all_used_tags. by destruct R4 as (_ & -> & _). }
  assert (∀ w', refreshes w4 w' →
                ∃ out, stdout w' = stdout w
                                   ++ [RemovedWriteup title; RemovingBrokenLinks] ++ out)
    as Hout.
  { intros w' [out Ho]%refreshes_stdout.
    destruct (refreshes_stdout w2 w4) as [out4 Ho4].
    { etrans; [apply retags_remove_broken_links |]. apply refreshes_print. }
    exists (out4 ++ out). rewrite Ho, Ho4. unfold w2. cbn [stdout print].
    by rewrite <- !(assoc_L (++)). }
  unfold bind at 1.
  pose proof (cleanup_unused_tags_run (wu_tags wu) w4) as Hclean.
  rewrite Hused4 in Hclean. cbv zeta in Hclean.
  destruct (Raising._cleanup_unused_tags (wu_tags wu) w4) as [[] w5|w'].
  2:{ destruct Hclean as [(t & Ht & Hf) R]. split; [| split].
      - apply Exists_exists. exists (TagsDir, tag_filename t). split; [| done].
        unfold cascade_probes. apply elem_of_app. left.
        apply list_elem_of_fmap. by exists t.
      - by etrans.
      - by apply Hout. }
  destruct Hclean as [Hunused ->].
  set (w5 := _cleanup_unused_tags (wu_tags wu) w4).
  assert (refreshes w4 w5) as R5 by apply retags_cleanup_unused_tags.
  unfold bind at 1. unfold step at 1.
  set (w6 := print UpdatingMainPages w5).
  assert (refreshes w4 w6) as R6 by (etrans; [exact R5 | apply refreshes_print]).
  assert (all_used_tags w6 = mjoin (wu_tags <$> rest)) as Hused6.
  { rewrite <- Hused4. unfold all_used_tags. by destruct R6 as (_ & -> & _). }
  unfold bind.
  pose proof (update_main_pages_run w6) as Hrefresh. rewrite Hused6 in Hrefresh.
  destruct (Raising.update_main_pages w6) as [[] w7|w'].
  - destruct Hrefresh as (Hpages & Htags & ->). cbn. split; [done |]. split; [| done].
    unfold cascade_probes. rewrite !Forall_app, !Forall_fmap. split; [| split].
    + apply Forall_forall. intros t Ht. by apply Hunused.
    + apply Forall_forall. intros l Hl. by apply Hpages.
    + apply Forall_forall. intros t Ht. by apply Htags.
  - destruct Hrefresh as [Hp R]. split; [| split].
    + apply Exists_exists. destruct Hp as [(l & Hl & Hf) | (t & Ht & Hf)].
      * exists (BaseDir, l.1.1). split; [| done].
        unfold cascade_probes. apply elem_of_app. right. apply elem_of_app. left.
        apply list_elem_of_fmap. by exists l.
      * exists (TagsDir, tag_filename t). split; [| done].
        unfold cascade_probes. apply elem_of_app. right. apply elem_of_app. right.
        apply list_elem_of_fmap. by exists t.
    + etrans; [exact R4 |]. by etrans.
    + apply Hout. by etrans.
Qed.

(** Where no probe raises, the two descriptions of [remove_writeup]
    agree. *)
Lemma remove_writeup_returns title w :
  (∀ d name, exists_fails d name = false) →
  Raising.remove_writeup title w
  = Returns (remove_writeup title w).1 (remove_writeup title w).2.
Proof.
  intros Hno. unfold Raising.remove_writeup, remove_writeup.
  destruct (list_find _ _) as [[i wu]|]; [| done].
  unfold Raising.exists_file. rewrite Hno.
  assert (∀ w1, (step (set_existing_writeups
                         (remove_first wu (existing_writeups w1))) ;;;
                 step (print (RemovedWriteup title)) ;;;
                 step (print RemovingBrokenLinks) ;;;
                 step (_remove_broken_links_from_tags (writeup_filename title)) ;;;
                 step (print CleaningUpUnusedTags) ;;;
                 Raising._cleanup_unused_tags (wu_tags wu) ;;;
                 step (print UpdatingMainPages) ;;;
                 Raising.update_main_pages ;;;
                 ret true) w1
                = Returns true (remove_writeup_cascade title (writeup_filename title)
                                  wu w1)) as Hcascade.
  { intros w1.
    pose proof (remove_writeup_cascade_run title (writeup_filename title) wu w1) as Hrun.
    cbv zeta in Hrun.
    match goal with |- ?m = _ => destruct m as [result w'|w'] end.
    - by destruct Hrun as (-> & _ & ->).
    - destruct Hrun as [(p & _ & Hp)%Exists_exists _]. by rewrite Hno in Hp. }
  destruct (exists_file WriteupsDir (writeup_filename title) w).
  - destruct (unlink_file _ _ w) as [w1|]; [| done]. cbn [fmap option_fmap option_map].
    apply Hcascade.
  - apply Hcascade.
Qed.
End removal_runs.

Section removal.
Context `{Platform} `{Templates} `{Probe}.

End removal.


Section refusing.
Context `{Platform} `{Templates} `{Probe}.

(** C6. The slug of a title is its lower-cased form with the spaces
    turned into hyphens and the colons and periods stripped, and the
    writeup document of a title is [writeup-] with that slug and
    [.html].  When that document exists, [create_writeup] prints its
    three lines, returns [False] and changes neither the files nor the
    model.  A successful call found no such document and leaves the
    page of the writeup under that name; so a call that follows it for
    the same title fails and leaves the model as the first call left
    it, with one writeup of that file name more than before the first
    call: exactly one when every writeup of the model had its
    document.  The refusal is also what the call does when the probe
    of the document is counted among the things that can raise, and
    answers. *)
Theorem C6_create_writeup_refuses_existing (title : text) (tags : list text)
  (machine_photo : text) (created_date updated_date : option text)
  (difficulty os_type ip_address : text) (w : World) :
  let filename := py "writeup-" ++ slug_spec title ++ py ".html" in
  slug title = slug_spec title
  ∧ writeup_filename title = filename
  ∧ (is_Some (writeups_dir w !! filename) →
     let r := create_writeup title tags machine_photo created_date updated_date
                difficulty os_type ip_address w in
     r.1 = false
     ∧ base_dir r.2 = base_dir w ∧ tags_dir r.2 = tags_dir w
     ∧ writeups_dir r.2 = writeups_dir w
     ∧ existing_tags r.2 = existing_tags w
     ∧ existing_writeups r.2 = existing_writeups w
     ∧ existing_projects r.2 = existing_projects w
     ∧ stdout r.2 = stdout w ++ [WriteupAlreadyExists title;
                                 WriteupAlreadyExistsFile filename;
                                 UseDifferentTitle])
  ∧ (∀ w1 tags2 machine_photo2 created_date2 updated_date2 difficulty2 os_type2
       ip_address2,
        create_writeup title tags machine_photo created_date updated_date
          difficulty os_type ip_address w = (true, w1) →
        writeups_dir w !! filename = None
        ∧ writeups_dir w1
          = <[filename :=
                _generate_writeup_html title tags machine_photo
                  (or_default created_date today)
                  (or_default updated_date (or_default created_date today))
                  difficulty os_type ip_address]> (writeups_dir w)
        ∧ let r := create_writeup title tags2 machine_photo2 created_date2
                     updated_date2 difficulty2 os_type2 ip_address2 w1 in
          r.1 = false
          ∧ base_dir r.2 = base_dir w1 ∧ tags_dir r.2 = tags_dir w1
          ∧ writeups_dir r.2 = writeups_dir w1
          ∧ existing_tags r.2 = existing_tags w1
          ∧ existing_writeups r.2 = existing_writeups w1
          ∧ writeups_named filename r.2 = S (writeups_named filename w)
          ∧ (on_disk w → writeups_named filename r.2 = 1))
  ∧ (is_Some (writeups_dir w !! filename) →
     exists_fails WriteupsDir filename = false →
     Raising.create_writeup title tags machine_photo created_date updated_date
       difficulty os_type ip_address w
     = Returns false
         (print UseDifferentTitle
            (print (WriteupAlreadyExistsFile filename)
               (print (WriteupAlreadyExists title) w)))).
Proof.
  intros filename.
  assert (writeup_filename title = filename) as Hname
      by (unfold writeup_filename, filename; by rewrite slug_is_slug_spec).
  clearbody filename. subst filename.
  split; [apply slug_is_slug_spec |]. split; [done |]. split.
  { intros He%(exists_file_true WriteupsDir) r. unfold r.
    rewrite create_writeup_refuses by done. cbn.
    by rewrite <- !(assoc_L (++)). }
  split; cycle 1.
  { intros He%(exists_file_true WriteupsDir) Hp.
    rewrite create_writeup_run, Hp, He.
    by rewrite create_writeup_refuses by done. }
  intros w1 tags2 machine_photo2 created_date2 updated_date2 difficulty2 os_type2
    ip_address2 Hfirst.
  pose proof Hfirst as Hrun.
  apply create_writeup_true in Hfirst as (He & He1 & new_writeup & Hname & Hws).
  split; [by apply (exists_file_false WriteupsDir) |]. split.
  { unfold create_writeup in Hrun. rewrite He in Hrun.
    pose proof (creates_tags_ensure_tags tags w) as (_ & _ & Hd & _).
    unfold write_file in Hrun.
    destruct (write_fails WriteupsDir (writeup_filename title)); [done |].
    injection Hrun as <-.
    cbn [writeups_dir dir_files set_existing_writeups print set_dir_files].
    by rewrite Hd. }
  intros r. unfold r. rewrite create_writeup_refuses by exact He1.
  cbn [fst snd base_dir tags_dir writeups_dir existing_tags existing_writeups print].
  do 6 (split; [done |]).
  assert (writeups_named (writeup_filename title)
            (print UseDifferentTitle
               (print (WriteupAlreadyExistsFile (writeup_filename title))
                  (print (WriteupAlreadyExists title) w1)))
          = S (writeups_named (writeup_filename title) w)) as Hcount.
  { unfold writeups_named. cbn [existing_writeups print].
    rewrite Hws, filter_app, length_app, filter_cons_True by done. simpl. lia. }
  split; [exact Hcount |].
  intros Hdisk. rewrite Hcount. f_equal. unfold writeups_named.
  apply length_zero_iff_nil, elem_of_nil_inv.
  intros wu [Hn Hin]%list_elem_of_filter.
  apply Hdisk in Hin. rewrite Hn in Hin.
  apply (proj1 (exists_file_false WriteupsDir _ w)) in He. simpl in He.
  rewrite He in Hin. by destruct Hin.
Qed.
End refusing.

Lemma C6_create_writeup_refuses_existing_witness :
  on_disk site_world
  ∧ @create_writeup plain_platform source_templates (py "A") [py "x"] [] None None
      [] [] [] site_world = (true, created_a.2)
  ∧ @writeup_filename plain_platform (py "A") = py "writeup-a.html"
  ∧ writeups_dir site_world !! py "writeup-a.html" = None
  ∧ is_Some (writeups_dir created_a.2 !! py "writeup-a.html")
  ∧ (@create_writeup plain_platform source_templates (py "A") [py "x"] [] None None
       [] [] [] created_a.2).1 = false
  ∧ writeups_named (py "writeup-a.html")
      (@create_writeup plain_platform source_templates (py "A") [py "x"] [] None None
         [] [] [] created_a.2).2 = 1
  ∧ @Raising.create_writeup plain_platform source_templates name_max_probe
      (py "A") [py "x"] [] None None [] [] [] created_a.2
    = Returns false
        (@create_writeup plain_platform source_templates (py "A") [py "x"] [] None None
           [] [] [] created_a.2).2.
Proof.
  assert (on_disk site_world) as Hdisk by by intros wu ?%elem_of_nil.
  assert (@create_writeup plain_platform source_templates (py "A") [py "x"] [] None None
            [] [] [] site_world = (true, created_a.2)) as Hfirst by by vm_compute.
  split; [exact Hdisk |]. split; [exact Hfirst |].
  destruct (@C6_create_writeup_refuses_existing plain_platform source_templates
              name_max_probe (py "A") [py "x"] [] None None [] [] [] site_world)
    as (_ & Hname & _ & Htwice & _).
  change (py "writeup-" ++ @slug_spec plain_platform (py "A") ++ py ".html")
    with (py "writeup-a.html") in Hname, Htwice.
  destruct (Htwice created_a.2 [py "x"] [] None None [] [] [] Hfirst)
    as (Habsent & Hdoc & Hr & _ & _ & _ & _ & _ & _ & Hone).
  split; [exact Hname |]. split; [exact Habsent |]. split.
  { rewrite Hdoc, lookup_insert_eq. by eexists. }
  split; [exact Hr |]. split; [exact (Hone Hdisk) |].
  destruct (@C6_create_writeup_refuses_existing plain_platform source_templates
              name_max_probe (py "A") [py "x"] [] None None [] [] [] created_a.2)
    as (_ & _ & _ & _ & Hraising).
  change (py "writeup-" ++ @slug_spec plain_platform (py "A") ++ py ".html")
    with (py "writeup-a.html") in Hraising.
  rewrite Hraising; [by vm_compute | | by vm_compute].
  rewrite Hdoc, lookup_insert_eq. by eexists.
Defined.


(** Where the probe of a file raises for the names of more than 255
    characters, [remove_writeup] of a writeup with a tag of 300
    characters raises from the cleanup of the unused tags: the writeup
    has left the model, the listings are not refreshed and nothing is
    returned. *)
Lemma remove_writeup_raises_at_long_tag :
  ∃ w', @Raising.remove_writeup plain_platform source_templates name_max_probe
          (py "A") long_tag_world
        = Raises w'
        ∧ existing_writeups w' = []
        ∧ stdout w' = [WriteupFileMissing (py "writeup-a.html");
                       RemovedWriteup (py "A"); RemovingBrokenLinks;
                       CleaningUpUnusedTags].
Proof.
  eexists. split; [vm_compute; reflexivity |]. split; reflexivity.
Qed.
